(** * Code-RAG core: chunker, incremental indexer, hybrid search, context assembler

    A shallow embedding of the four Python modules

      - [src/chunking/ast_chunker.py]
      - [src/indexing/incremental_indexer.py]
      - [src/search/hybrid_search.py]
      - [src/context/context_assembler.py]

    Python [int] is [Z], Python [float] is the kernel's binary64 [float]
    (the same IEEE 754 format and rounding CPython uses), [str] is [string]
    (read as ASCII text), [Optional[T]] is [option T], a [list] is a [list].
    Injected collaborators (tokenizer, embedding functions, the vector
    store client, git, tree-sitter, SHA-256) are fields of the record that
    models [self] or of the world the code runs in. *)

From Stdlib Require Import ZArith List String Ascii Bool Lia.
From Stdlib Require Import Floats.PrimFloat Numbers.Cyclic.Int63.Uint63.
From stdpp Require Import base list strings pretty gmap.

#[local] Set Warnings "-inexact-float,-register-all".
#[local] Open Scope string_scope.
#[local] Open Scope list_scope.
#[local] Open Scope Z_scope.

(** ** Python built-ins used by the four modules *)

Module Py.

(** A raised exception: the class name and its message. *)
Inductive exn : Type :=
| ValueError (msg : string)
| ZeroDivisionError (msg : string)
| AttributeError (msg : string)
| OtherError (msg : string).

(** The outcome of a call that may raise. *)
Definition result (A : Type) : Type := (exn + A)%type.

Definition ok {A : Type} (a : A) : result A := inr a.
Definition raise {A : Type} (e : exn) : result A := inl e.

(** [float(z)] for an [int]; exact whenever [|z| < 2^53]. *)
Definition float_of_Z (z : Z) : float :=
  if z <? 0 then PrimFloat.opp (of_uint63 (Uint63.of_Z (- z)))
  else of_uint63 (Uint63.of_Z z).

(** [a > b], [a >= b] and [a < b] on floats (all false on NaN). *)
Definition fgt (a b : float) : bool := PrimFloat.ltb b a.
Definition fge (a b : float) : bool := PrimFloat.leb b a.
Definition flt (a b : float) : bool := PrimFloat.ltb a b.

(** [len(l)] as a Python [int]. *)
Definition len {A : Type} (l : list A) : Z := Z.of_nat (length l).

(** [l[:n]]: a negative bound counts from the end, and bounds are clamped. *)
Definition slice_to {A : Type} (n : Z) (l : list A) : list A :=
  if n <? 0 then take (length l - Z.to_nat (- n)) l
  else take (Z.to_nat n) l.

(** [l[n:]] for [n >= 0]. *)
Definition slice_from {A : Type} (n : nat) (l : list A) : list A := drop n l.

(** [l[-n:]] for a positive constant [n]. *)
Definition slice_last {A : Type} (n : nat) (l : list A) : list A :=
  drop (length l - n) l.

(** [sorted(l, key=key, reverse=True)]: stable, descending, and decided
    with [<] on keys only, as [list.sort] does.  An element moves in
    front of the first one whose key is not greater than its own.  This
    is the order [list.sort] produces whenever [<] orders the keys
    (no NaN among them). *)
Fixpoint insert_desc {A K : Type} (lt : K -> K -> bool) (key : A -> K)
    (x : A) (l : list A) : list A :=
  match l with
  | [] => [x]
  | y :: l' =>
      if lt (key x) (key y) then y :: insert_desc lt key x l'
      else x :: y :: l'
  end.

Definition sorted_desc {A K : Type} (lt : K -> K -> bool) (key : A -> K)
    (l : list A) : list A :=
  foldr (insert_desc lt key) [] l.

(** [sorted(l, key=key)]: stable and ascending. *)
Fixpoint insert_asc {A K : Type} (lt : K -> K -> bool) (key : A -> K)
    (x : A) (l : list A) : list A :=
  match l with
  | [] => [x]
  | y :: l' =>
      if lt (key y) (key x) then y :: insert_asc lt key x l'
      else x :: y :: l'
  end.

Definition sorted_asc {A K : Type} (lt : K -> K -> bool) (key : A -> K)
    (l : list A) : list A :=
  foldr (insert_asc lt key) [] l.

(** [<] on [(str, str)] tuples: the first components decide unless equal. *)
Definition pair_lt (a b : string * string) : bool :=
  if String.eqb (fst a) (fst b) then String.ltb (snd a) (snd b)
  else String.ltb (fst a) (fst b).

(** [c.lower()] on one ASCII character. *)
Definition lower_ascii (c : ascii) : ascii :=
  let n := nat_of_ascii c in
  if (Nat.leb 65 n && Nat.leb n 90)%bool then ascii_of_nat (n + 32) else c.

(** [s.lower()]. *)
Fixpoint lower (s : string) : string :=
  match s with
  | EmptyString => EmptyString
  | String c s' => String (lower_ascii c) (lower s')
  end.

(** [a in b] for strings: [a] occurs in [b] as a substring. *)
Fixpoint contains (a b : string) : bool :=
  String.prefix a b ||
  match b with
  | EmptyString => false
  | String _ b' => contains a b'
  end.

(** Truthiness of an [Optional[str]]: neither [None] nor empty. *)
Definition truthy (s : option string) : bool :=
  match s with
  | Some (String _ _) => true
  | _ => false
  end.

(** [s or ""] for an [Optional[str]]. *)
Definition or_empty (s : option string) : string :=
  match s with
  | Some s' => s'
  | None => ""
  end.

(** [x in (a, b, c)] for an [Optional[str]] against string constants. *)
Definition opt_in (x : option string) (l : list string) : bool :=
  match x with
  | Some s => existsb (String.eqb s) l
  | None => false
  end.

(** [sum(l)] for ints. *)
Definition sum (l : list Z) : Z := foldr Z.add 0 l.

(** [len(set(l))] for strings: the number of distinct elements. *)
Fixpoint distinct (l : list string) : list string :=
  match l with
  | [] => []
  | x :: l' => if existsb (String.eqb x) l' then distinct l' else x :: distinct l'
  end.

(** A [dict[str, V]] in insertion order. *)
Definition dict (V : Type) : Type := list (string * V).

Fixpoint dict_get {V : Type} (d : dict V) (k : string) : option V :=
  match d with
  | [] => None
  | (k', v) :: d' => if String.eqb k' k then Some v else dict_get d' k
  end.

(** [d[k] = v]: a key already present keeps its place. *)
Fixpoint dict_set {V : Type} (d : dict V) (k : string) (v : V) : dict V :=
  match d with
  | [] => [(k, v)]
  | (k', v') :: d' =>
      if String.eqb k' k then (k', v) :: d' else (k', v') :: dict_set d' k v
  end.

(** A list comprehension whose element expression may raise. *)
Fixpoint try_map {A B : Type} (f : A -> result B) (l : list A)
    : result (list B) :=
  match l with
  | [] => ok []
  | x :: l' =>
      match f x with
      | inl e => raise e
      | inr y =>
          match try_map f l' with
          | inl e => raise e
          | inr ys => ok (y :: ys)
          end
      end
  end.

(** [s.endswith(suffix)]. *)
Fixpoint endswith (s suffix : string) : bool :=
  String.eqb s suffix ||
  match s with
  | EmptyString => false
  | String _ s' => endswith s' suffix
  end.

(** [str(e)] for an exception: its message. *)
Definition str_exn (e : exn) : string :=
  match e with
  | ValueError msg | ZeroDivisionError msg | AttributeError msg | OtherError msg => msg
  end.

(** The final component of a path. *)
Fixpoint basename (p : string) : string :=
  match p with
  | EmptyString => EmptyString
  | String c rest =>
      if contains "/" rest then basename rest
      else if Ascii.eqb c "/" then rest else p
  end.

(** [len(s)] for a string. *)
Definition str_len (s : string) : Z := Z.of_nat (String.length s).

(** [s[a:b]] for [0 <= a]: bounds are clamped. *)
Definition substr (a b : Z) (s : string) : string :=
  String.substring (Z.to_nat a) (Z.to_nat (b - a)) s.

(** [s.count(c)] for one character. *)
Fixpoint count_char (c : ascii) (s : string) : Z :=
  match s with
  | EmptyString => 0
  | String c' s' => (if Ascii.eqb c' c then 1 else 0) + count_char c s'
  end.

(** [s.split(sep)] for a one-character separator. *)
Fixpoint split_on (sep : ascii) (s : string) : list string :=
  match s with
  | EmptyString => [EmptyString]
  | String c s' =>
      if Ascii.eqb c sep then EmptyString :: split_on sep s'
      else match split_on sep s' with
           | h :: t => String c h :: t
           | [] => [String c EmptyString]
           end
  end.

(** The characters [str.strip()] and [str.split()] take for whitespace. *)
Definition is_space (c : ascii) : bool :=
  let n := nat_of_ascii c in
  ((Nat.leb 9 n && Nat.leb n 13) || (Nat.leb 28 n && Nat.leb n 32))%bool.

Fixpoint lstrip_by (drop : ascii -> bool) (s : string) : string :=
  match s with
  | EmptyString => EmptyString
  | String c s' => if drop c then lstrip_by drop s' else s
  end.

Fixpoint rstrip_by (drop : ascii -> bool) (s : string) : string :=
  match s with
  | EmptyString => EmptyString
  | String c s' =>
      match rstrip_by drop s' with
      | EmptyString => if drop c then EmptyString else String c EmptyString
      | r => String c r
      end
  end.

(** [s.strip(chars)], [s.strip()] and [s.rstrip()]. *)
Definition strip_chars (chars : list ascii) (s : string) : string :=
  let drop := fun c => existsb (Ascii.eqb c) chars in
  rstrip_by drop (lstrip_by drop s).

Definition strip (s : string) : string := rstrip_by is_space (lstrip_by is_space s).
Definition rstrip (s : string) : string := rstrip_by is_space s.

(** [len(s.split())]: the number of whitespace-separated words. *)
Fixpoint count_words (in_word : bool) (s : string) : Z :=
  match s with
  | EmptyString => 0
  | String c s' =>
      if is_space c then count_words false s'
      else (if in_word then 0 else 1) + count_words true s'
  end.

(** [sep.join(l)]. *)
Definition join (sep : string) (l : list string) : string := String.concat sep l.

(** The double quote, the newline, and three quotes of each kind. *)
Definition dquote : ascii := "034"%char.
Definition newline : ascii := "010"%char.
Definition triple_dquote : string :=
  String dquote (String dquote (String dquote EmptyString)).
Definition triple_quote : string := "'''".

(** [str(x)] for an [Optional[str]] inside an f-string. *)
Definition str_opt (s : option string) : string :=
  match s with
  | Some s' => s'
  | None => "None"
  end.

(** [f(x)] inside a result. *)
Definition result_map {A B : Type} (f : A -> B) (r : result A) : result B :=
  match r with
  | inl e => inl e
  | inr a => inr (f a)
  end.

End Py.

(** ** The vector store ([qdrant_client]) *)

(** The request types the code builds, and a reference model of the
    store behind [QdrantClient]: a collection is a list of points, an
    upsert replaces the point with the same id or appends, a filter
    selects by payload fields. *)
Module qdrant.

Inductive Match : Type :=
| MatchValue (value : string)
| MatchAny (any : list string).

Record FieldCondition : Type := mkFieldCondition {
  key : string;
  match_ : Match;
}.

Record Filter : Type := mkFilter {
  must : option (list FieldCondition);
  must_not : option (list FieldCondition);
}.

(** A payload value: the code stores strings, ints and [None]. *)
Inductive PyVal : Type :=
| VStr (s : string)
| VInt (z : Z)
| VNone.

Record PointStruct : Type := mkPointStruct {
  id_ : string;
  vector : Py.dict (list float);
  payload : Py.dict PyVal;
}.

(** The collections, by name; one that was never written is empty. *)
Definition Store : Type := gmap string (list PointStruct).

Definition points_of (store : Store) (collection : string) : list PointStruct :=
  default [] (store !! collection).

Definition condition_holds (p : PointStruct) (c : FieldCondition) : bool :=
  match Py.dict_get (payload p) (key c), match_ c with
  | Some (VStr s), MatchValue v => String.eqb s v
  | Some (VStr s), MatchAny vs => existsb (String.eqb s) vs
  | _, _ => false
  end.

Definition matches (f : Filter) (p : PointStruct) : bool :=
  forallb (condition_holds p) (default [] (must f)) &&
  negb (existsb (condition_holds p) (default [] (must_not f))).

Definition store_count (store : Store) (collection : string) (f : Filter) : Z :=
  Py.len (List.filter (matches f) (points_of store collection)).

Definition store_delete (store : Store) (collection : string) (f : Filter) : Store :=
  <[collection := List.filter (fun p => negb (matches f p)) (points_of store collection)]>
    store.

Definition store_scroll (store : Store) (collection : string) (f : Filter) (limit : Z)
    : list PointStruct :=
  Py.slice_to limit (List.filter (matches f) (points_of store collection)).

Fixpoint upsert_point (points : list PointStruct) (p : PointStruct)
    : list PointStruct :=
  match points with
  | [] => [p]
  | q :: points' =>
      if String.eqb (id_ q) (id_ p) then p :: points'
      else q :: upsert_point points' p
  end.

Definition store_upsert (store : Store) (collection : string) (points : list PointStruct)
    : Store :=
  <[collection := fold_left upsert_point points (points_of store collection)]> store.

End qdrant.

(** ** [src/chunking/ast_chunker.py] *)

Module ast_chunker.

Inductive ChunkType : Type :=
| FILE | MODULE | CLASS | METHOD | FUNCTION | BLOCK | PATTERN.

(** The enum member's [value]. *)
Definition value (t : ChunkType) : string :=
  match t with
  | FILE => "file"
  | MODULE => "module"
  | CLASS => "class"
  | METHOD => "method"
  | FUNCTION => "function"
  | BLOCK => "block"
  | PATTERN => "pattern"
  end.

Record CodeChunk : Type := mkCodeChunk {
  id_ : string;
  file_path : string;
  chunk_type : ChunkType;
  start_line : Z;
  end_line : Z;
  start_byte : Z;
  end_byte : Z;
  content : string;
  docstring : option string;
  symbol_name : option string;
  parent_symbol : option string;
  signature : option string;
  imports : list string;
  calls : list string;
  dependencies : list string;
  language : string;
  complexity : Z;
  tokens_estimate : Z;
}.

(** *** The parse tree ([tree_sitter]) *)

(** A node: its type, byte range, first and last row, source text (when
    the binding exposes [text]) and children. *)
Inductive Node : Type :=
| mkNode (type : string) (start_byte end_byte : Z) (start_row end_row : Z)
    (text : option string) (children : list Node).

Definition type (n : Node) : string := let 'mkNode t _ _ _ _ _ _ := n in t.
Definition node_start_byte (n : Node) : Z := let 'mkNode _ a _ _ _ _ _ := n in a.
Definition node_end_byte (n : Node) : Z := let 'mkNode _ _ b _ _ _ _ := n in b.
Definition start_row (n : Node) : Z := let 'mkNode _ _ _ r _ _ _ := n in r.
Definition end_row (n : Node) : Z := let 'mkNode _ _ _ _ r _ _ := n in r.
Definition text (n : Node) : option string := let 'mkNode _ _ _ _ _ t _ := n in t.
Definition children (n : Node) : list Node := let 'mkNode _ _ _ _ _ _ c := n in c.

(** [self]: the language tag and the parser set by [__init__], with the
    two library behaviours the class relies on: [hashlib.sha256] and the
    order in which [list(set(...))] lists a set, which changes from one
    interpreter run to the next. *)
Record ASTChunker : Type := mkASTChunker {
  chunker_language : string;
  parser : string -> Node;
  sha256_hexdigest : string -> string;
  set_order : list string -> list string;
}.

Definition MAX_CHUNK_TOKENS : Z := 512.
Definition MIN_CHUNK_TOKENS : Z := 50.
Definition OVERLAP_LINES : nat := 3.

(** [CodeChunk.compute_id], with the chunker's [sha256]. *)
Definition compute_id (sha256 : string -> string) (chunk : CodeChunk) : string :=
  let content_hash :=
    Py.substr 0 16
      (sha256 (file_path chunk +:+ ":" +:+ Py.str_opt (symbol_name chunk) +:+ ":"
               +:+ content chunk)) in
  value (chunk_type chunk) +:+ "_" +:+ content_hash.

Definition _estimate_tokens (text : string) : Z := Py.str_len text / 4.

(** A node's source: [content[node.start_byte:node.end_byte]]. *)
Definition source_of (content : string) (n : Node) : string :=
  Py.substr (node_start_byte n) (node_end_byte n) content.

(** The nodes of [node_type] under [node], itself included, in the order
    the generator yields them. *)
Fixpoint _find_nodes (node : Node) (node_type : string) : list Node :=
  match node with
  | mkNode t _ _ _ _ _ cs =>
      (if String.eqb t node_type then [node] else []) ++
      (fix under (l : list Node) : list Node :=
         match l with
         | [] => []
         | c :: l' => _find_nodes c node_type ++ under l'
         end) cs
  end.

(** The first child of the given type. *)
Definition first_child (node : Node) (node_type : string) : option Node :=
  List.find (fun c => String.eqb (type c) node_type) (children node).

Definition _get_node_name (node : Node) (content : string) : string :=
  match first_child node "identifier" with
  | Some child => source_of content child
  | None => "unknown"
  end.

(** The string an expression statement starts with, if it is one. *)
Definition leading_string (stmt : Node) : option Node :=
  if String.eqb (type stmt) "expression_statement" then
    match children stmt with
    | expr :: _ => if String.eqb (type expr) "string" then Some expr else None
    | [] => None
    end
  else None.

Definition _extract_docstring (node : Node) (content : string) : option string :=
  match first_child node "block" with
  | None => None
  | Some body =>
      match children body with
      | [] => None
      | first_stmt :: _ =>
          match leading_string first_stmt with
          | Some expr =>
              Some (Py.strip
                      (Py.strip_chars ["'"%char]
                         (Py.strip_chars [Py.dquote] (source_of content expr))))
          | None => None
          end
      end
  end.

Definition _get_function_signature (node : Node) (content : string) : string :=
  match first_child node "parameters" with
  | Some child => "def " +:+ _get_node_name node content +:+ source_of content child
  | None => ""
  end.

Definition _get_class_signature (node : Node) (content : string) : string :=
  let name := _get_node_name node content in
  match first_child node "argument_list" with
  | Some child => "class " +:+ name +:+ source_of content child
  | None => "class " +:+ name
  end.

Definition _get_class_header (node : Node) (content : string) : string :=
  match _find_nodes node "function_definition" with
  | child :: _ =>
      Py.rstrip (Py.substr (node_start_byte node) (node_start_byte child) content)
  | [] => source_of content node
  end.

Definition _extract_imports (tree : Node) (content : string) : list string :=
  flat_map
    (fun node =>
       if String.eqb (type node) "import_statement" then
         map (source_of content)
             (List.filter (fun c => String.eqb (type c) "dotted_name") (children node))
       else if String.eqb (type node) "import_from_statement" then
         match first_child node "dotted_name" with
         | Some child =>
             match source_of content child with
             | EmptyString => []
             | module => [module]
             end
         | None => []
         end
       else [])
    (children tree).

(** The loop of [_extract_calls] over the call nodes.  [last_id] is the
    function-level variable the inner loop assigns: it survives from one
    call node to the next, and appending it before any assignment raises. *)
Fixpoint collect_calls (content : string) (call_nodes : list Node)
    (last_id : option string) (calls : list string) : Py.result (list string) :=
  match call_nodes with
  | [] => Py.ok calls
  | call_node :: rest =>
      match children call_node with
      | [] => collect_calls content rest last_id calls
      | func :: _ =>
          if String.eqb (type func) "identifier" then
            collect_calls content rest last_id (calls ++ [source_of content func])
          else if String.eqb (type func) "attribute" then
            let last_id :=
              fold_left
                (fun acc child =>
                   if String.eqb (type child) "identifier"
                   then Some (source_of content child) else acc)
                (children func) last_id in
            match last_id with
            | Some name => collect_calls content rest last_id (calls ++ [name])
            | None =>
                Py.raise (Py.OtherError
                  "cannot access local variable 'last_id' where it is not associated with a value")
            end
          else collect_calls content rest last_id calls
      end
  end.

(** The identifier child's text, ["unknown"] without a [text] attribute. *)
Definition identifier_text (child : Node) : string := default "unknown" (text child).

(** The [symbols] dict of [_collect_symbols]. *)
Record Symbols : Type := mkSymbols {
  classes : list string;
  functions : list string;
  methods : Py.dict (list string);
}.

Definition method_names (node : Node) : list string :=
  flat_map
    (fun method =>
       match first_child method "identifier" with
       | Some mchild => [identifier_text mchild]
       | None => []
       end)
    (_find_nodes node "function_definition").

Definition _collect_symbols (tree : Node) : Symbols :=
  fold_left
    (fun symbols node =>
       if String.eqb (type node) "class_definition" then
         match first_child node "identifier" with
         | Some child =>
             let class_name := identifier_text child in
             {| classes := classes symbols ++ [class_name];
                functions := functions symbols;
                methods := Py.dict_set (methods symbols) class_name (method_names node) |}
         | None => symbols
         end
       else if String.eqb (type node) "function_definition" then
         match first_child node "identifier" with
         | Some child =>
             {| classes := classes symbols;
                functions := functions symbols ++ [identifier_text child];
                methods := methods symbols |}
         | None => symbols
         end
       else symbols)
    (children tree) (mkSymbols [] [] []).

Definition _generate_file_description (file_path : string) (symbols : Symbols)
    (imports : list string) : string :=
  let lines :=
    [ "File: " +:+ Py.basename file_path; "Path: " +:+ file_path; "" ] ++
    (match imports with
     | [] => []
     | _ => ["Imports: " +:+ Py.join ", " (Py.slice_to 10 imports)]
     end) ++
    (match classes symbols with
     | [] => []
     | _ =>
         ("Classes: " +:+ Py.join ", " (classes symbols)) ::
         flat_map
           (fun entry =>
              match snd entry with
              | [] => []
              | ms => ["  " +:+ fst entry +:+ " methods: "
                         +:+ Py.join ", " (Py.slice_to 10 ms)]
              end)
           (methods symbols)
     end) ++
    (match functions symbols with
     | [] => []
     | _ => ["Functions: " +:+ Py.join ", " (functions symbols)]
     end) in
  Py.join (String Py.newline EmptyString) lines.

(** A chunk as the extractors build it: [id=""], and every field not
    named at its dataclass default. *)
Definition new_chunk (file_path : string) (chunk_type : ChunkType)
    (start_line end_line start_byte end_byte : Z) (content : string)
    (language : string) : CodeChunk :=
  {| id_ := ""; file_path := file_path; chunk_type := chunk_type;
     start_line := start_line; end_line := end_line;
     start_byte := start_byte; end_byte := end_byte;
     content := content; docstring := None; symbol_name := None;
     parent_symbol := None; signature := None; imports := []; calls := [];
     dependencies := []; language := language; complexity := 0;
     tokens_estimate := 0 |}.

Definition with_symbol (symbol_name parent_symbol docstring signature : option string)
    (c : CodeChunk) : CodeChunk :=
  {| id_ := id_ c; file_path := file_path c; chunk_type := chunk_type c;
     start_line := start_line c; end_line := end_line c;
     start_byte := start_byte c; end_byte := end_byte c;
     content := content c; docstring := docstring; symbol_name := symbol_name;
     parent_symbol := parent_symbol; signature := signature;
     imports := imports c; calls := calls c; dependencies := dependencies c;
     language := language c; complexity := complexity c;
     tokens_estimate := tokens_estimate c |}.

Definition with_imports (imports : list string) (c : CodeChunk) : CodeChunk :=
  {| id_ := id_ c; file_path := file_path c; chunk_type := chunk_type c;
     start_line := start_line c; end_line := end_line c;
     start_byte := start_byte c; end_byte := end_byte c;
     content := content c; docstring := docstring c; symbol_name := symbol_name c;
     parent_symbol := parent_symbol c; signature := signature c;
     imports := imports; calls := calls c; dependencies := dependencies c;
     language := language c; complexity := complexity c;
     tokens_estimate := tokens_estimate c |}.

Definition with_calls (calls : list string) (c : CodeChunk) : CodeChunk :=
  {| id_ := id_ c; file_path := file_path c; chunk_type := chunk_type c;
     start_line := start_line c; end_line := end_line c;
     start_byte := start_byte c; end_byte := end_byte c;
     content := content c; docstring := docstring c; symbol_name := symbol_name c;
     parent_symbol := parent_symbol c; signature := signature c;
     imports := imports c; calls := calls; dependencies := dependencies c;
     language := language c; complexity := complexity c;
     tokens_estimate := tokens_estimate c |}.

(** [chunk.id = id; chunk.tokens_estimate = tokens] in [chunk_file]. *)
Definition with_id (id : string) (tokens : Z) (c : CodeChunk) : CodeChunk :=
  {| id_ := id; file_path := file_path c; chunk_type := chunk_type c;
     start_line := start_line c; end_line := end_line c;
     start_byte := start_byte c; end_byte := end_byte c;
     content := content c; docstring := docstring c; symbol_name := symbol_name c;
     parent_symbol := parent_symbol c; signature := signature c;
     imports := imports c; calls := calls c; dependencies := dependencies c;
     language := language c; complexity := complexity c;
     tokens_estimate := tokens |}.

(** The header loop of [_split_large_function] from line [i] on: the
    header lines and [body_start_idx] ([0] when the loop ends without a
    [break]). *)
Fixpoint header_scan (i : Z) (lines header_lines : list string) (in_docstring : bool)
    : list string * Z :=
  match lines with
  | [] => (header_lines, 0)
  | line :: rest =>
      let header_lines := header_lines ++ [line] in
      if (Py.contains Py.triple_dquote line || Py.contains Py.triple_quote line)%bool then
        if in_docstring then (header_lines, i + 1)
        else header_scan (i + 1) rest header_lines true
      else if i =? 0 then header_scan (i + 1) rest header_lines in_docstring
      else if (negb in_docstring
               && negb (String.eqb (Py.strip line) "")
               && negb (String.prefix "#" (Py.strip line)))%bool
      then (removelast header_lines, i)
      else header_scan (i + 1) rest header_lines in_docstring
  end.

(** [len(line.split()) + 1]. *)
Definition line_tokens (line : string) : Z := Py.count_words false line + 1.

(** The variables of the body loop of [_split_large_function]. *)
Record Split : Type := mkSplit {
  split_chunks : list CodeChunk;
  current_block : list string;
  current_tokens : Z;
  block_idx : Z;
}.

(** The body of the last loop of [chunk_file]: the chunk gets its id
    and its token estimate. *)
Definition finish (sha256 : string -> string) (chunk : CodeChunk) : CodeChunk :=
  with_id (compute_id sha256 chunk) (_estimate_tokens (content chunk)) chunk.

(** *** The chunker's methods that read [self] *)

Section chunker.
Context (self : ASTChunker).

(** [list(set(calls))]: the distinct names, in this run's set order. *)
Definition _extract_calls (node : Node) (content : string)
    : Py.result (list string) :=
  Py.result_map (set_order self)
    (collect_calls content (_find_nodes node "call") None []).

Definition _create_file_chunk (file_path content : string) (tree : Node) : CodeChunk :=
  let symbols := _collect_symbols tree in
  let imports := _extract_imports tree content in
  let description := _generate_file_description file_path symbols imports in
  with_imports imports
    (new_chunk file_path FILE 0 (Py.count_char Py.newline content) 0
       (Py.str_len content) description (chunker_language self)).

(** The loop of [_extract_module_chunk] over the root's children; it
    ends at the first definition. *)
Fixpoint module_scan (content : string) (nodes : list Node)
    (module_parts : list string) (end_line : Z) : list string * Z :=
  match nodes with
  | [] => (module_parts, end_line)
  | child :: rest =>
      if String.eqb (type child) "expression_statement" then
        match leading_string child with
        | Some _ =>
            module_scan content rest (module_parts ++ [source_of content child])
              (Z.max end_line (end_row child))
        | None => module_scan content rest module_parts end_line
        end
      else if existsb (String.eqb (type child))
                ["import_statement"; "import_from_statement"] then
        module_scan content rest (module_parts ++ [source_of content child])
          (Z.max end_line (end_row child))
      else if existsb (String.eqb (type child))
                ["function_definition"; "class_definition"] then
        (module_parts, end_line)
      else module_scan content rest module_parts end_line
  end.

Definition _extract_module_chunk (file_path content : string) (tree : Node)
    : option CodeChunk :=
  let '(module_parts, end_line) := module_scan content (children tree) [] 0 in
  match module_parts with
  | [] => None
  | _ =>
      Some (new_chunk file_path MODULE 0 end_line 0
              (match children tree with
               | first :: _ => node_end_byte first
               | [] => 0
               end)
              (Py.join (String Py.newline EmptyString) module_parts)
              (chunker_language self))
  end.

(** The chunks of one class: the class whole, or its header and one
    chunk for each function definition under it. *)
Definition class_chunks (file_path content : string) (node : Node) : list CodeChunk :=
  let class_name := _get_node_name node content in
  let class_content := source_of content node in
  let docstring := _extract_docstring node content in
  if _estimate_tokens class_content <=? MAX_CHUNK_TOKENS then
    [ with_symbol (Some class_name) None docstring
        (Some (_get_class_signature node content))
        (new_chunk file_path CLASS (start_row node) (end_row node)
           (node_start_byte node) (node_end_byte node) class_content
           (chunker_language self)) ]
  else
    let class_header := _get_class_header node content in
    with_symbol (Some class_name) None docstring
      (Some (_get_class_signature node content))
      (new_chunk file_path CLASS (start_row node)
         (start_row node + Py.count_char Py.newline class_header)
         (node_start_byte node) (node_start_byte node + Py.str_len class_header)
         class_header (chunker_language self))
    :: map (fun method_node =>
              with_symbol (Some (_get_node_name method_node content)) (Some class_name)
                (_extract_docstring method_node content)
                (Some (_get_function_signature method_node content))
                (new_chunk file_path METHOD (start_row method_node)
                   (end_row method_node) (node_start_byte method_node)
                   (node_end_byte method_node) (source_of content method_node)
                   (chunker_language self)))
           (_find_nodes node "function_definition").

Definition _extract_classes (file_path content : string) (tree : Node)
    : list CodeChunk :=
  flat_map (class_chunks file_path content) (_find_nodes tree "class_definition").

(** A [BLOCK] chunk of a split function. *)
Definition block_chunk (file_path func_name : string) (start_line end_line : Z)
    (block : list string) (idx : Z) : CodeChunk :=
  with_symbol (Some (func_name +:+ "_block_" +:+ pretty idx)) (Some func_name) None None
    (new_chunk file_path BLOCK start_line end_line 0 0
       ("# Part of " +:+ func_name +:+ String Py.newline
          (Py.join (String Py.newline EmptyString) block))
       (chunker_language self)).

(** The body loop of [_split_large_function] from body line [i] on. *)
Fixpoint body_loop (file_path func_name : string) (first_row body_start_idx : Z)
    (i : Z) (body_lines : list string) (st : Split) : Split :=
  match body_lines with
  | [] => st
  | line :: rest =>
      let st :=
        if ((current_tokens st + line_tokens line >? 400)
            && negb (Nat.eqb (length (current_block st)) 0))%bool
        then
          let block_start :=
            first_row + body_start_idx + i - Py.len (current_block st) in
          let kept := Py.slice_last OVERLAP_LINES (current_block st) in
          {| split_chunks :=
               split_chunks st ++
               [block_chunk file_path func_name block_start
                  (block_start + Py.len (current_block st))
                  (current_block st) (block_idx st)];
             current_block := kept;
             current_tokens := Py.sum (map line_tokens kept);
             block_idx := block_idx st + 1 |}
        else st in
      body_loop file_path func_name first_row body_start_idx (i + 1) rest
        {| split_chunks := split_chunks st;
           current_block := current_block st ++ [line];
           current_tokens := current_tokens st + line_tokens line;
           block_idx := block_idx st |}
  end.

Definition _split_large_function (file_path : string) (node : Node)
    (content func_name : string) : list CodeChunk :=
  let func_content := source_of content node in
  let lines := Py.split_on Py.newline func_content in
  let '(header_lines, body_start_idx) := header_scan 0 lines [] false in
  let header_content := Py.join (String Py.newline EmptyString) header_lines in
  let header :=
    with_symbol (Some func_name) None None
      (Some (_get_function_signature node content))
      (new_chunk file_path FUNCTION (start_row node)
         (start_row node + Py.len header_lines) (node_start_byte node)
         (node_start_byte node + Py.str_len header_content) header_content
         (chunker_language self)) in
  let body_lines := Py.slice_from (Z.to_nat body_start_idx) lines in
  let st :=
    body_loop file_path func_name (start_row node) body_start_idx 0 body_lines
      {| split_chunks := [header]; current_block := []; current_tokens := 0;
         block_idx := 0 |} in
  match current_block st with
  | [] => split_chunks st
  | _ =>
      split_chunks st ++
      [block_chunk file_path func_name (end_row node - Py.len (current_block st))
         (end_row node) (current_block st) (block_idx st)]
  end.

(** The chunks of one child of the root in [_extract_functions]. *)
Definition function_chunks (file_path content : string) (node : Node)
    : Py.result (list CodeChunk) :=
  if negb (String.eqb (type node) "function_definition") then Py.ok []
  else
    let func_name := _get_node_name node content in
    let func_content := source_of content node in
    let docstring := _extract_docstring node content in
    if _estimate_tokens func_content >? MAX_CHUNK_TOKENS then
      Py.ok (_split_large_function file_path node content func_name)
    else
      match _extract_calls node content with
      | inl e => Py.raise e
      | inr calls =>
          Py.ok [ with_calls calls
                    (with_symbol (Some func_name) None docstring
                       (Some (_get_function_signature node content))
                       (new_chunk file_path FUNCTION (start_row node) (end_row node)
                          (node_start_byte node) (node_end_byte node) func_content
                          (chunker_language self))) ]
      end.

Definition _extract_functions (file_path content : string) (tree : Node)
    : Py.result (list CodeChunk) :=
  Py.result_map (@concat CodeChunk)
    (Py.try_map (function_chunks file_path content) (children tree)).

(** [chunk_file], given the text [read_text] returned for [file_path]. *)
Definition chunk_file (file_path content : string) : Py.result (list CodeChunk) :=
  let tree := parser self content in
  let file_chunk := _create_file_chunk file_path content tree in
  let module_chunk := _extract_module_chunk file_path content tree in
  let class_chunks := _extract_classes file_path content tree in
  match _extract_functions file_path content tree with
  | inl e => Py.raise e
  | inr function_chunks =>
      let chunks :=
        [file_chunk] ++ option_list module_chunk ++ class_chunks ++ function_chunks in
      Py.ok (map (finish (sha256_hexdigest self)) chunks)
  end.

End chunker.

End ast_chunker.

(** ** [src/indexing/incremental_indexer.py] *)

Module incremental_indexer.
Import qdrant.

Inductive ChangeType : Type := ADDED | MODIFIED | DELETED | RENAMED | COPIED.

Record FileChange : Type := mkFileChange {
  path : string;
  change_type : ChangeType;
  old_path : option string;
  content_hash : option string;
}.

Record IndexState : Type := mkIndexState {
  git_commit : string;
  indexed_files : gmap string string;
  last_updated : string;
  total_chunks : Z;
  total_files : Z;
}.

(** *** The world the indexer runs in *)

(** What the indexer does to its collaborators, in order. *)
Inductive Event : Type :=
| ChunkFile (full_path : string)
| Embed (text : string)
| Count (collection : string) (f : Filter)
| Delete (collection : string) (f : Filter)
| Scroll (collection : string) (f : Filter) (limit : Z)
| Upsert (collection : string) (points : list PointStruct)
| WriteText (full_path : string) (data : string).

(** The store, the files on disk by full path, and the calls made so far. *)
Record World : Type := mkWorld {
  store : Store;
  fs : gmap string string;
  trace : list Event;
}.

(** A computation over a state [S] that may raise; what it did to the
    state before raising stays done. *)
Definition M (S A : Type) : Type := S -> Py.result A * S.

Definition ret {S A : Type} (a : A) : M S A := fun s => (inr a, s).

Definition bind {S A B : Type} (m : M S A) (k : A -> M S B) : M S B :=
  fun s =>
    match m s with
    | (inl e, s') => (inl e, s')
    | (inr a, s') => k a s'
    end.

Definition throw {S A : Type} (e : Py.exn) : M S A := fun s => (inl e, s).

(** [try: m except Exception as e: handler(e)]. *)
Definition try_except {S A : Type} (m : M S A) (handler : Py.exn -> M S A) : M S A :=
  fun s =>
    match m s with
    | (inl e, s') => handler e s'
    | (inr a, s') => (inr a, s')
    end.

Definition get {S : Type} : M S S := fun s => (inr s, s).
Definition modify {S : Type} (f : S -> S) : M S unit := fun s => (inr tt, f s).

(** Any [Result] of a collaborator, raised or returned. *)
Definition of_result {S A : Type} (r : Py.result A) : M S A := fun s => (r, s).

#[export] Instance M_ret {S : Type} : MRet (M S) := fun A a => ret a.
#[export] Instance M_bind {S : Type} : MBind (M S) := fun A B k m => bind m k.

(** [for x in l: body(x)], stopping at the first exception. *)
Fixpoint for_each {S A : Type} (l : list A) (body : A -> M S unit) : M S unit :=
  match l with
  | [] => ret tt
  | x :: l' => body x;; for_each l' body
  end.

Definition emit (e : Event) : M World unit :=
  modify (fun w => {| store := store w; fs := fs w; trace := trace w ++ [e] |}).

Definition set_store (f : Store -> Store) : M World unit :=
  modify (fun w => {| store := f (store w); fs := fs w; trace := trace w |}).

(** The four store calls the indexer makes. *)
Definition client_count (collection : string) (f : Filter) : M World Z :=
  emit (Count collection f);;
  w ← get; ret (store_count (store w) collection f).

Definition client_delete (collection : string) (f : Filter) : M World unit :=
  emit (Delete collection f);;
  set_store (fun st => store_delete st collection f).

Definition client_scroll (collection : string) (f : Filter) (limit : Z)
    : M World (list PointStruct) :=
  emit (Scroll collection f limit);;
  w ← get; ret (store_scroll (store w) collection f limit).

Definition client_upsert (collection : string) (points : list PointStruct)
    : M World unit :=
  emit (Upsert collection points);;
  set_store (fun st => store_upsert st collection points).

(** [Path.write_text]. *)
Definition write_text (full_path data : string) : M World unit :=
  emit (WriteText full_path data);;
  modify (fun w => {| store := store w; fs := <[full_path := data]> (fs w);
                      trace := trace w |}).

(** *** Collaborators *)

(** [self.git]: what the detector's methods return, each a reading of a
    [git] subprocess ([rev-parse], [diff --name-status] and [ls-files]);
    the subprocess calls and the parsing of their output are not
    modelled. *)
Record GitChangeDetector : Type := mkGitChangeDetector {
  get_current_commit : string;
  get_changes_since : string -> list FileChange;
  get_all_tracked_files : list string -> list string;
}.

(** [self]: the fields set by [__init__], and the library functions the
    class calls ([hashlib.sha256(...).hexdigest()], [json.dumps],
    [json.loads] followed by [IndexState.from_dict], [datetime.now]). *)
Record IncrementalIndexer : Type := mkIncrementalIndexer {
  repo_path : string;
  chunker : string -> string -> Py.result (list ast_chunker.CodeChunk);
  embedder : string -> Py.result (list float);
  git : GitChangeDetector;
  sha256_hexdigest : string -> string;
  json_dumps : IndexState -> string;
  json_loads : string -> option IndexState;
  now : string;
}.

Definition STATE_FILE : string := ".rag_index_state.json".

Definition SUPPORTED_EXTENSIONS : Py.dict string :=
  [ (".py", "python"); (".js", "javascript"); (".ts", "typescript");
    (".tsx", "typescript"); (".jsx", "javascript"); (".go", "go");
    (".rs", "rust"); (".java", "java"); (".rb", "ruby"); (".php", "php");
    (".c", "c"); (".cpp", "cpp"); (".h", "c"); (".hpp", "cpp") ].

(** [self.repo_path / file_path]. *)
Definition full_path_of (self : IncrementalIndexer) (file_path : string) : string :=
  repo_path self +:+ "/" +:+ file_path.

(** [GitChangeDetector.compute_file_hash]. *)
Definition compute_file_hash (self : IncrementalIndexer) (file_path : string)
    : M World string :=
  w ← get;
  match fs w !! full_path_of self file_path with
  | None => ret ""
  | Some content => ret (sha256_hexdigest self content)
  end.

(** The part of [name] from its last dot on. *)
Fixpoint from_last_dot (name : string) : option string :=
  match name with
  | EmptyString => None
  | String c rest =>
      match from_last_dot rest with
      | Some s => Some s
      | None => if Ascii.eqb c "." then Some name else None
      end
  end.

(** [Path.suffix]: from the last dot of the final component on, unless
    that dot is its first or its last character. *)
Definition suffix (p : string) : string :=
  match Py.basename p with
  | EmptyString => ""
  | String _ rest =>
      match from_last_dot rest with
      | Some (String _ EmptyString) | None => ""
      | Some s => s
      end
  end.

(** The slices [texts[i:i + batch_size]] for [i] in
    [range(0, len(texts), batch_size)]; [fuel] bounds their number. *)
Fixpoint batches {A : Type} (fuel : nat) (batch_size : nat) (texts : list A)
    : list (list A) :=
  match fuel, texts with
  | O, _ | _, [] => []
  | S fuel', _ =>
      take batch_size texts :: batches fuel' batch_size (drop batch_size texts)
  end.

(** One [asyncio.gather] over a batch: every text of the batch is handed
    to the embedder, and the first exception in list order is raised. *)
Definition embed_batch (self : IncrementalIndexer) (batch : list string)
    : M World (list (list float)) :=
  for_each batch (fun text => emit (Embed text));;
  of_result (Py.try_map (embedder self) batch).

(** [ext in SUPPORTED_EXTENSIONS ... .get(ext, "unknown")]. *)
Definition language_of (ext : string) : string :=
  default "unknown" (Py.dict_get SUPPORTED_EXTENSIONS ext).

Definition _batch_embed (self : IncrementalIndexer) (texts : list string)
    (batch_size : nat) : M World (list (list float)) :=
  fold_left
    (fun acc batch =>
       embeddings ← acc;
       batch_embeddings ← embed_batch self batch;
       mret (embeddings ++ batch_embeddings))
    (batches (length texts) batch_size texts)
    (mret []).

Definition opt_val (s : option string) : PyVal :=
  match s with
  | Some s' => VStr s'
  | None => VNone
  end.

(** The [PointStruct] built for one chunk in [_index_file]. *)
Definition point_of (self : IncrementalIndexer) (file_path language : string)
    (chunk : ast_chunker.CodeChunk) (embedding : list float) : PointStruct :=
  {| id_ := ast_chunker.id_ chunk;
     vector := [("dense", embedding)];
     payload :=
       [ ("content", VStr (ast_chunker.content chunk));
         ("file_path", VStr file_path);
         ("start_line", VInt (ast_chunker.start_line chunk));
         ("end_line", VInt (ast_chunker.end_line chunk));
         ("chunk_type", VStr (ast_chunker.value (ast_chunker.chunk_type chunk)));
         ("symbol_name", opt_val (ast_chunker.symbol_name chunk));
         ("parent_symbol", opt_val (ast_chunker.parent_symbol chunk));
         ("docstring", opt_val (ast_chunker.docstring chunk));
         ("signature", opt_val (ast_chunker.signature chunk));
         ("language", VStr language);
         ("tokens", VInt (ast_chunker.tokens_estimate chunk));
         ("git_hash", VStr (get_current_commit (git self))) ] |}.

Definition is_symbol (chunk : ast_chunker.CodeChunk) : bool :=
  existsb (String.eqb (ast_chunker.value (ast_chunker.chunk_type chunk)))
    ["function"; "class"; "method"].

(** [zip(a, b)]. *)
Fixpoint zip {A B : Type} (a : list A) (b : list B) : list (A * B) :=
  match a, b with
  | x :: a', y :: b' => (x, y) :: zip a' b'
  | _, _ => []
  end.

Definition _index_file (self : IncrementalIndexer) (file_path : string)
    : M World (list ast_chunker.CodeChunk) :=
  let full_path := full_path_of self file_path in
  w ← get;
  match fs w !! full_path with
  | None => mret []
  | Some source =>
      let ext := suffix full_path in
      let language := language_of ext in
      emit (ChunkFile full_path);;
      chunks ← of_result (chunker self full_path source);
      match chunks with
      | [] => mret []
      | _ =>
          let contents := map ast_chunker.content chunks in
          embeddings ← _batch_embed self contents 32;
          let points :=
            map (fun ce => point_of self file_path language (fst ce) (snd ce))
                (zip chunks embeddings) in
          client_upsert "code_semantic" points;;
          let symbol_points :=
            map fst (List.filter (fun pc => is_symbol (snd pc)) (zip points chunks)) in
          match symbol_points with
          | [] => mret chunks
          | _ => client_upsert "code_symbols" symbol_points;; mret chunks
          end
      end
  end.

(** [Filter(must=[FieldCondition(key="file_path", match=MatchValue(value=...))])]. *)
Definition file_path_filter (file_path : string) : Filter :=
  {| must := Some [ {| key := "file_path"; match_ := MatchValue file_path |} ];
     must_not := None |}.

Definition _delete_file_chunks (self : IncrementalIndexer) (file_path : string)
    : M World Z :=
  deleted_count ← client_count "code_semantic" (file_path_filter file_path);
  client_delete "code_semantic" (file_path_filter file_path);;
  client_delete "code_symbols" (file_path_filter file_path);;
  mret deleted_count.

(** [point.payload["file_path"] = new_path] and the [PointStruct] rebuilt
    from the point. *)
Definition repath (new_path : string) (point : PointStruct) : PointStruct :=
  {| id_ := id_ point; vector := vector point;
     payload := Py.dict_set (payload point) "file_path" (VStr new_path) |}.

(** [old_path] is [None] for a rename reported without its old name;
    building [MatchValue(value=None)] then raises, since the field
    requires a value. *)
Definition _rename_file_chunks (self : IncrementalIndexer) (old_path : option string)
    (new_path : string) : M World unit :=
  match old_path with
  | None => throw (Py.OtherError "1 validation error for MatchValue")
  | Some old =>
      points ← client_scroll "code_semantic" (file_path_filter old) 1000;
      match points with
      | [] => mret tt
      | _ => client_upsert "code_semantic" (map (repath new_path) points)
      end
  end.

Definition _save_state (self : IncrementalIndexer) (state : IndexState)
    : M World unit :=
  let state_path := full_path_of self STATE_FILE in
  write_text state_path (json_dumps self state).

(** A missing or unreadable state file is no state. *)
Definition _load_state (self : IncrementalIndexer) : M World (option IndexState) :=
  let state_path := full_path_of self STATE_FILE in
  w ← get;
  match fs w !! state_path with
  | None => mret None
  | Some data => mret (json_loads self data)
  end.

(** The [stats] dict of [_incremental_update] (without [duration_ms], a
    wall-clock measure). *)
Record UpdateStats : Type := mkUpdateStats {
  files_added : Z;
  files_modified : Z;
  files_deleted : Z;
  chunks_added : Z;
  chunks_deleted : Z;
  errors : list string;
}.

(** The variables the loop of [_incremental_update] works on. *)
Record Update : Type := mkUpdate {
  world : World;
  new_indexed_files : gmap string string;
  stats : UpdateStats;
}.

(** A computation on the world, run inside the loop. *)
Definition lift {A : Type} (m : M World A) : M Update A :=
  fun u =>
    let '(r, w) := m (world u) in
    (r, {| world := w; new_indexed_files := new_indexed_files u; stats := stats u |}).

Definition set_files (f : gmap string string -> gmap string string) : M Update unit :=
  modify (fun u => {| world := world u; new_indexed_files := f (new_indexed_files u);
                      stats := stats u |}).

Definition set_stats (f : UpdateStats -> UpdateStats) : M Update unit :=
  modify (fun u => {| world := world u; new_indexed_files := new_indexed_files u;
                      stats := f (stats u) |}).

Definition add_files_added (n : Z) (s : UpdateStats) : UpdateStats :=
  {| files_added := files_added s + n; files_modified := files_modified s;
     files_deleted := files_deleted s; chunks_added := chunks_added s;
     chunks_deleted := chunks_deleted s; errors := errors s |}.

Definition add_files_modified (n : Z) (s : UpdateStats) : UpdateStats :=
  {| files_added := files_added s; files_modified := files_modified s + n;
     files_deleted := files_deleted s; chunks_added := chunks_added s;
     chunks_deleted := chunks_deleted s; errors := errors s |}.

Definition add_files_deleted (n : Z) (s : UpdateStats) : UpdateStats :=
  {| files_added := files_added s; files_modified := files_modified s;
     files_deleted := files_deleted s + n; chunks_added := chunks_added s;
     chunks_deleted := chunks_deleted s; errors := errors s |}.

Definition add_chunks_added (n : Z) (s : UpdateStats) : UpdateStats :=
  {| files_added := files_added s; files_modified := files_modified s;
     files_deleted := files_deleted s; chunks_added := chunks_added s + n;
     chunks_deleted := chunks_deleted s; errors := errors s |}.

Definition add_chunks_deleted (n : Z) (s : UpdateStats) : UpdateStats :=
  {| files_added := files_added s; files_modified := files_modified s;
     files_deleted := files_deleted s; chunks_added := chunks_added s;
     chunks_deleted := chunks_deleted s + n; errors := errors s |}.

Definition add_error (msg : string) (s : UpdateStats) : UpdateStats :=
  {| files_added := files_added s; files_modified := files_modified s;
     files_deleted := files_deleted s; chunks_added := chunks_added s;
     chunks_deleted := chunks_deleted s; errors := errors s ++ [msg] |}.

(** [d.pop(key, default)] on the path map, for an [Optional[str]] key. *)
Definition pop (key : option string) (m : gmap string string) : gmap string string :=
  match key with
  | Some k => delete k m
  | None => m
  end.

Definition pop_value (key : option string) (dflt : string) (m : gmap string string)
    : string :=
  match key with
  | Some k => default dflt (m !! k)
  | None => dflt
  end.

(** The [try] body of the loop of [_incremental_update], for one change. *)
Definition apply_change (self : IncrementalIndexer) (state : IndexState)
    (change : FileChange) : M Update unit :=
  match change_type change with
  | DELETED =>
      deleted ← lift (_delete_file_chunks self (path change));
      set_stats (add_files_deleted 1);;
      set_stats (add_chunks_deleted deleted);;
      set_files (delete (path change))
  | ADDED =>
      chunks ← lift (_index_file self (path change));
      file_hash ← lift (compute_file_hash self (path change));
      set_files (insert (path change) file_hash);;
      set_stats (add_files_added 1);;
      set_stats (add_chunks_added (Py.len chunks))
  | MODIFIED =>
      new_hash ← lift (compute_file_hash self (path change));
      let old_hash := indexed_files state !! path change in
      if bool_decide (Some new_hash ≠ old_hash) then
        deleted ← lift (_delete_file_chunks self (path change));
        set_stats (add_chunks_deleted deleted);;
        chunks ← lift (_index_file self (path change));
        set_files (insert (path change) new_hash);;
        set_stats (add_files_modified 1);;
        set_stats (add_chunks_added (Py.len chunks))
      else mret tt
  | RENAMED =>
      lift (_rename_file_chunks self (old_path change) (path change));;
      u ← get;
      let old_hash := pop_value (old_path change) "" (new_indexed_files u) in
      set_files (pop (old_path change));;
      set_files (insert (path change) old_hash);;
      set_stats (add_files_modified 1)
  | COPIED => mret tt
  end.

(** One turn of the loop: the [try] body and its [except] clause. *)
Definition process_change (self : IncrementalIndexer) (state : IndexState)
    (change : FileChange) : M Update unit :=
  try_except (apply_change self state change)
    (fun e => set_stats (add_error (path change +:+ ": " +:+ Py.str_exn e))).

Definition supported (extensions : list string) (file_path : string) : bool :=
  existsb (Py.endswith file_path) extensions.

Definition _incremental_update (self : IncrementalIndexer) (state : IndexState)
    (extensions : list string) : M World UpdateStats :=
  let changes := get_changes_since (git self) (git_commit state) in
  let changes := List.filter (fun c => supported extensions (path c)) changes in
  fun w =>
    let '(r, u) :=
      for_each changes (process_change self state)
        {| world := w; new_indexed_files := indexed_files state;
           stats := mkUpdateStats 0 0 0 0 0 [] |} in
    match r with
    | inl e => (inl e, world u)
    | inr _ =>
        let new_state :=
          {| git_commit := get_current_commit (git self);
             indexed_files := new_indexed_files u;
             last_updated := now self;
             total_chunks :=
               total_chunks state + chunks_added (stats u) - chunks_deleted (stats u);
             total_files := Z.of_nat (size (new_indexed_files u)) |} in
        (_save_state self new_state;; mret (stats u)) (world u)
    end.

(** The [stats] dict of [_full_index] (without [duration_ms]). *)
Record IndexStats : Type := mkIndexStats {
  files_indexed : Z;
  chunks_created : Z;
  index_errors : list string;
}.

Record FullIndex : Type := mkFullIndex {
  fi_world : World;
  fi_indexed_files : gmap string string;
  fi_stats : IndexStats;
}.

Definition fi_lift {A : Type} (m : M World A) : M FullIndex A :=
  fun u =>
    let '(r, w) := m (fi_world u) in
    (r, {| fi_world := w; fi_indexed_files := fi_indexed_files u;
           fi_stats := fi_stats u |}).

(** One turn of the loop of [_full_index]. *)
Definition index_one (self : IncrementalIndexer) (file_path : string)
    : M FullIndex unit :=
  try_except
    (chunks ← fi_lift (_index_file self file_path);
     file_hash ← fi_lift (compute_file_hash self file_path);
     modify (fun u =>
               {| fi_world := fi_world u;
                  fi_indexed_files := <[file_path := file_hash]> (fi_indexed_files u);
                  fi_stats :=
                    {| files_indexed := files_indexed (fi_stats u) + 1;
                       chunks_created := chunks_created (fi_stats u) + Py.len chunks;
                       index_errors := index_errors (fi_stats u) |} |}))
    (fun e =>
       modify (fun u =>
                 {| fi_world := fi_world u; fi_indexed_files := fi_indexed_files u;
                    fi_stats :=
                      {| files_indexed := files_indexed (fi_stats u);
                         chunks_created := chunks_created (fi_stats u);
                         index_errors :=
                           index_errors (fi_stats u) ++
                           [file_path +:+ ": " +:+ Py.str_exn e] |} |})).

Definition _full_index (self : IncrementalIndexer) (extensions : list string)
    : M World IndexStats :=
  let files := get_all_tracked_files (git self) extensions in
  fun w =>
    let '(r, u) :=
      for_each files (index_one self)
        {| fi_world := w; fi_indexed_files := ∅; fi_stats := mkIndexStats 0 0 [] |} in
    match r with
    | inl e => (inl e, fi_world u)
    | inr _ =>
        let state :=
          {| git_commit := get_current_commit (git self);
             indexed_files := fi_indexed_files u;
             last_updated := now self;
             total_chunks := chunks_created (fi_stats u);
             total_files := files_indexed (fi_stats u) |} in
        (_save_state self state;; mret (fi_stats u)) (fi_world u)
    end.

(** [index]: an incremental update from the loaded state, a full index
    without one. *)
Definition index (self : IncrementalIndexer) (full_reindex : bool)
    (extensions : option (list string)) : M World (UpdateStats + IndexStats) :=
  let extensions :=
    match extensions with
    | Some (e :: l) => e :: l
    | _ => map fst SUPPORTED_EXTENSIONS
    end in
  state ← (if full_reindex then mret None else _load_state self);
  match state with
  | Some state => s ← _incremental_update self state extensions; mret (inl s)
  | None => s ← _full_index self extensions; mret (inr s)
  end.

End incremental_indexer.

(** ** [src/search/hybrid_search.py] *)

Module hybrid_search.
Import qdrant.

Inductive SearchMode : Type := SEMANTIC | KEYWORD | HYBRID | EXACT.

Record SearchQuery : Type := mkSearchQuery {
  text : string;
  mode : SearchMode;
  limit : Z;
  min_score : float;
  file_paths : option (list string);
  languages : option (list string);
  symbol_types : option (list string);
  exclude_paths : option (list string);
  with_payload : bool;
  with_vectors : bool;
  rerank : bool;
  deduplicate : bool;
}.

(** [SearchQuery(text)]: every other field at its default. *)
Definition SearchQuery_default (text : string) : SearchQuery :=
  {| text := text; mode := HYBRID; limit := 10; min_score := 0.5%float;
     file_paths := None; languages := None; symbol_types := None;
     exclude_paths := None; with_payload := true; with_vectors := false;
     rerank := true; deduplicate := true |}.

(** What [_convert_results] reads from a point's payload dict; [None] is
    an absent key. *)
Record Payload : Type := mkPayload {
  p_content : option string;
  p_file_path : option string;
  p_start_line : option Z;
  p_end_line : option Z;
  p_symbol_name : option string;
  p_chunk_type : option string;
}.

Record SearchResult : Type := mkSearchResult {
  id_ : string;
  score : float;
  content : string;
  file_path : string;
  start_line : Z;
  end_line : Z;
  symbol_name : option string;
  chunk_type : option string;
  payload : Payload;
}.

Definition overlaps_with (self other : SearchResult) : bool :=
  if negb (String.eqb (file_path self) (file_path other)) then false
  else negb ((end_line self <? start_line other) || (start_line self >? end_line other)).

(** *** The store client's interface ([qdrant_client]) *)

Inductive Fusion : Type := RRF.

Inductive QueryArg : Type :=
| DenseVector (vector : list float)
| SparseVector (indices : list Z) (values : list float)
| FusionQuery (fusion : Fusion).

Record Prefetch : Type := mkPrefetch {
  pf_query : QueryArg;
  pf_using : string;
  pf_limit : Z;
  pf_filter : option Filter;
}.

(** The keyword arguments of [client.query_points]. *)
Record QueryPoints : Type := mkQueryPoints {
  qp_collection_name : string;
  qp_prefetch : list Prefetch;
  qp_query : QueryArg;
  qp_using : option string;
  qp_limit : Z;
  qp_filter : option Filter;
  qp_with_payload : bool;
  qp_with_vectors : bool;
}.

(** The keyword arguments of [client.scroll]. *)
Record Scroll : Type := mkScroll {
  sc_collection_name : string;
  sc_scroll_filter : Filter;
  sc_limit : Z;
  sc_with_payload : bool;
}.

(** A point as the store returns it; [sp_id] is [str(p.id)], and the
    payload is [None] when the request asked for none. *)
Record ScoredPoint : Type := mkScoredPoint {
  sp_id : string;
  sp_score : float;
  sp_payload : option Payload;
}.

(** The store, read-only here: what each request returns ([scroll]'s
    first component). *)
Record QdrantClient : Type := mkQdrantClient {
  query_points : QueryPoints -> list ScoredPoint;
  scroll : Scroll -> list ScoredPoint;
}.

(** [self]: the fields set by [__init__]. *)
Record HybridSearchEngine : Type := mkHybridSearchEngine {
  client : QdrantClient;
  embed : string -> list float;
  sparse_embed : option (string -> list Z * list float);
  rerank_fn : option (string -> list string -> list float);
}.

Definition RRF_K : Z := 60.

(** Truthiness of an [Optional[list]]: neither [None] nor empty. *)
Definition nonempty {A : Type} (l : option (list A)) : bool :=
  match l with
  | Some (_ :: _) => true
  | _ => false
  end.

Definition some_if_nonempty {A : Type} (l : list A) : option (list A) :=
  match l with
  | [] => None
  | _ => Some l
  end.

Definition _build_filters (self : HybridSearchEngine) (query : SearchQuery)
    : option Filter :=
  let conditions :=
    (if nonempty (file_paths query)
     then [mkFieldCondition "file_path" (MatchAny (default [] (file_paths query)))]
     else []) ++
    (if nonempty (languages query)
     then [mkFieldCondition "language" (MatchAny (default [] (languages query)))]
     else []) ++
    (if nonempty (symbol_types query)
     then [mkFieldCondition "chunk_type" (MatchAny (default [] (symbol_types query)))]
     else []) in
  let must_not :=
    if nonempty (exclude_paths query)
    then map (fun path => mkFieldCondition "file_path" (MatchValue path))
             (default [] (exclude_paths query))
    else [] in
  match conditions, must_not with
  | [], [] => None
  | _, _ => Some {| must := some_if_nonempty conditions;
                   must_not := some_if_nonempty must_not |}
  end.

(** One point of [_convert_results] or [_exact_search]; [p.payload.get]
    raises when the payload is [None]. *)
Definition convert_point (fixed_score : option float) (p : ScoredPoint)
    : Py.result SearchResult :=
  match sp_payload p with
  | None => Py.raise (Py.AttributeError "'NoneType' object has no attribute 'get'")
  | Some pl =>
      Py.ok {| id_ := sp_id p;
               score := default (sp_score p) fixed_score;
               content := default "" (p_content pl);
               file_path := default "" (p_file_path pl);
               start_line := default 0 (p_start_line pl);
               end_line := default 0 (p_end_line pl);
               symbol_name := p_symbol_name pl;
               chunk_type := p_chunk_type pl;
               payload := pl |}
  end.

Definition _convert_results (self : HybridSearchEngine) (points : list ScoredPoint)
    : Py.result (list SearchResult) :=
  Py.try_map (convert_point None) points.

Definition _hybrid_search (self : HybridSearchEngine) (query : SearchQuery)
    (collection : string) (filter_conditions : option Filter)
    : Py.result (list SearchResult) :=
  let dense_vector := embed self (text query) in
  let prefetch_queries :=
    [ {| pf_query := DenseVector dense_vector; pf_using := "dense";
         pf_limit := limit query * 3; pf_filter := filter_conditions |} ] ++
    match sparse_embed self with
    | Some sparse =>
        let '(indices, values) := sparse (text query) in
        [ {| pf_query := SparseVector indices values; pf_using := "sparse";
             pf_limit := limit query * 3; pf_filter := filter_conditions |} ]
    | None => []
    end in
  let response :=
    query_points (client self)
      {| qp_collection_name := collection;
         qp_prefetch := prefetch_queries;
         qp_query := FusionQuery RRF;
         qp_using := None;
         qp_limit := limit query * 2;
         qp_filter := None;
         qp_with_payload := with_payload query;
         qp_with_vectors := with_vectors query |} in
  _convert_results self response.

Definition _semantic_search (self : HybridSearchEngine) (query : SearchQuery)
    (collection : string) (filter_conditions : option Filter)
    : Py.result (list SearchResult) :=
  let dense_vector := embed self (text query) in
  let response :=
    query_points (client self)
      {| qp_collection_name := collection;
         qp_prefetch := [];
         qp_query := DenseVector dense_vector;
         qp_using := Some "dense";
         qp_limit := limit query * 2;
         qp_filter := filter_conditions;
         qp_with_payload := with_payload query;
         qp_with_vectors := false |} in
  _convert_results self response.

Definition _keyword_search (self : HybridSearchEngine) (query : SearchQuery)
    (collection : string) (filter_conditions : option Filter)
    : Py.result (list SearchResult) :=
  match sparse_embed self with
  | None => Py.raise (Py.ValueError "Sparse embedding function not configured")
  | Some sparse =>
      let '(indices, values) := sparse (text query) in
      let response :=
        query_points (client self)
          {| qp_collection_name := collection;
             qp_prefetch := [];
             qp_query := SparseVector indices values;
             qp_using := Some "sparse";
             qp_limit := limit query * 2;
             qp_filter := filter_conditions;
             qp_with_payload := with_payload query;
             qp_with_vectors := false |} in
      _convert_results self response
  end.

Definition _exact_search (self : HybridSearchEngine) (query : SearchQuery)
    (collection : string) (filter_conditions : option Filter)
    : Py.result (list SearchResult) :=
  let name_condition :=
    mkFieldCondition "symbol_name" (MatchValue (Py.lower (text query))) in
  let combined_filter :=
    match filter_conditions with
    | Some fc =>
        {| must := Some (if nonempty (must fc)
                         then default [] (must fc) ++ [name_condition]
                         else [name_condition]);
           must_not := None |}
    | None => {| must := Some [name_condition]; must_not := None |}
    end in
  let points :=
    scroll (client self)
      {| sc_collection_name := collection;
         sc_scroll_filter := combined_filter;
         sc_limit := limit query;
         sc_with_payload := with_payload query |} in
  Py.try_map (convert_point (Some 1.0%float)) points.

Definition set_score (r : SearchResult) (s : float) : SearchResult :=
  {| id_ := id_ r; score := s; content := content r; file_path := file_path r;
     start_line := start_line r; end_line := end_line r;
     symbol_name := symbol_name r; chunk_type := chunk_type r;
     payload := payload r |}.

(** [for result, score in zip(results, new_scores): result.score = score]:
    results beyond the scores returned keep theirs. *)
Fixpoint rescore (results : list SearchResult) (new_scores : list float)
    : list SearchResult :=
  match results, new_scores with
  | r :: rs, s :: ss => set_score r s :: rescore rs ss
  | _, _ => results
  end.

Definition _rerank_results (rerank : string -> list string -> list float)
    (query_text : string) (results : list SearchResult) : list SearchResult :=
  match results with
  | [] => results
  | _ =>
      let documents := map content results in
      let new_scores := rerank query_text documents in
      Py.sorted_desc Py.flt score (rescore results new_scores)
  end.

(** The body of the [for result in results] loop of
    [_deduplicate_results]. *)
Definition dedup_step (deduplicated : list SearchResult) (result : SearchResult)
    : list SearchResult :=
  if existsb (overlaps_with result) deduplicated then deduplicated
  else deduplicated ++ [result].

Definition _deduplicate_results (self : HybridSearchEngine)
    (results : list SearchResult) : list SearchResult :=
  match results with
  | [] => results
  | _ => fold_left dedup_step results []
  end.

Definition search (self : HybridSearchEngine) (query : SearchQuery)
    (collection : string) : Py.result (list SearchResult) :=
  let filter_conditions := _build_filters self query in
  match
    match mode query with
    | EXACT => _exact_search self query collection filter_conditions
    | KEYWORD => _keyword_search self query collection filter_conditions
    | SEMANTIC => _semantic_search self query collection filter_conditions
    | HYBRID => _hybrid_search self query collection filter_conditions
    end
  with
  | inl e => Py.raise e
  | inr results =>
      let results :=
        match rerank_fn self with
        | Some f =>
            if (rerank query && (Py.len results >? 1))%bool
            then _rerank_results f (text query) results
            else results
        | None => results
        end in
      let results :=
        if deduplicate query then _deduplicate_results self results else results in
      let results := List.filter (fun r => Py.fge (score r) (min_score query)) results in
      Py.ok (Py.slice_to (limit query) results)
  end.

(** *** [MultiLevelSearch._merge_results] *)

(** [f"{result.file_path}:{result.start_line}"]. *)
Definition merge_key (result : SearchResult) : string :=
  file_path result +:+ ":" +:+ pretty (start_line result).

(** [1.0 / (k + rank)] with [k = 60]. *)
Definition rrf_term (rank : Z) : float :=
  (1.0 / Py.float_of_Z (60 + rank))%float.

(** The first loop, over [enumerate(symbols)] from [rank] on. *)
Fixpoint merge_symbols (rank : Z) (symbols : list SearchResult)
    (st : Py.dict float * Py.dict SearchResult) : Py.dict float * Py.dict SearchResult :=
  match symbols with
  | [] => st
  | result :: rest =>
      let '(rrf_scores, all_results) := st in
      let score := rrf_term rank in
      let key := merge_key result in
      merge_symbols (rank + 1) rest
        (Py.dict_set rrf_scores key
           (default 0%float (Py.dict_get rrf_scores key) + score * 1.2)%float,
         Py.dict_set all_results key result)
  end.

(** The second loop, over [enumerate(semantic)] from [rank] on. *)
Fixpoint merge_semantic (rank : Z) (semantic : list SearchResult)
    (st : Py.dict float * Py.dict SearchResult) : Py.dict float * Py.dict SearchResult :=
  match semantic with
  | [] => st
  | result :: rest =>
      let '(rrf_scores, all_results) := st in
      let score := rrf_term rank in
      let key := merge_key result in
      merge_semantic (rank + 1) rest
        (Py.dict_set rrf_scores key
           (default 0%float (Py.dict_get rrf_scores key) + score)%float,
         match Py.dict_get all_results key with
         | Some _ => all_results
         | None => Py.dict_set all_results key result
         end)
  end.

(** Every key of [rrf_scores] is a key of [all_results], so the lookup
    in the last loop finds its result; [omap] leaves nothing out. *)
Definition _merge_results (symbols semantic : list SearchResult) (limit : Z)
    : list SearchResult :=
  let '(rrf_scores, all_results) :=
    merge_semantic 0 semantic (merge_symbols 0 symbols ([], [])) in
  let sorted_keys :=
    Py.sorted_desc Py.flt (fun k => default 0%float (Py.dict_get rrf_scores k))
      (map fst rrf_scores) in
  omap (fun key =>
          match Py.dict_get all_results key, Py.dict_get rrf_scores key with
          | Some result, Some s => Some (set_score result s)
          | _, _ => None
          end)
       (Py.slice_to limit sorted_keys).

(** *** [MultiLevelSearch] *)

(** [self]: the engine set by [__init__]. *)
Record MultiLevelSearch : Type := mkMultiLevelSearch {
  engine : HybridSearchEngine;
}.

(** [c.isupper()] for one ASCII character. *)
Definition is_upper (c : ascii) : bool :=
  let n := nat_of_ascii c in (Nat.leb 65 n && Nat.leb n 90)%bool.

(** [query[0]] raises an [IndexError] on the empty string. *)
Definition _looks_like_symbol_name (self : MultiLevelSearch) (query : string)
    : Py.result bool :=
  if negb (Py.contains " " query) then
    if Py.contains "_" query then Py.ok true
    else
      match query with
      | EmptyString => Py.raise (Py.OtherError "string index out of range")
      | String c _ => if is_upper c then Py.ok true else Py.ok false
      end
  else Py.ok false.

Definition code_patterns : list string := ["()"; "{}"; "[]"; "=>"; "::"].

Definition _detect_search_mode (self : MultiLevelSearch) (query : string)
    : Py.result SearchMode :=
  match _looks_like_symbol_name self query with
  | inl e => Py.raise e
  | inr true => Py.ok EXACT
  | inr false =>
      if existsb (fun c => Py.contains c query) code_patterns then Py.ok KEYWORD
      else Py.ok HYBRID
  end.

(** [search_code]; the [context] argument is never read. *)
Definition search_code (self : MultiLevelSearch) (query : string)
    (context : option string) (limit : Z) : Py.result (list SearchResult) :=
  match _detect_search_mode self query with
  | inl e => Py.raise e
  | inr mode =>
      let search_query :=
        {| text := query; mode := mode; limit := limit; min_score := 0.5%float;
           file_paths := None; languages := None; symbol_types := None;
           exclude_paths := None; with_payload := true; with_vectors := false;
           rerank := true; deduplicate := true |} in
      match search (engine self) search_query "code_symbols" with
      | inl e => Py.raise e
      | inr symbol_results =>
          if match symbol_results with
             | first :: _ => Py.fgt (score first) 0.9
             | [] => false
             end
          then Py.ok (Py.slice_to limit symbol_results)
          else
            match search (engine self) search_query "code_semantic" with
            | inl e => Py.raise e
            | inr semantic_results =>
                Py.ok (_merge_results symbol_results semantic_results limit)
            end
      end
  end.

End hybrid_search.

(** ** [src/context/context_assembler.py] *)

Module context_assembler.

Inductive ContextPriority : Type :=
| CRITICAL | HIGH | MEDIUM | LOW | BACKGROUND.

(** The enum member's [value]. *)
Definition value (p : ContextPriority) : float :=
  match p with
  | CRITICAL => 1.0
  | HIGH => 0.8
  | MEDIUM => 0.6
  | LOW => 0.4
  | BACKGROUND => 0.2
  end%float.

Record ContextChunk : Type := mkContextChunk {
  content : string;
  file_path : string;
  start_line : Z;
  end_line : Z;
  priority : ContextPriority;
  relevance_score : float;
  token_count : Z;
  symbol_name : option string;
  chunk_type : option string;
  is_definition : bool;
}.

Definition effective_score (c : ContextChunk) : float :=
  (relevance_score c * value (priority c))%float.

Record AssembledContext : Type := mkAssembledContext {
  chunks : list ContextChunk;
  total_tokens : Z;
  budget_used : float;
  files_included : Z;
  symbols_included : Z;
  truncated_chunks : Z;
}.

(** The [tiktoken] encoding held by the assembler. *)
Record Tokenizer : Type := mkTokenizer {
  encode : string -> list Z;
  decode : list Z -> string;
}.

(** [self]: the fields set by [__init__]. *)
Record ContextAssembler : Type := mkContextAssembler {
  max_tokens : Z;
  reserve_tokens : Z;
  tokenizer : Tokenizer;
}.

Definition _count_tokens (self : ContextAssembler) (text : string) : Z :=
  Py.len (encode (tokenizer self) text).

Definition definition_types : list string := ["function"; "class"; "method"].

Definition _determine_priority (self : ContextAssembler)
    (result : hybrid_search.SearchResult) (query : string)
    : ContextPriority :=
  if (Py.truthy (hybrid_search.symbol_name result) &&
      Py.contains (Py.lower (Py.or_empty (hybrid_search.symbol_name result)))
                  (Py.lower query))%bool
  then CRITICAL
  else if Py.opt_in (hybrid_search.chunk_type result) definition_types
  then HIGH
  else if Py.fgt (hybrid_search.score result) 0.8 then HIGH
  else if Py.fgt (hybrid_search.score result) 0.6 then MEDIUM
  else LOW.

Definition _create_chunks (self : ContextAssembler)
    (search_results : list hybrid_search.SearchResult) (query : string)
    : list ContextChunk :=
  map (fun result =>
         {| content := hybrid_search.content result;
            file_path := hybrid_search.file_path result;
            start_line := hybrid_search.start_line result;
            end_line := hybrid_search.end_line result;
            priority := _determine_priority self result query;
            relevance_score := hybrid_search.score result;
            token_count := _count_tokens self (hybrid_search.content result);
            symbol_name := hybrid_search.symbol_name result;
            chunk_type := hybrid_search.chunk_type result;
            is_definition :=
              Py.opt_in (hybrid_search.chunk_type result) definition_types |})
      search_results.

(** Still a stub in the source: returns its argument. *)
Definition _add_definitions (self : ContextAssembler)
    (chunks : list ContextChunk) : list ContextChunk := chunks.

Definition _chunks_overlap (a b : ContextChunk) : bool :=
  if negb (String.eqb (file_path a) (file_path b)) then false
  else negb ((end_line a <? start_line b) || (start_line a >? end_line b)).

Definition _chunk_contains (outer inner : ContextChunk) : bool :=
  if negb (String.eqb (file_path outer) (file_path inner)) then false
  else ((start_line outer <=? start_line inner) &&
        (end_line outer >=? end_line inner))%bool.

(** The inner [for existing in deduplicated] loop of [_deduplicate], run
    for one [chunk].  [None]: no overlap was found ([overlaps] stays
    False).  [Some d]: the loop hit its [break] at the first overlapping
    [existing], and [d] is [deduplicated] afterwards: unchanged, or with
    that [existing] removed and [chunk] appended when [chunk] contains
    it.  ([list.remove] drops the first element equal to [existing];
    an equal element has the same file and lines, so it overlaps [chunk]
    too and the loop stops at the first of them: the one removed is the
    one the loop stands on.) *)
Fixpoint dedup_scan (chunk : ContextChunk) (deduplicated : list ContextChunk)
    : option (list ContextChunk) :=
  match deduplicated with
  | [] => None
  | existing :: rest =>
      if _chunks_overlap chunk existing then
        Some (if _chunk_contains chunk existing then rest ++ [chunk]
              else existing :: rest)
      else option_map (cons existing) (dedup_scan chunk rest)
  end.

Definition dedup_step (deduplicated : list ContextChunk) (chunk : ContextChunk)
    : list ContextChunk :=
  match dedup_scan chunk deduplicated with
  | Some d => d
  | None => deduplicated ++ [chunk]
  end.

Definition _deduplicate (self : ContextAssembler) (chunks : list ContextChunk)
    : list ContextChunk :=
  match chunks with
  | [] => chunks
  | _ =>
      let sorted_chunks := Py.sorted_desc Py.flt effective_score chunks in
      fold_left dedup_step sorted_chunks []
  end.

Definition _truncate_chunk (self : ContextAssembler) (chunk : ContextChunk)
    (max_tokens : Z) : ContextChunk :=
  let tokens := encode (tokenizer self) (content chunk) in
  let truncated_tokens := Py.slice_to (max_tokens - 10) tokens in
  let truncated_content :=
    String.append (decode (tokenizer self) truncated_tokens)
                  (String "010"%char "... (truncated)") in
  {| content := truncated_content;
     file_path := file_path chunk;
     start_line := start_line chunk;
     end_line := end_line chunk;
     priority := priority chunk;
     relevance_score := relevance_score chunk;
     token_count := max_tokens;
     symbol_name := symbol_name chunk;
     chunk_type := chunk_type chunk;
     is_definition := is_definition chunk |}.

(** The loop's variables: [used_tokens], [selected], [truncated_count]. *)
Record BudgetState : Type := mkBudgetState {
  used_tokens : Z;
  selected : list ContextChunk;
  truncated_count : Z;
}.

(** The [for chunk in chunks] loop of [_apply_budget]; the first branch is
    its [break]. *)
Fixpoint budget_loop (self : ContextAssembler) (available_tokens : Z)
    (chunks : list ContextChunk) (st : BudgetState) : BudgetState :=
  match chunks with
  | [] => st
  | chunk :: rest =>
      if used_tokens st >=? available_tokens then st
      else
        let remaining := available_tokens - used_tokens st in
        if token_count chunk <=? remaining then
          budget_loop self available_tokens rest
            {| used_tokens := used_tokens st + token_count chunk;
               selected := selected st ++ [chunk];
               truncated_count := truncated_count st |}
        else if remaining >? 100 then
          let truncated := _truncate_chunk self chunk remaining in
          budget_loop self available_tokens rest
            {| used_tokens := used_tokens st + token_count truncated;
               selected := selected st ++ [truncated];
               truncated_count := truncated_count st + 1 |}
        else budget_loop self available_tokens rest st
  end.

(** The [stats] dict. *)
Record Stats : Type := mkStats {
  stats_total_tokens : Z;
  stats_budget_used : float;
  stats_files : Z;
  stats_symbols : Z;
  stats_truncated : Z;
}.

(** [used_tokens / self.max_tokens] raises on a zero [max_tokens]. *)
Definition _apply_budget (self : ContextAssembler) (chunks : list ContextChunk)
    : Py.result (list ContextChunk * Stats) :=
  let available_tokens := max_tokens self - reserve_tokens self in
  let st := budget_loop self available_tokens chunks
              {| used_tokens := 0; selected := []; truncated_count := 0 |} in
  let unique_files := Py.len (Py.distinct (map file_path (selected st))) in
  let unique_symbols :=
    Py.len (Py.distinct
              (map (fun c => Py.or_empty (symbol_name c))
                   (List.filter (fun c => Py.truthy (symbol_name c))
                           (selected st)))) in
  if max_tokens self =? 0 then Py.raise (Py.ZeroDivisionError "division by zero")
  else Py.ok (selected st,
              {| stats_total_tokens := used_tokens st;
                 stats_budget_used :=
                   (Py.float_of_Z (used_tokens st) / Py.float_of_Z (max_tokens self))%float;
                 stats_files := unique_files;
                 stats_symbols := unique_symbols;
                 stats_truncated := truncated_count st |}).

Definition _order_for_prompt (self : ContextAssembler) (chunks : list ContextChunk)
    : list ContextChunk :=
  let definitions := List.filter (fun c => is_definition c) chunks in
  let non_definitions := List.filter (fun c => negb (is_definition c)) chunks in
  let definitions :=
    Py.sorted_asc Py.pair_lt
      (fun c => (file_path c, Py.or_empty (symbol_name c))) definitions in
  let non_definitions := Py.sorted_desc Py.flt effective_score non_definitions in
  definitions ++ non_definitions.

Definition assemble (self : ContextAssembler)
    (search_results : list hybrid_search.SearchResult) (query : string)
    (include_definitions include_file_context : bool)
    : Py.result AssembledContext :=
  let chunks := _create_chunks self search_results query in
  let chunks := if include_definitions then _add_definitions self chunks else chunks in
  let chunks := _deduplicate self chunks in
  let chunks := Py.sorted_desc Py.flt effective_score chunks in
  match _apply_budget self chunks with
  | inl e => Py.raise e
  | inr (selected_chunks, stats) =>
      let ordered_chunks := _order_for_prompt self selected_chunks in
      Py.ok {| chunks := ordered_chunks;
               total_tokens := stats_total_tokens stats;
               budget_used := stats_budget_used stats;
               files_included := stats_files stats;
               symbols_included := stats_symbols stats;
               truncated_chunks := stats_truncated stats |}
  end.

End context_assembler.

(** * Properties *)

(** ** Python built-ins *)

Section py_facts.
Context {A K : Type} (lt : K -> K -> bool) (key : A -> K).

Lemma insert_desc_perm (x : A) (l : list A) :
  Py.insert_desc lt key x l ≡ₚ x :: l.
Proof.
  induction l as [|y l IH]; simpl; [done|].
  destruct (lt (key x) (key y)); [|done].
  rewrite IH. apply Permutation_swap.
Qed.

Lemma sorted_desc_perm (l : list A) : Py.sorted_desc lt key l ≡ₚ l.
Proof.
  induction l as [|x l IH]; simpl; [done|].
  unfold Py.sorted_desc in *. simpl. rewrite insert_desc_perm. by rewrite IH.
Qed.

Lemma insert_asc_perm (x : A) (l : list A) :
  Py.insert_asc lt key x l ≡ₚ x :: l.
Proof.
  induction l as [|y l IH]; simpl; [done|].
  destruct (lt (key y) (key x)); [|done].
  rewrite IH. apply Permutation_swap.
Qed.

Lemma sorted_asc_perm (l : list A) : Py.sorted_asc lt key l ≡ₚ l.
Proof.
  induction l as [|x l IH]; simpl; [done|].
  unfold Py.sorted_asc in *. simpl. rewrite insert_asc_perm. by rewrite IH.
Qed.

Lemma filter_split_perm (f : A -> bool) (l : list A) :
  List.filter f l ++ List.filter (fun x => negb (f x)) l ≡ₚ l.
Proof.
  induction l as [|x l IH]; simpl; [done|].
  destruct (f x); simpl.
  - by rewrite IH.
  - rewrite <- Permutation_middle. by rewrite IH.
Qed.

End py_facts.

Lemma sum_app (l1 l2 : list Z) : Py.sum (l1 ++ l2) = Py.sum l1 + Py.sum l2.
Proof. induction l1 as [|x l1 IH]; simpl; [done|]. rewrite IH. lia. Qed.

Lemma sum_perm (l1 l2 : list Z) : l1 ≡ₚ l2 -> Py.sum l1 = Py.sum l2.
Proof. induction 1; simpl; lia. Qed.

Lemma slice_to_length {A : Type} (n : Z) (l : list A) :
  0 <= n -> Py.len (Py.slice_to n l) <= n.
Proof.
  intros Hn. unfold Py.slice_to, Py.len.
  destruct (Z.ltb_spec n 0); [lia|].
  rewrite length_take. lia.
Qed.

Lemma dict_get_set {V : Type} (d : Py.dict V) (k k' : string) (v : V) :
  Py.dict_get (Py.dict_set d k v) k' = if String.eqb k k' then Some v else Py.dict_get d k'.
Proof.
  induction d as [|[k0 v0] d IH]; simpl.
  - done.
  - destruct (String.eqb_spec k0 k) as [->|Hne]; simpl.
    + by destruct (String.eqb k k').
    + rewrite IH. destruct (String.eqb_spec k0 k') as [->|Hne']; [|done].
      by destruct (String.eqb_spec k k') as [->|].
Qed.

(** ** The context assembler *)

Module assembler_facts.
Import context_assembler.

Definition tokens_of (l : list ContextChunk) : Z := Py.sum (map token_count l).

Lemma truncate_token_count self chunk n :
  token_count (_truncate_chunk self chunk n) = n.
Proof. reflexivity. Qed.

(** The packing loop keeps [used_tokens] equal to the tokens selected and
    never lets it pass a non-negative budget. *)
Lemma budget_loop_invariant self available chunks st :
  tokens_of (selected st) = used_tokens st ->
  used_tokens st <= Z.max 0 available ->
  let st' := budget_loop self available chunks st in
  tokens_of (selected st') = used_tokens st' /\
  used_tokens st' <= Z.max 0 available.
Proof.
  revert st. induction chunks as [|chunk rest IH]; intros st Hsum Hle; simpl.
  - done.
  - destruct (Z.geb_spec (used_tokens st) available) as [Hbreak|Hgo]; [done|].
    destruct (Z.leb_spec (token_count chunk) (available - used_tokens st)) as [Hfit|Hbig].
    + apply IH; simpl.
      * unfold tokens_of in *. rewrite map_app, sum_app, Hsum. simpl. lia.
      * lia.
    + destruct (Z.gtb_spec (available - used_tokens st) 100) as [Hroom|Hfloor].
      * apply IH; simpl.
        -- unfold tokens_of in *. rewrite map_app, sum_app, Hsum. simpl. lia.
        -- lia.
      * by apply IH.
Qed.

Lemma order_for_prompt_perm self l : _order_for_prompt self l ≡ₚ l.
Proof.
  unfold _order_for_prompt.
  rewrite sorted_asc_perm, sorted_desc_perm.
  apply (filter_split_perm (fun c => is_definition c)).
Qed.

Lemma apply_budget_ok self l :
  max_tokens self <> 0 ->
  exists sel stats,
    _apply_budget self l = inr (sel, stats) /\
    stats_total_tokens stats = tokens_of sel /\
    tokens_of sel <= Z.max 0 (max_tokens self - reserve_tokens self).
Proof.
  intros Hmax. unfold _apply_budget.
  destruct (Z.eqb_spec (max_tokens self) 0) as [|_]; [done|].
  eexists _, _. split; [reflexivity|]. simpl.
  destruct (budget_loop_invariant self (max_tokens self - reserve_tokens self) l
              {| used_tokens := 0; selected := []; truncated_count := 0 |})
    as [Hsum Hle]; simpl; [done|lia|].
  split; [done|]. by rewrite Hsum.
Qed.

Lemma assemble_budget self search_results query include_definitions include_file_context :
  max_tokens self <> 0 ->
  exists ctx,
    assemble self search_results query include_definitions include_file_context = inr ctx /\
    total_tokens ctx = tokens_of (chunks ctx) /\
    tokens_of (chunks ctx) <= Z.max 0 (max_tokens self - reserve_tokens self).
Proof.
  intros Hmax. unfold assemble.
  set (sorted := Py.sorted_desc _ _ _).
  destruct (apply_budget_ok self sorted Hmax) as (sel & stats & -> & Htot & Hle).
  eexists. split; [reflexivity|]. simpl.
  assert (tokens_of (_order_for_prompt self sel) = tokens_of sel) as ->; [|done].
  unfold tokens_of. apply sum_perm, Permutation_map, order_for_prompt_perm.
Qed.

(** With [max_tokens = 0] the statistics divide by zero and [assemble]
    raises. *)
Lemma assemble_zero_max_raises self search_results query include_definitions
    include_file_context :
  max_tokens self = 0 ->
  assemble self search_results query include_definitions include_file_context
  = inl (Py.ZeroDivisionError "division by zero").
Proof.
  intros Hmax. unfold assemble, _apply_budget. by rewrite Hmax.
Qed.

(** A hit that does not fit whole: truncated to exactly the remaining
    budget when that exceeds 100 tokens, passed over otherwise. *)
Lemma budget_loop_no_fit self available chunk rest st :
  used_tokens st < available ->
  available - used_tokens st < token_count chunk ->
  budget_loop self available (chunk :: rest) st =
    if available - used_tokens st >? 100 then
      budget_loop self available rest
        {| used_tokens := available;
           selected := selected st ++
                       [_truncate_chunk self chunk (available - used_tokens st)];
           truncated_count := truncated_count st + 1 |}
    else budget_loop self available rest st.
Proof.
  intros Hgo Hbig. simpl.
  destruct (Z.geb_spec (used_tokens st) available); [lia|].
  destruct (Z.leb_spec (token_count chunk) (available - used_tokens st)); [lia|].
  destruct (available - used_tokens st >? 100); [|done].
  do 2 f_equal. lia.
Qed.

(** Sample data: a tokenizer with one token per character. *)
Definition char_tokenizer : Tokenizer :=
  {| encode := fun s => map (fun c => Z.of_nat (nat_of_ascii c)) (list_ascii_of_string s);
     decode := fun l => string_of_list_ascii (map (fun t => ascii_of_nat (Z.to_nat t)) l) |}.

Definition sample_hit (name : string) (path : string) (first last : Z) (s : float)
    : hybrid_search.SearchResult :=
  {| hybrid_search.id_ := name;
     hybrid_search.score := s;
     hybrid_search.content := "x = 1";
     hybrid_search.file_path := path;
     hybrid_search.start_line := first;
     hybrid_search.end_line := last;
     hybrid_search.symbol_name := None;
     hybrid_search.chunk_type := Some "block";
     hybrid_search.payload :=
       hybrid_search.mkPayload None None None None None None |}.

Definition default_assembler : ContextAssembler :=
  {| max_tokens := 8000; reserve_tokens := 1000; tokenizer := char_tokenizer |}.

(** [ContextAssembler(max_tokens=500)]: the default reserve of 1000 is
    larger than the budget. *)
Definition small_assembler : ContextAssembler :=
  {| max_tokens := 500; reserve_tokens := 1000; tokenizer := char_tokenizer |}.

(** C1 (as amended). For every list of hits and every configuration with
    [max_tokens <> 0] (a zero [max_tokens] makes [_apply_budget] divide
    by zero), [assemble] returns a context whose chunks' token counts sum
    to [total_tokens] and to at most [max (0, max_tokens - reserve_tokens)];
    so the sum is at most [max_tokens - reserve_tokens] whenever that
    budget is not negative.  A hit that does not fit whole is truncated,
    with [token_count] set to the remaining budget, exactly when the
    remaining budget exceeds 100 tokens, and is passed over otherwise. *)
Theorem budget_law self search_results query include_definitions include_file_context :
  max_tokens self <> 0 ->
  (exists ctx,
     assemble self search_results query include_definitions include_file_context = inr ctx /\
     total_tokens ctx = tokens_of (chunks ctx) /\
     tokens_of (chunks ctx) <= Z.max 0 (max_tokens self - reserve_tokens self) /\
     (reserve_tokens self <= max_tokens self ->
      tokens_of (chunks ctx) <= max_tokens self - reserve_tokens self)) /\
  (forall available chunk rest st,
     used_tokens st < available ->
     available - used_tokens st < token_count chunk ->
     token_count (_truncate_chunk self chunk (available - used_tokens st))
       = available - used_tokens st /\
     budget_loop self available (chunk :: rest) st =
       if available - used_tokens st >? 100 then
         budget_loop self available rest
           {| used_tokens := available;
              selected := selected st ++
                          [_truncate_chunk self chunk (available - used_tokens st)];
              truncated_count := truncated_count st + 1 |}
       else budget_loop self available rest st).
Proof.
  intros Hmax. split.
  - destruct (assemble_budget self search_results query include_definitions
                include_file_context Hmax) as (ctx & Heq & Htot & Hle).
    exists ctx. repeat split; try done. lia.
  - intros available chunk rest st Hgo Hbig. split; [done|].
    by apply budget_loop_no_fit.
Qed.

Lemma budget_law_witness :
  max_tokens default_assembler <> 0 /\
  exists ctx,
    assemble default_assembler [sample_hit "a" "m.py" 1 5 0.9%float] "query" true true
      = inr ctx /\
    tokens_of (chunks ctx) <= 7000.
Proof.
  split; [discriminate|].
  destruct (budget_law default_assembler [sample_hit "a" "m.py" 1 5 0.9%float]
              "query" true true) as [(ctx & Heq & _ & _ & Hle) _]; [discriminate|].
  exists ctx. split; [exact Heq|]. apply Hle. simpl. lia.
Defined.

(** C1 as stated fails when the reserve exceeds [max_tokens]: with
    [max_tokens = 500] and the default reserve of 1000 the budget is
    [-500], the loop breaks at once, and the empty context's token sum
    [0] is above the budget. *)
Lemma budget_law_negative_budget :
  exists ctx,
    assemble small_assembler [sample_hit "a" "m.py" 1 5 0.9%float] "query" true true
      = inr ctx /\
    chunks ctx = [] /\
    max_tokens small_assembler - reserve_tokens small_assembler = -500 /\
    ~ (tokens_of (chunks ctx)
         <= max_tokens small_assembler - reserve_tokens small_assembler).
Proof.
  eexists. split; [vm_compute; reflexivity|]. simpl.
  split; [reflexivity|]. split; [reflexivity|]. vm_compute. intros H. by apply H.
Qed.

Definition sized_chunk (name : string) (tokens : Z) (s : float) : ContextChunk :=
  {| content := name; file_path := name; start_line := 0; end_line := 0;
     priority := HIGH; relevance_score := s; token_count := tokens;
     symbol_name := None; chunk_type := None; is_definition := false |}.

Definition packer : ContextAssembler :=
  {| max_tokens := 1000; reserve_tokens := 100; tokenizer := char_tokenizer |}.

(** C10. The packer's [break] fires exactly when the used tokens have
    reached the available budget; below it every hit is examined.  A hit
    that does not fit while the remaining budget is at most 100 tokens is
    passed over alone, leaving the loop's state as it was, and the hits
    after it are still examined: with a budget of 900 and hits of 850,
    400 and 50 tokens in score order, the selection is the first and the
    third, which is no prefix of the input. *)
Theorem packer_skips_one_hit self available chunk rest st :
  used_tokens st < available ->
  available - used_tokens st < token_count chunk ->
  available - used_tokens st <= 100 ->
  budget_loop self available (chunk :: rest) st = budget_loop self available rest st /\
  (forall chunks' st', available <= used_tokens st' ->
     budget_loop self available chunks' st' = st') /\
  (forall chunk' rest' st', used_tokens st' < available ->
     exists st'', budget_loop self available (chunk' :: rest') st'
                  = budget_loop self available rest' st'') /\
  (let hits := [sized_chunk "a" 850 0.9%float; sized_chunk "b" 400 0.8%float;
                sized_chunk "c" 50 0.7%float] in
   exists stats,
     _apply_budget packer hits
       = inr ([sized_chunk "a" 850 0.9%float; sized_chunk "c" 50 0.7%float], stats) /\
     stats_total_tokens stats = 900 /\ stats_truncated stats = 0 /\
     ~ [sized_chunk "a" 850 0.9%float; sized_chunk "c" 50 0.7%float] `prefix_of` hits).
Proof.
  intros Hgo Hbig Hfloor. repeat split.
  - rewrite budget_loop_no_fit by done.
    destruct (Z.gtb_spec (available - used_tokens st) 100); [lia|done].
  - intros chunks' st' Hfull. destruct chunks' as [|c l]; simpl; [done|].
    destruct (Z.geb_spec (used_tokens st') available); [done|lia].
  - intros chunk' rest' st' Hlt. simpl.
    destruct (Z.geb_spec (used_tokens st') available); [lia|].
    destruct (_ <=? _); [by eexists|].
    destruct (_ >? _); by eexists.
  - eexists. split; [vm_compute; reflexivity|]. simpl.
    split; [reflexivity|]. split; [reflexivity|].
    intros [k Hk]. simpl in Hk. destruct k; discriminate.
Qed.

Lemma packer_skips_one_hit_witness :
  budget_loop packer 900
    [sized_chunk "b" 400 0.8%float; sized_chunk "c" 50 0.7%float]
    {| used_tokens := 850; selected := [sized_chunk "a" 850 0.9%float];
       truncated_count := 0 |}
  = budget_loop packer 900 [sized_chunk "c" 50 0.7%float]
      {| used_tokens := 850; selected := [sized_chunk "a" 850 0.9%float];
         truncated_count := 0 |}.
Proof.
  apply (packer_skips_one_hit packer 900 (sized_chunk "b" 400 0.8%float)
           [sized_chunk "c" 50 0.7%float]
           {| used_tokens := 850; selected := [sized_chunk "a" 850 0.9%float];
              truncated_count := 0 |}); simpl; lia.
Defined.

(** Three hits in one file: two functions and the file-level chunk that
    spans them both. *)
Definition hit (name kind : string) (first last : Z) (s : float)
    : hybrid_search.SearchResult :=
  {| hybrid_search.id_ := name;
     hybrid_search.score := s;
     hybrid_search.content := name;
     hybrid_search.file_path := "app.py";
     hybrid_search.start_line := first;
     hybrid_search.end_line := last;
     hybrid_search.symbol_name := Some name;
     hybrid_search.chunk_type := Some kind;
     hybrid_search.payload := hybrid_search.mkPayload None None None None None None |}.

Definition overlapping_hits : list hybrid_search.SearchResult :=
  [ hit "parse" "function" 10 20 0.9%float;
    hit "render" "function" 30 40 0.85%float;
    hit "app" "file" 0 50 0.7%float ].

(** The file, first line and last line of each chunk. *)
Definition spans (l : list ContextChunk) : list (string * Z * Z) :=
  map (fun c => (file_path c, start_line c, end_line c)) l.

(** No two chunks of the list overlap. *)
Fixpoint no_overlaps (l : list ContextChunk) : bool :=
  match l with
  | [] => true
  | x :: l' => forallb (fun y => negb (_chunks_overlap x y)) l' && no_overlaps l'
  end.

(** C4, the assembler. [_deduplicate] keeps "render" (lines 30-40), then
    lets the file chunk (lines 0-50) replace "parse" (lines 10-20), the
    first chunk it overlaps, without comparing it with "render": the
    assembled context holds two overlapping chunks of [app.py]. *)
Theorem assemble_keeps_overlapping_chunks :
  exists ctx,
    assemble default_assembler overlapping_hits "how is the page drawn" true true
      = inr ctx /\
    spans (chunks ctx) = [("app.py", 30, 40); ("app.py", 0, 50)] /\
    no_overlaps (chunks ctx) = false.
Proof.
  eexists. split; [vm_compute; reflexivity|]. split; reflexivity.
Qed.

End assembler_facts.

(** ** The hybrid search engine *)

Module search_facts.
Import qdrant hybrid_search.

(** Sample data: a store that answers every request with the same three
    points, and an engine with no sparse embedding and no reranker. *)
Definition sample_point (name : string) (path : string) (first last : Z) (s : float)
    : ScoredPoint :=
  {| sp_id := name; sp_score := s;
     sp_payload := Some {| p_content := Some name; p_file_path := Some path;
                           p_start_line := Some first; p_end_line := Some last;
                           p_symbol_name := Some name; p_chunk_type := Some "function" |} |}.

Definition sample_points : list ScoredPoint :=
  [ sample_point "f" "m.py" 1 10 0.9%float;
    sample_point "g" "m.py" 5 20 0.7%float;
    sample_point "h" "n.py" 1 10 0.3%float ].

Definition sample_client : QdrantClient :=
  {| query_points := fun _ => sample_points; scroll := fun _ => sample_points |}.

Definition dense_only_engine : HybridSearchEngine :=
  {| client := sample_client; embed := fun _ => [0.5%float];
     sparse_embed := None; rerank_fn := None |}.

Definition with_mode (m : SearchMode) (q : SearchQuery) : SearchQuery :=
  {| text := text q; mode := m; limit := limit q; min_score := min_score q;
     file_paths := file_paths q; languages := languages q;
     symbol_types := symbol_types q; exclude_paths := exclude_paths q;
     with_payload := with_payload q; with_vectors := with_vectors q;
     rerank := rerank q; deduplicate := deduplicate q |}.

(** C3 (as amended). In Keyword mode with no sparse-embedding function
    configured, [search] fails: [_keyword_search] raises
    [ValueError("Sparse embedding function not configured")] and [search]
    lets it through; there is no fallback to Semantic search. *)
Theorem keyword_without_sparse_raises self query collection :
  mode query = KEYWORD ->
  sparse_embed self = None ->
  search self query collection
    = inl (Py.ValueError "Sparse embedding function not configured").
Proof.
  intros Hmode Hsparse. unfold search, _keyword_search.
  by rewrite Hmode, Hsparse.
Qed.

Lemma keyword_without_sparse_raises_witness :
  search dense_only_engine (with_mode KEYWORD (SearchQuery_default "parse()"))
    "code_semantic"
  = inl (Py.ValueError "Sparse embedding function not configured").
Proof.
  apply (keyword_without_sparse_raises dense_only_engine
           (with_mode KEYWORD (SearchQuery_default "parse()")) "code_semantic");
    reflexivity.
Defined.

(** C3 as stated fails: on the same engine and query text the Semantic
    search returns a result, and the Keyword search raises instead of
    returning it. *)
Lemma keyword_does_not_fall_back :
  (exists results,
     search dense_only_engine (with_mode SEMANTIC (SearchQuery_default "parse()"))
       "code_semantic" = inr results /\ results <> []) /\
  ~ (exists results,
       search dense_only_engine (with_mode KEYWORD (SearchQuery_default "parse()"))
         "code_semantic" = inr results).
Proof.
  split.
  - eexists. split; [vm_compute; reflexivity|]. discriminate.
  - intros [results H]. vm_compute in H. discriminate.
Qed.

(** Hybrid mode does no fusion arithmetic of its own: it asks the store
    for [Fusion.RRF] over its prefetches and converts what comes back.
    Without a sparse embedding function the only prefetch is the dense
    one. *)
Lemma hybrid_search_delegates_fusion self query collection filter_conditions :
  exists prefetch,
    _hybrid_search self query collection filter_conditions
    = _convert_results self
        (query_points (client self)
           {| qp_collection_name := collection;
              qp_prefetch := prefetch;
              qp_query := FusionQuery RRF;
              qp_using := None;
              qp_limit := limit query * 2;
              qp_filter := None;
              qp_with_payload := with_payload query;
              qp_with_vectors := with_vectors query |}) /\
    (sparse_embed self = None ->
     prefetch = [ {| pf_query := DenseVector (embed self (text query));
                     pf_using := "dense"; pf_limit := limit query * 3;
                     pf_filter := filter_conditions |} ]).
Proof.
  eexists. split; [reflexivity|]. by intros ->.
Qed.

(** The retrieval step of [search]: the branch on [query.mode]. *)
Definition retrieved (self : HybridSearchEngine) (query : SearchQuery)
    (collection : string) : Py.result (list SearchResult) :=
  match mode query with
  | EXACT => _exact_search self query collection (_build_filters self query)
  | KEYWORD => _keyword_search self query collection (_build_filters self query)
  | SEMANTIC => _semantic_search self query collection (_build_filters self query)
  | HYBRID => _hybrid_search self query collection (_build_filters self query)
  end.

(** C9 (as amended). For every query, in every mode, a list returned by
    [search] is [filtered[:limit]], where [filtered] is the retrieved
    (fused) list after the rerank, the deduplication and, last, the
    threshold [score >= min_score] (0.5 by default); so every result
    returned has [score >= min_score], a result scored below it never
    comes back, and the list has at most [limit] results whenever
    [limit] is not negative. *)
Theorem search_limit_and_threshold self query collection results :
  search self query collection = inr results ->
  (0 <= limit query -> Py.len results <= limit query) /\
  Forall (fun r => Py.fge (score r) (min_score query) = true) results /\
  (forall r, Py.fge (score r) (min_score query) = false -> r ∉ results) /\
  (exists fused,
     retrieved self query collection = inr fused /\
     results =
       Py.slice_to (limit query)
         (List.filter (fun r => Py.fge (score r) (min_score query))
            ((if deduplicate query then _deduplicate_results self else fun l => l)
               (match rerank_fn self with
                | Some f =>
                    if (rerank query && (Py.len fused >? 1))%bool
                    then _rerank_results f (text query) fused else fused
                | None => fused
                end)))) /\
  (forall text, min_score (SearchQuery_default text) = 0.5%float).
Proof.
  intros Hsearch. unfold search in Hsearch.
  fold (retrieved self query collection) in Hsearch.
  destruct (retrieved self query collection) as [e|fused] eqn:Hret; [discriminate|].
  injection Hsearch as <-.
  set (processed := match rerank_fn self with Some _ => _ | None => _ end).
  set (deduped := if deduplicate query then _ else processed).
  assert (Forall (fun r => Py.fge (score r) (min_score query) = true)
            (Py.slice_to (limit query)
               (List.filter (fun r => Py.fge (score r) (min_score query)) deduped)))
    as Hall.
  { unfold Py.slice_to. destruct (limit query <? 0); apply Forall_take;
      apply Forall_forall; intros r Hr;
      apply list_elem_of_In, filter_In in Hr; tauto. }
  split; [intros Hlimit; by apply slice_to_length|].
  split; [exact Hall|]. split; [|split].
  - intros r Hlow Hin. rewrite Forall_forall in Hall.
    apply Hall in Hin. congruence.
  - exists fused. split; [done|]. subst deduped processed.
    by destruct (deduplicate query).
  - done.
Qed.

Lemma search_limit_and_threshold_witness :
  exists results,
    search dense_only_engine (with_mode SEMANTIC (SearchQuery_default "parse"))
      "code_semantic" = inr results /\
    Py.len results <= 10 /\
    Forall (fun r => Py.fge (score r) 0.5 = true) results.
Proof.
  eexists. split; [vm_compute; reflexivity|].
  destruct (search_limit_and_threshold dense_only_engine
              (with_mode SEMANTIC (SearchQuery_default "parse")) "code_semantic" _
              eq_refl) as (Hlimit & Hscores & _).
  split; [apply Hlimit; simpl; lia | exact Hscores].
Defined.

(** A Semantic query with a negative limit and no deduplication. *)
Definition negative_limit_query : SearchQuery :=
  {| text := "parse"; mode := SEMANTIC; limit := -1; min_score := 0.5%float;
     file_paths := None; languages := None; symbol_types := None;
     exclude_paths := None; with_payload := true; with_vectors := false;
     rerank := true; deduplicate := false |}.

(** C9 as stated fails for a negative [limit]: [results[:limit]] then
    drops results from the end instead of keeping a prefix of that
    length.  With [limit = -1] two of the store's points pass the
    threshold and the search returns the first of them: one result,
    which is more than [limit]. *)
Lemma search_negative_limit :
  exists results,
    search dense_only_engine negative_limit_query "code_semantic" = inr results /\
    map score results = [0.9%float] /\
    ~ (Py.len results <= limit negative_limit_query).
Proof.
  eexists. split; [vm_compute; reflexivity|]. split; [reflexivity|].
  vm_compute. intros H. by apply H.
Qed.

(** *** Deduplication of search results *)

(** No two results of the list overlap. *)
Fixpoint no_overlaps (l : list SearchResult) : bool :=
  match l with
  | [] => true
  | x :: l' => forallb (fun y => negb (overlaps_with x y)) l' && no_overlaps l'
  end.

Lemma overlaps_with_sym a b : overlaps_with a b = overlaps_with b a.
Proof.
  unfold overlaps_with. rewrite (String.eqb_sym (file_path a) (file_path b)).
  destruct (String.eqb (file_path b) (file_path a)); simpl; [|done].
  destruct (Z.ltb_spec (end_line a) (start_line b)),
    (Z.gtb_spec (start_line a) (end_line b)),
    (Z.ltb_spec (end_line b) (start_line a)),
    (Z.gtb_spec (start_line b) (end_line a)); simpl; try done; lia.
Qed.

Lemma no_overlaps_snoc l r :
  no_overlaps l = true ->
  existsb (overlaps_with r) l = false ->
  no_overlaps (l ++ [r]) = true.
Proof.
  induction l as [|x l IH]; simpl; [done|].
  intros [Hx Hl]%andb_prop [Hrx Hrl]%orb_false_elim.
  rewrite forallb_app, Hx, IH by done. simpl.
  by rewrite overlaps_with_sym, Hrx.
Qed.

Lemma no_overlaps_fold results acc :
  no_overlaps acc = true -> no_overlaps (fold_left dedup_step results acc) = true.
Proof.
  revert acc. induction results as [|r results IH]; intros acc Hacc; simpl; [done|].
  apply IH. unfold dedup_step.
  destruct (existsb (overlaps_with r) acc) eqn:Hex; [done|].
  by apply no_overlaps_snoc.
Qed.

Lemma no_overlaps_sublist l1 l2 :
  sublist l1 l2 -> no_overlaps l2 = true -> no_overlaps l1 = true.
Proof.
  induction 1 as [|x l1 l2 Hsub IH|x l1 l2 Hsub IH]; simpl; [done| |].
  - intros [Hx Hl]%andb_prop. rewrite IH by done.
    rewrite andb_true_r. apply forallb_forall. intros y Hy.
    rewrite forallb_forall in Hx. apply Hx.
    apply list_elem_of_In. apply list_elem_of_In in Hy.
    by eapply elem_of_sublist.
  - intros [_ Hl]%andb_prop. by apply IH.
Qed.

Lemma filter_sublist {A : Type} (f : A -> bool) (l : list A) :
  sublist (List.filter f l) l.
Proof.
  induction l as [|x l IH]; simpl; [constructor|].
  destruct (f x); by constructor.
Qed.

Lemma slice_to_sublist {A : Type} (n : Z) (l : list A) : sublist (Py.slice_to n l) l.
Proof. unfold Py.slice_to. destruct (n <? 0); apply sublist_take. Qed.

Lemma deduplicate_results_no_overlaps self results :
  no_overlaps (_deduplicate_results self results) = true.
Proof.
  unfold _deduplicate_results. destruct results as [|r results]; [done|].
  by apply no_overlaps_fold.
Qed.

(** X5. With [deduplicate] on, no two results that [search] returns
    overlap: the score threshold and the limit only drop results from
    the deduplicated list. *)
Lemma search_no_overlaps self query collection results :
  deduplicate query = true ->
  search self query collection = inr results ->
  no_overlaps results = true.
Proof.
  intros Hdedup Hsearch. unfold search in Hsearch.
  destruct (match mode query with EXACT => _ | _ => _ end) as [e|fused];
    [discriminate|].
  injection Hsearch as <-. rewrite Hdedup.
  eapply no_overlaps_sublist; [apply slice_to_sublist|].
  eapply no_overlaps_sublist; [apply filter_sublist|].
  apply deduplicate_results_no_overlaps.
Qed.

(** *** Rank fusion in [_merge_results] *)

(** What one ranked list adds to the score of [key]: for each position
    [rank] (counted from 0) that holds [key], in list order,
    [weight * (1.0 / (60 + rank))] in the first loop's form
    [score * 1.2], or the plain term in the second's. *)
Fixpoint symbols_share (key : string) (rank : Z) (symbols : list SearchResult)
    (acc : option float) : option float :=
  match symbols with
  | [] => acc
  | result :: rest =>
      symbols_share key (rank + 1) rest
        (if String.eqb (merge_key result) key
         then Some (default 0 acc + rrf_term rank * 1.2)%float else acc)
  end.

Fixpoint semantic_share (key : string) (rank : Z) (semantic : list SearchResult)
    (acc : option float) : option float :=
  match semantic with
  | [] => acc
  | result :: rest =>
      semantic_share key (rank + 1) rest
        (if String.eqb (merge_key result) key
         then Some (default 0 acc + rrf_term rank)%float else acc)
  end.

Lemma merge_symbols_get key symbols rank st :
  Py.dict_get (fst (merge_symbols rank symbols st)) key
  = symbols_share key rank symbols (Py.dict_get (fst st) key).
Proof.
  revert rank st. induction symbols as [|r rest IH]; intros rank [rrf all]; simpl;
    [done|].
  rewrite IH. simpl. rewrite dict_get_set.
  by destruct (String.eqb_spec (merge_key r) key) as [->|].
Qed.

Lemma merge_semantic_get key semantic rank st :
  Py.dict_get (fst (merge_semantic rank semantic st)) key
  = semantic_share key rank semantic (Py.dict_get (fst st) key).
Proof.
  revert rank st. induction semantic as [|r rest IH]; intros rank [rrf all]; simpl;
    [done|].
  rewrite IH. simpl. rewrite dict_get_set.
  by destruct (String.eqb_spec (merge_key r) key) as [->|].
Qed.

(** Each result is filed under its own key. *)
Definition keyed (all : Py.dict SearchResult) : Prop :=
  forall k r, Py.dict_get all k = Some r -> merge_key r = k.

Lemma keyed_set all r : keyed all -> keyed (Py.dict_set all (merge_key r) r).
Proof.
  intros Hall k r'. rewrite dict_get_set.
  destruct (String.eqb_spec (merge_key r) k) as [<-|]; [|apply Hall].
  by intros [= <-].
Qed.

Lemma merge_symbols_keyed symbols rank st :
  keyed (snd st) -> keyed (snd (merge_symbols rank symbols st)).
Proof.
  revert rank st. induction symbols as [|r rest IH]; intros rank [rrf all]; simpl;
    [done|].
  intros Hall. apply IH. simpl. by apply keyed_set.
Qed.

Lemma merge_semantic_keyed semantic rank st :
  keyed (snd st) -> keyed (snd (merge_semantic rank semantic st)).
Proof.
  revert rank st. induction semantic as [|r rest IH]; intros rank [rrf all]; simpl;
    [done|].
  intros Hall. apply IH. simpl.
  destruct (Py.dict_get all (merge_key r)); [done|]. by apply keyed_set.
Qed.

Lemma merge_key_set_score r s : merge_key (set_score r s) = merge_key r.
Proof. reflexivity. Qed.

Lemma merge_results_score symbols semantic limit r :
  r ∈ _merge_results symbols semantic limit ->
  Some (score r)
  = semantic_share (merge_key r) 0 semantic
      (symbols_share (merge_key r) 0 symbols None).
Proof.
  unfold _merge_results.
  pose proof (merge_semantic_get (merge_key r) semantic 0
                (merge_symbols 0 symbols ([], []))) as Hget.
  rewrite merge_symbols_get in Hget. simpl in Hget.
  pose proof (merge_semantic_keyed semantic 0 (merge_symbols 0 symbols ([], []))
                (merge_symbols_keyed symbols 0 ([], []) ltac:(by intros ? ?)))
    as Hkeyed.
  destruct (merge_semantic 0 semantic (merge_symbols 0 symbols ([], [])))
    as [rrf all]. simpl in *.
  intros (key & Hkey & Hr)%list_elem_of_omap.
  destruct (Py.dict_get all key) as [result|] eqn:Hall; [|discriminate].
  destruct (Py.dict_get rrf key) as [s|] eqn:Hrrf; [|discriminate].
  injection Hr as <-. apply Hkeyed in Hall.
  rewrite merge_key_set_score, Hall in *. simpl. by rewrite <- Hget, Hrrf.
Qed.

Definition doc (name : string) : SearchResult :=
  {| id_ := name; score := 0.75%float; content := name; file_path := name;
     start_line := 1; end_line := 9; symbol_name := None; chunk_type := None;
     payload := mkPayload None None None None None None |}.

Definition dense_ranking : list SearchResult :=
  [doc "B"; doc "A"; doc "C"; doc "D"; doc "E"].

Definition sparse_ranking : list SearchResult :=
  [doc "A"; doc "B"; doc "E"; doc "F"; doc "G"].

(** The identifiers and scores of a result list. *)
Definition scores (l : list SearchResult) : list (string * float) :=
  map (fun r => (id_ r, score r)) l.

(** C6 (as amended). [_merge_results] fuses its two ranked lists by a
    boosted, zero-based variant of Reciprocal Rank Fusion: a candidate,
    keyed by [file_path:start_line], scores
    [1.2 * 1/(60 + i)] for each zero-based position [i] it holds in the
    first list plus [1/(60 + j)] for each zero-based position [j] in the
    second.  For the rankings [B,A,C,D,E] and [A,B,E,F,G] document A
    scores [1.2/61 + 1/60] and B scores [1.2/60 + 1/61] when [B,A,C,D,E]
    is the first list, so the fused top-2 is [B,A]; it is [A,B] when
    [A,B,E,F,G] is the first list.  Either way the score of A exceeds that
    of C, D, F and G, which appear in one list only. *)
Theorem merge_results_boosted_rrf symbols semantic limit r :
  r ∈ _merge_results symbols semantic limit ->
  Some (score r)
  = semantic_share (merge_key r) 0 semantic
      (symbols_share (merge_key r) 0 symbols None) /\
  scores (_merge_results dense_ranking sparse_ranking 10)
  = [ ("B", 0 + 1.0 / 60 * 1.2 + 1.0 / 61); ("A", 0 + 1.0 / 61 * 1.2 + 1.0 / 60);
      ("E", 0 + 1.0 / 64 * 1.2 + 1.0 / 62); ("C", 0 + 1.0 / 62 * 1.2);
      ("D", 0 + 1.0 / 63 * 1.2); ("F", 0 + 1.0 / 63); ("G", 0 + 1.0 / 64) ]%float /\
  map id_ (_merge_results dense_ranking sparse_ranking 2) = ["B"; "A"] /\
  map id_ (_merge_results sparse_ranking dense_ranking 2) = ["A"; "B"] /\
  Forall (fun s => Py.flt s (0 + 1.0 / 61 * 1.2 + 1.0 / 60) = true)
    [0 + 1.0 / 62 * 1.2; 0 + 1.0 / 63 * 1.2; 0 + 1.0 / 63; 0 + 1.0 / 64]%float.
Proof.
  intros Hr. split; [by apply (merge_results_score symbols semantic limit)|].
  split; [vm_compute; reflexivity|].
  split; [vm_compute; reflexivity|].
  split; [vm_compute; reflexivity|].
  repeat constructor.
Qed.

Lemma merge_results_boosted_rrf_witness :
  Some (0 + 1.0 / 61 * 1.2 + 1.0 / 60)%float
  = semantic_share "A:1" 0 sparse_ranking (symbols_share "A:1" 0 dense_ranking None).
Proof.
  apply (merge_results_boosted_rrf dense_ranking sparse_ranking 2
           (set_score (doc "A") (0 + 1.0 / 61 * 1.2 + 1.0 / 60)%float)).
  vm_compute. apply list_elem_of_In. right. left. reflexivity.
Defined.

(** C6 as stated fails on [_merge_results]: for dense [B,A,C,D,E] and
    sparse [A,B,E,F,G], A's fused score is not [1/61 + 1/62] (it is
    larger than 0.036, the stated sum is below 0.033), and the fused
    top-2 is [B,A], not [A,B]. *)
Lemma merge_results_is_not_plain_rrf :
  exists a,
    (("A", a) ∈ scores (_merge_results dense_ranking sparse_ranking 10)) /\
    PrimFloat.eqb a (1.0 / 61 + 1.0 / 62) = false /\
    Py.flt (1.0 / 61 + 1.0 / 62) 0.033 = true /\
    Py.flt 0.036 a = true /\
    map id_ (_merge_results dense_ranking sparse_ranking 2) <> ["A"; "B"].
Proof.
  exists (0 + 1.0 / 61 * 1.2 + 1.0 / 60)%float.
  split; [vm_compute; apply list_elem_of_In; right; left; reflexivity|].
  split; [vm_compute; reflexivity|].
  split; [vm_compute; reflexivity|].
  split; [vm_compute; reflexivity|].
  vm_compute. discriminate.
Qed.

End search_facts.

(** ** The incremental indexer *)

Module indexer_facts.
Import qdrant incremental_indexer.

(** The hash [compute_file_hash] returns in world [w]. *)
Definition current_hash (self : IncrementalIndexer) (w : World) (file_path : string)
    : string :=
  match fs w !! full_path_of self file_path with
  | None => ""
  | Some content => sha256_hexdigest self content
  end.

Lemma compute_file_hash_eq self file_path w :
  compute_file_hash self file_path w = (inr (current_hash self w file_path), w).
Proof.
  unfold compute_file_hash, current_hash, mbind, M_bind, bind, get. simpl.
  by destruct (fs w !! full_path_of self file_path).
Qed.

Lemma lift_compute_file_hash self file_path u :
  lift (compute_file_hash self file_path) u
  = (inr (current_hash self (world u) file_path), u).
Proof. unfold lift. rewrite compute_file_hash_eq. by destruct u. Qed.

(** A Modified file whose hash is the recorded one: the turn of the loop
    changes nothing. *)
Lemma process_unchanged self state change u :
  change_type change = MODIFIED ->
  indexed_files state !! path change = Some (current_hash self (world u) (path change)) ->
  process_change self state change u = (inr tt, u).
Proof.
  intros Hkind Hsame. unfold process_change, try_except, apply_change.
  rewrite Hkind. unfold mbind, M_bind, bind. rewrite lift_compute_file_hash.
  rewrite Hsame. by rewrite bool_decide_eq_false_2 by (intros H; by apply H).
Qed.

(** *** What a computation adds to the trace *)

Section appends.
Context {S : Type} (wd : S -> World) (P : Event -> Prop).

(** [m] leaves the files on disk alone and only adds events that
    satisfy [P] to the trace. *)
Definition appends {A : Type} (m : M S A) : Prop :=
  forall s, exists evs,
    trace (wd (m s).2) = trace (wd s) ++ evs /\
    Forall P evs /\
    fs (wd (m s).2) = fs (wd s).

Lemma appends_ret {A : Type} (a : A) : appends (mret a).
Proof. intros s. exists []. by rewrite app_nil_r. Qed.

Lemma appends_throw {A : Type} (e : Py.exn) : appends (@throw S A e).
Proof. intros s. exists []. by rewrite app_nil_r. Qed.

Lemma appends_get : appends (@get S).
Proof. intros s. exists []. by rewrite app_nil_r. Qed.

Lemma appends_of_result {A : Type} (r : Py.result A) : appends (@of_result S A r).
Proof. intros s. exists []. by rewrite app_nil_r. Qed.

Lemma appends_bind {A B : Type} (m : M S A) (k : A -> M S B) :
  appends m -> (forall a, appends (k a)) -> appends (m ≫= k).
Proof.
  intros Hm Hk s. unfold mbind, M_bind, bind.
  destruct (Hm s) as (evs1 & Ht1 & HP1 & Hf1).
  destruct (m s) as [[e|a] s1] eqn:Hms; simpl in *.
  - by exists evs1.
  - destruct (Hk a s1) as (evs2 & Ht2 & HP2 & Hf2).
    exists (evs1 ++ evs2). rewrite Ht2, Ht1, Hf2, Hf1, app_assoc.
    split; [done|]. split; [by apply Forall_app|done].
Qed.

Lemma appends_try_except {A : Type} (m : M S A) (handler : Py.exn -> M S A) :
  appends m -> (forall e, appends (handler e)) -> appends (try_except m handler).
Proof.
  intros Hm Hh s. unfold try_except.
  destruct (Hm s) as (evs1 & Ht1 & HP1 & Hf1).
  destruct (m s) as [[e|a] s1] eqn:Hms; simpl in *.
  - destruct (Hh e s1) as (evs2 & Ht2 & HP2 & Hf2).
    exists (evs1 ++ evs2). rewrite Ht2, Ht1, Hf2, Hf1, app_assoc.
    split; [done|]. split; [by apply Forall_app|done].
  - by exists evs1.
Qed.

Lemma appends_modify (f : S -> S) :
  (forall s, wd (f s) = wd s) -> appends (modify f).
Proof.
  intros Hf s. exists []. simpl. by rewrite Hf, app_nil_r.
Qed.

Lemma appends_for_each {A : Type} (l : list A) (body : A -> M S unit) :
  (forall x, appends (body x)) -> appends (for_each l body).
Proof.
  intros Hbody. induction l as [|x l IH]; simpl.
  - apply appends_ret.
  - apply appends_bind; [apply Hbody|]. intros _. apply IH.
Qed.

End appends.

Definition is_write (e : Event) : bool :=
  match e with
  | WriteText _ _ => true
  | _ => false
  end.

Definition is_embed (e : Event) : bool :=
  match e with
  | Embed _ => true
  | _ => false
  end.

Definition is_chunk (e : Event) : bool :=
  match e with
  | ChunkFile _ => true
  | _ => false
  end.

Section world_appends.
Context (P : Event -> Prop).

Lemma appends_emit (e : Event) : P e -> appends (fun w => w) P (emit e).
Proof.
  intros He w. exists [e]. simpl. split; [done|]. split; [|done].
  by apply Forall_singleton.
Qed.

Lemma appends_set_store (f : Store -> Store) : appends (fun w => w) P (set_store f).
Proof. intros w. exists []. simpl. by rewrite app_nil_r. Qed.

Lemma appends_client_count collection f :
  P (Count collection f) -> appends (fun w => w) P (client_count collection f).
Proof.
  intros HP. apply appends_bind; [by apply appends_emit|]. intros _.
  apply appends_bind; [apply appends_get|]. intros w. apply appends_ret.
Qed.

Lemma appends_client_delete collection f :
  P (Delete collection f) -> appends (fun w => w) P (client_delete collection f).
Proof.
  intros HP. apply appends_bind; [by apply appends_emit|]. intros _.
  apply appends_set_store.
Qed.

Lemma appends_client_scroll collection f limit :
  P (Scroll collection f limit) ->
  appends (fun w => w) P (client_scroll collection f limit).
Proof.
  intros HP. apply appends_bind; [by apply appends_emit|]. intros _.
  apply appends_bind; [apply appends_get|]. intros w. apply appends_ret.
Qed.

Lemma appends_client_upsert collection points :
  P (Upsert collection points) ->
  appends (fun w => w) P (client_upsert collection points).
Proof.
  intros HP. apply appends_bind; [by apply appends_emit|]. intros _.
  apply appends_set_store.
Qed.

Lemma appends_lift {A : Type} (m : M World A) :
  appends (fun w => w) P m -> appends world P (lift m).
Proof.
  intros Hm u. destruct (Hm (world u)) as (evs & Ht & HP & Hf).
  exists evs. unfold lift. by destruct (m (world u)).
Qed.

Lemma appends_fi_lift {A : Type} (m : M World A) :
  appends (fun w => w) P m -> appends fi_world P (fi_lift m).
Proof.
  intros Hm u. destruct (Hm (fi_world u)) as (evs & Ht & HP & Hf).
  exists evs. unfold fi_lift. by destruct (m (fi_world u)).
Qed.

End world_appends.

(** The store calls, chunker calls and embedder calls: everything but a
    file write. *)
Definition not_write (e : Event) : Prop := is_write e = false.

(** The store calls alone. *)
Definition store_call (e : Event) : Prop :=
  is_write e = false /\ is_embed e = false /\ is_chunk e = false.

Lemma appends_compute_file_hash P self file_path :
  appends (fun w => w) P (compute_file_hash self file_path).
Proof.
  intros w. rewrite compute_file_hash_eq. exists []. by rewrite app_nil_r.
Qed.

Lemma appends_embed_batch self batch :
  appends (fun w => w) not_write (embed_batch self batch).
Proof.
  apply appends_bind.
  - apply appends_for_each. intros text. by apply appends_emit.
  - intros _. apply appends_of_result.
Qed.

Lemma appends_batch_embed self texts batch_size :
  appends (fun w => w) not_write (_batch_embed self texts batch_size).
Proof.
  unfold _batch_embed.
  generalize (batches (length texts) batch_size texts) as bs.
  assert (appends (fun w => w) not_write (mret [] : M World (list (list float))))
    as Hacc by apply appends_ret.
  revert Hacc. generalize (mret [] : M World (list (list float))) as acc.
  intros acc Hacc bs. revert acc Hacc.
  induction bs as [|b bs IH]; intros acc Hacc; simpl; [done|].
  apply IH. apply appends_bind; [done|]. intros embeddings.
  apply appends_bind; [apply appends_embed_batch|]. intros ?. apply appends_ret.
Qed.

Lemma appends_index_file self file_path :
  appends (fun w => w) not_write (_index_file self file_path).
Proof.
  unfold _index_file. apply appends_bind; [apply appends_get|]. intros w.
  destruct (fs w !! full_path_of self file_path) as [source|]; [|apply appends_ret].
  apply appends_bind; [by apply appends_emit|]. intros _.
  apply appends_bind; [apply appends_of_result|]. intros chunks.
  destruct chunks as [|c chunks]; [apply appends_ret|].
  apply appends_bind; [apply appends_batch_embed|]. intros embeddings.
  apply appends_bind; [by apply appends_client_upsert|]. intros _.
  destruct (map fst _); [apply appends_ret|].
  apply appends_bind; [by apply appends_client_upsert|]. intros _. apply appends_ret.
Qed.

Lemma appends_delete_file_chunks self file_path :
  appends (fun w => w) store_call (_delete_file_chunks self file_path).
Proof.
  unfold _delete_file_chunks.
  apply appends_bind; [by apply appends_client_count|]. intros n.
  apply appends_bind; [by apply appends_client_delete|]. intros _.
  apply appends_bind; [by apply appends_client_delete|]. intros _. apply appends_ret.
Qed.

Lemma appends_rename_file_chunks self old_path new_path :
  appends (fun w => w) store_call (_rename_file_chunks self old_path new_path).
Proof.
  unfold _rename_file_chunks. destruct old_path as [old|]; [|apply appends_throw].
  apply appends_bind; [by apply appends_client_scroll|]. intros points.
  destruct points; [apply appends_ret|]. by apply appends_client_upsert.
Qed.

Lemma appends_weaken {S A : Type} (wd : S -> World) (P Q : Event -> Prop) (m : M S A) :
  (forall e, P e -> Q e) -> appends wd P m -> appends wd Q m.
Proof.
  intros HPQ Hm s. destruct (Hm s) as (evs & Ht & HP & Hf).
  exists evs. split; [done|]. split; [|done]. by eapply Forall_impl.
Qed.

Lemma store_call_not_write e : store_call e -> not_write e.
Proof. by intros [H _]. Qed.

Lemma appends_process_change self state change :
  appends world not_write (process_change self state change).
Proof.
  unfold process_change. apply appends_try_except.
  - unfold apply_change. destruct (change_type change).
    + apply appends_bind; [apply appends_lift, appends_index_file|]. intros chunks.
      apply appends_bind; [apply appends_lift, appends_compute_file_hash|]. intros h.
      repeat (apply appends_bind; [by apply appends_modify|]; intros _).
      by apply appends_modify.
    + apply appends_bind; [apply appends_lift, appends_compute_file_hash|]. intros h.
      destruct (bool_decide _); [|apply appends_ret].
      apply appends_bind.
      { apply appends_lift. eapply appends_weaken; [apply store_call_not_write|].
        apply appends_delete_file_chunks. }
      intros n. apply appends_bind; [by apply appends_modify|]. intros _.
      apply appends_bind; [apply appends_lift, appends_index_file|]. intros chunks.
      repeat (apply appends_bind; [by apply appends_modify|]; intros _).
      by apply appends_modify.
    + apply appends_bind.
      { apply appends_lift. eapply appends_weaken; [apply store_call_not_write|].
        apply appends_delete_file_chunks. }
      intros n.
      repeat (apply appends_bind; [by apply appends_modify|]; intros _).
      by apply appends_modify.
    + apply appends_bind.
      { apply appends_lift. eapply appends_weaken; [apply store_call_not_write|].
        apply appends_rename_file_chunks. }
      intros _. apply appends_bind; [apply appends_get|]. intros u.
      repeat (apply appends_bind; [by apply appends_modify|]; intros _).
      by apply appends_modify.
    + apply appends_ret.
  - intros e. by apply appends_modify.
Qed.

Lemma appends_index_one self file_path :
  appends fi_world not_write (index_one self file_path).
Proof.
  unfold index_one. apply appends_try_except.
  - apply appends_bind; [apply appends_fi_lift, appends_index_file|]. intros chunks.
    apply appends_bind; [apply appends_fi_lift, appends_compute_file_hash|]. intros h.
    by apply appends_modify.
  - intros e. by apply appends_modify.
Qed.

(** *** Sample data *)

Definition sample_chunk (file_path source : string) : ast_chunker.CodeChunk :=
  {| ast_chunker.id_ := "function_" +:+ file_path;
     ast_chunker.file_path := file_path;
     ast_chunker.chunk_type := ast_chunker.FUNCTION;
     ast_chunker.start_line := 0; ast_chunker.end_line := 1;
     ast_chunker.start_byte := 0; ast_chunker.end_byte := 0;
     ast_chunker.content := source;
     ast_chunker.docstring := None;
     ast_chunker.symbol_name := Some "f";
     ast_chunker.parent_symbol := None;
     ast_chunker.signature := Some "def f()";
     ast_chunker.imports := []; ast_chunker.calls := [];
     ast_chunker.dependencies := [];
     ast_chunker.language := "python";
     ast_chunker.complexity := 0;
     ast_chunker.tokens_estimate := 3 |}.

(** The changes git reports since the recorded commit: [util.py] was
    touched, [old.py] was renamed to [new.py]. *)
Definition touched : FileChange :=
  {| path := "util.py"; change_type := MODIFIED; old_path := None;
     content_hash := None |}.

Definition renamed : FileChange :=
  {| path := "new.py"; change_type := RENAMED; old_path := Some "old.py";
     content_hash := None |}.

Definition sample_indexer (changes : list FileChange) : IncrementalIndexer :=
  {| repo_path := "/repo";
     chunker := fun full_path source => inr [sample_chunk full_path source];
     embedder := fun _ => inr [0.25%float; 0.5%float];
     git := {| get_current_commit := "c2";
               get_changes_since := fun _ => changes;
               get_all_tracked_files := fun _ => ["util.py"; "new.py"] |};
     sha256_hexdigest := fun content => "sha:" +:+ content;
     json_dumps := fun st =>
       "{git_commit: " +:+ git_commit st +:+ ", total_files: "
         +:+ pretty (total_files st) +:+ "}";
     json_loads := fun _ => None;
     now := "2024-05-01T12:00:00" |}.

Definition sample_point (name file_path : string) : PointStruct :=
  {| id_ := name; vector := [("dense", [0.25%float; 0.5%float])];
     payload := [ ("content", VStr "def f(): pass"); ("file_path", VStr file_path);
                  ("chunk_type", VStr "function"); ("symbol_name", VStr "f") ] |}.

Definition sample_world : World :=
  {| store := {[ "code_semantic" := [sample_point "p1" "util.py"; sample_point "p2" "old.py"];
                 "code_symbols" := [sample_point "p1" "util.py"; sample_point "p2" "old.py"] ]};
     fs := {[ "/repo/util.py" := "def f(): pass";
              "/repo/new.py" := "def f(): pass";
              "/repo/.rag_index_state.json" := "{git_commit: c1, total_files: 2}" ]};
     trace := [] |}.

Definition sample_state : IndexState :=
  {| git_commit := "c1";
     indexed_files := {[ "util.py" := "sha:def f(): pass"; "old.py" := "sha:def f(): pass" ]};
     last_updated := "2024-04-30T09:00:00";
     total_chunks := 2; total_files := 2 |}.

Definition sample_update : Update :=
  {| world := sample_world; new_indexed_files := indexed_files sample_state;
     stats := mkUpdateStats 0 0 0 0 0 [] |}.

(** *** Modified files *)

Lemma delete_file_chunks_eq self file_path w :
  _delete_file_chunks self file_path w
  = (inr (store_count (store w) "code_semantic" (file_path_filter file_path)),
     {| store := store_delete
                   (store_delete (store w) "code_semantic" (file_path_filter file_path))
                   "code_symbols" (file_path_filter file_path);
        fs := fs w;
        trace := trace w ++ [ Count "code_semantic" (file_path_filter file_path);
                              Delete "code_semantic" (file_path_filter file_path);
                              Delete "code_symbols" (file_path_filter file_path) ] |}).
Proof.
  unfold _delete_file_chunks, client_count, client_delete, emit, set_store, modify,
    get, mbind, M_bind, bind, mret, M_ret, ret. simpl.
  by rewrite <- !app_assoc.
Qed.

(** C5. A file reported Modified whose recomputed hash equals the hash
    recorded in the loaded state is skipped: its turn of the loop leaves
    the store, the trace of chunker, embedder and store calls, the path
    map and the statistics exactly as they were.  When the hashes differ
    the turn counts and deletes the file's chunks in both collections,
    then indexes the file afresh ([_index_file]: chunk, embed, upsert),
    and records the new hash once that has succeeded. *)
Theorem unchanged_file_is_skipped self state change u :
  change_type change = MODIFIED ->
  (indexed_files state !! path change
     = Some (current_hash self (world u) (path change)) ->
   process_change self state change u = (inr tt, u)) /\
  (indexed_files state !! path change
     <> Some (current_hash self (world u) (path change)) ->
   let f := file_path_filter (path change) in
   let w1 := (_delete_file_chunks self (path change) (world u)).2 in
   let u' := (process_change self state change u).2 in
   trace w1 = trace (world u)
              ++ [Count "code_semantic" f; Delete "code_semantic" f;
                  Delete "code_symbols" f] /\
   world u' = (_index_file self (path change) w1).2 /\
   (forall chunks,
      (_index_file self (path change) w1).1 = inr chunks ->
      new_indexed_files u'
      = <[path change := current_hash self (world u) (path change)]>
          (new_indexed_files u))).
Proof.
  intros Hkind. split; [by apply process_unchanged|].
  intros Hdiff f w1 u'. subst w1 u'.
  rewrite delete_file_chunks_eq. simpl. split; [done|].
  unfold process_change, try_except, apply_change. rewrite Hkind.
  unfold mbind, M_bind, bind. rewrite lift_compute_file_hash.
  rewrite bool_decide_eq_true_2 by (intros H; by rewrite H in Hdiff).
  unfold lift at 1. rewrite delete_file_chunks_eq. simpl.
  unfold lift. simpl. rewrite <- ?app_assoc. simpl.
  destruct (_index_file self (path change) _) as [[e|chunks] w2]; simpl; [done|].
  split; [done|]. by intros ? _.
Qed.

Lemma unchanged_file_is_skipped_witness :
  process_change (sample_indexer [touched]) sample_state touched sample_update
  = (inr tt, sample_update).
Proof.
  apply (unchanged_file_is_skipped (sample_indexer [touched]) sample_state touched
           sample_update); reflexivity.
Defined.

(** A pass over touched but unchanged files only: nothing is chunked,
    embedded, deleted or upserted. *)
Lemma unchanged_files_pass self state changes u :
  Forall (fun change =>
            change_type change = MODIFIED /\
            indexed_files state !! path change
              = Some (current_hash self (world u) (path change))) changes ->
  for_each changes (process_change self state) u = (inr tt, u).
Proof.
  induction 1 as [|change changes [Hkind Hsame] _ IH]; simpl; [done|].
  unfold mbind, M_bind, bind. by rewrite process_unchanged.
Qed.

(** *** Renamed files *)

(** The [file_path] recorded in each point of a collection. *)
Definition file_paths_in (w : World) (collection : string) : list (option PyVal) :=
  map (fun p => Py.dict_get (payload p) "file_path") (points_of (store w) collection).

(** A rename talks to the store only: no chunker call, no embedder call. *)
Lemma rename_makes_store_calls_only self old_path new_path w :
  exists evs,
    trace (_rename_file_chunks self old_path new_path w).2 = trace w ++ evs /\
    Forall store_call evs.
Proof.
  destruct (appends_rename_file_chunks self old_path new_path w) as (evs & Ht & HP & _).
  by exists evs.
Qed.

Lemma rename_file_chunks_returns self old new_path w :
  (_rename_file_chunks self (Some old) new_path w).1 = inr tt.
Proof.
  unfold _rename_file_chunks, client_scroll, client_upsert, emit, set_store, modify,
    get, mbind, M_bind, bind, mret, M_ret, ret. simpl.
  by destruct (store_scroll _ _ _ _).
Qed.

(** The turn of the loop for a rename moves the recorded hash from the
    old path to the new one. *)
Lemma rename_carries_hash self state change old u :
  change_type change = RENAMED ->
  old_path change = Some old ->
  let r := process_change self state change u in
  r.1 = inr tt /\
  new_indexed_files r.2
  = <[path change := default "" (new_indexed_files u !! old)]>
      (delete old (new_indexed_files u)).
Proof.
  intros Hkind Hold. unfold process_change, try_except, apply_change.
  rewrite Hkind, Hold. unfold mbind, M_bind, bind, lift.
  pose proof (rename_file_chunks_returns self old (path change) (world u)) as Hret.
  destruct (_rename_file_chunks self (Some old) (path change) (world u))
    as [[e|[]] w']; simpl in *; [discriminate|]. done.
Qed.

(** C7, evaluated. [old.py], whose one function chunk sits in both
    collections, is renamed to [new.py]: no embedder call is made, the
    hash moves to the new path, the point in [code_semantic] gets the new
    path, and the point in [code_symbols] keeps the old one, since
    [_rename_file_chunks] scrolls and upserts [code_semantic] only. *)
Theorem rename_leaves_symbols_stale :
  let self := sample_indexer [renamed] in
  let r := process_change self sample_state renamed sample_update in
  r.1 = inr tt /\
  trace (world r.2)
  = [ Scroll "code_semantic" (file_path_filter "old.py") 1000;
      Upsert "code_semantic" [sample_point "p2" "new.py"] ] /\
  new_indexed_files r.2 !! "old.py" = None /\
  new_indexed_files r.2 !! "new.py" = Some "sha:def f(): pass" /\
  file_paths_in (world r.2) "code_semantic"
  = [Some (VStr "util.py"); Some (VStr "new.py")] /\
  file_paths_in (world r.2) "code_symbols"
  = [Some (VStr "util.py"); Some (VStr "old.py")].
Proof. vm_compute. repeat split. Qed.

(** *** Saving the state *)

Lemma save_state_eq self state w :
  _save_state self state w
  = (inr tt,
     {| store := store w;
        fs := <[full_path_of self STATE_FILE := json_dumps self state]> (fs w);
        trace := trace w
                 ++ [WriteText (full_path_of self STATE_FILE) (json_dumps self state)] |}).
Proof. reflexivity. Qed.

Lemma process_change_returns self state change u :
  (process_change self state change u).1 = inr tt.
Proof.
  unfold process_change, try_except.
  by destruct (apply_change self state change u) as [[e|[]] u'].
Qed.

Lemma index_one_returns self file_path u : (index_one self file_path u).1 = inr tt.
Proof.
  unfold index_one, try_except.
  by destruct (_ ≫= _) as [[e|[]] u'].
Qed.

Lemma for_each_returns {S A : Type} (l : list A) (body : A -> M S unit) :
  (forall x s, (body x s).1 = inr tt) -> forall s, (for_each l body s).1 = inr tt.
Proof.
  intros Hbody. induction l as [|x l IH]; intros s; simpl; [done|].
  unfold mbind, M_bind, bind. specialize (Hbody x s).
  destruct (body x s) as [[e|[]] s']; simpl in *; [done|apply IH].
Qed.

(** The state written by an incremental update that ended in [u]. *)
Definition updated_state (self : IncrementalIndexer) (state : IndexState) (u : Update)
    : IndexState :=
  {| git_commit := get_current_commit (git self);
     indexed_files := new_indexed_files u;
     last_updated := now self;
     total_chunks :=
       total_chunks state + chunks_added (stats u) - chunks_deleted (stats u);
     total_files := Z.of_nat (size (new_indexed_files u)) |}.

(** C8 (as amended). The state is persisted by one [write_text] of the
    serialized state straight into the state file: no temporary file
    and no replace.  In an incremental update and in a full index that
    write is the last thing done, after the loop over the changes (or the
    files) has ended, whatever errors the loop recorded; the loop itself
    writes no file. *)
Theorem state_written_in_place_after_pass self state extensions w :
  (forall st w0,
     _save_state self st w0
     = (inr tt,
        {| store := store w0;
           fs := <[full_path_of self STATE_FILE := json_dumps self st]> (fs w0);
           trace := trace w0
                    ++ [WriteText (full_path_of self STATE_FILE) (json_dumps self st)] |})) /\
  (exists evs u,
     let r := _incremental_update self state extensions w in
     r.1 = inr (stats u) /\
     Forall not_write evs /\
     trace r.2 = trace w ++ evs
                 ++ [WriteText (full_path_of self STATE_FILE)
                       (json_dumps self (updated_state self state u))] /\
     fs r.2 = <[full_path_of self STATE_FILE
                  := json_dumps self (updated_state self state u)]> (fs w)) /\
  (exists evs st stats,
     let r := _full_index self extensions w in
     r.1 = inr stats /\
     Forall not_write evs /\
     trace r.2 = trace w ++ evs
                 ++ [WriteText (full_path_of self STATE_FILE) (json_dumps self st)] /\
     fs r.2 = <[full_path_of self STATE_FILE := json_dumps self st]> (fs w)).
Proof.
  split; [intros; apply save_state_eq|]. split.
  - unfold _incremental_update.
    set (changes := List.filter _ _).
    set (u0 := {| world := w; new_indexed_files := _; stats := _ |}).
    pose proof (for_each_returns changes (process_change self state)
                  (process_change_returns self state) u0) as Hret.
    destruct (appends_for_each world not_write changes (process_change self state)
                (appends_process_change self state) u0) as (evs & Ht & HP & Hf).
    destruct (for_each changes (process_change self state) u0) as [[e|[]] u];
      simpl in *; [done|].
    exists evs, u. simpl. rewrite Ht, Hf, <- app_assoc. done.
  - unfold _full_index.
    set (files := get_all_tracked_files _ _).
    set (u0 := {| fi_world := w; fi_indexed_files := _; fi_stats := _ |}).
    pose proof (for_each_returns files (index_one self) (index_one_returns self) u0)
      as Hret.
    destruct (appends_for_each fi_world not_write files (index_one self)
                (appends_index_one self) u0) as (evs & Ht & HP & Hf).
    destruct (for_each files (index_one self) u0) as [[e|[]] u];
      simpl in *; [done|].
    eexists evs, _, _. simpl. rewrite Ht, Hf, <- app_assoc. done.
Qed.

(** *** A crash while the state is saved *)

(** The file operations of a save. [OpReplace] is [os.replace], which the
    code never calls; it is here for the write-temp-then-replace scheme. *)
Inductive FsOp : Type :=
| OpWriteText (full_path data : string)
| OpReplace (src dst : string).

Definition run_op (op : FsOp) (files : gmap string string) : gmap string string :=
  match op with
  | OpWriteText full_path data => <[full_path := data]> files
  | OpReplace src dst =>
      match files !! src with
      | Some data => <[dst := data]> (delete src files)
      | None => files
      end
  end.

(** The files a crash in the middle of [op] can leave: [write_text]
    truncates the file when it opens it and may have written any proper
    prefix of the data; a replace happens at once or not at all. *)
Definition torn (op : FsOp) (files files' : gmap string string) : Prop :=
  match op with
  | OpWriteText full_path data =>
      exists n : nat,
        (n < String.length data)%nat /\
        files' = <[full_path := String.substring 0 n data]> files
  | OpReplace _ _ => False
  end.

(** The files a crash can leave while [ops] run in order. *)
Inductive crashed : list FsOp -> gmap string string -> gmap string string -> Prop :=
| crashed_here ops files : crashed ops files files
| crashed_torn op ops files files' :
    torn op files files' -> crashed (op :: ops) files files'
| crashed_later op ops files files' :
    crashed ops (run_op op files) files' -> crashed (op :: ops) files files'.

Definition file_ops (evs : list Event) : list FsOp :=
  omap (fun e => match e with
                 | WriteText full_path data => Some (OpWriteText full_path data)
                 | _ => None
                 end) evs.

(** The scheme the specification describes: write a temporary file, then
    replace the state file with it. *)
Definition write_temp_then_replace (tmp state_path data : string) : list FsOp :=
  [OpWriteText tmp data; OpReplace tmp state_path].

(** Under that scheme a crash leaves the state file as it was or with
    the complete new state. *)
Lemma write_temp_then_replace_is_atomic tmp state_path data files files' :
  tmp <> state_path ->
  crashed (write_temp_then_replace tmp state_path data) files files' ->
  files' !! state_path = files !! state_path \/ files' !! state_path = Some data.
Proof.
  intros Hne Hcrash. unfold write_temp_then_replace in Hcrash.
  inversion Hcrash as [| ? ? ? ? Htorn | ? ? ? ? Hlater]; subst; [by left| |].
  - destruct Htorn as (n & _ & ->). left. by rewrite lookup_insert_ne.
  - simpl in Hlater.
    inversion Hlater as [| ? ? ? ? Htorn | ? ? ? ? Hlast]; subst.
    + left. by rewrite lookup_insert_ne.
    + destruct Htorn.
    + simpl in Hlast. rewrite lookup_insert_eq in Hlast.
      inversion Hlast; subst. right. by rewrite lookup_insert_eq.
Qed.

(** C8 as stated fails: [_save_state] issues no replace and writes the
    state file itself, so a crash during the write can leave it holding
    a proper prefix of the new state, which is neither the old state nor
    the new one. *)
Lemma save_state_can_tear :
  let self := sample_indexer [touched] in
  let new_state := updated_state self sample_state sample_update in
  let state_path := "/repo/.rag_index_state.json" in
  file_ops (trace (_save_state self new_state sample_world).2)
  = [OpWriteText state_path "{git_commit: c2, total_files: 2}"] /\
  exists files',
    crashed (file_ops (trace (_save_state self new_state sample_world).2))
      (fs sample_world) files' /\
    fs sample_world !! state_path = Some "{git_commit: c1, total_files: 2}" /\
    files' !! state_path = Some "{git_commit: c2" /\
    files' !! state_path <> fs sample_world !! state_path /\
    files' !! state_path <> Some (json_dumps self new_state).
Proof.
  split; [vm_compute; reflexivity|].
  exists (<["/repo/.rag_index_state.json" := "{git_commit: c2"]> (fs sample_world)).
  split.
  - apply crashed_torn. exists 15%nat. split; [vm_compute; lia|reflexivity].
  - rewrite lookup_insert_eq. split; [reflexivity|]. split; [reflexivity|].
    split; [|vm_compute; discriminate].
    vm_compute. discriminate.
Qed.

End indexer_facts.

(** ** The chunker *)

Module chunker_facts.
Import ast_chunker.

(** What a chunk's id and line span are computed from. *)
Definition shape (c : CodeChunk) : string * ChunkType * Z * Z * option string * string :=
  (file_path c, chunk_type c, start_line c, end_line c, symbol_name c, content c).

(** A chunk's id and line span. *)
Definition id_and_span (c : CodeChunk) : string * Z * Z :=
  (id_ c, start_line c, end_line c).

(** The id and span that [chunk_file] gives a chunk of a given shape. *)
Definition finished (sha256 : string -> string)
    (s : string * ChunkType * Z * Z * option string * string) : string * Z * Z :=
  let '(file_path, chunk_type, start_line, end_line, symbol_name, content) := s in
  (value chunk_type +:+ "_"
     +:+ Py.substr 0 16
           (sha256 (file_path +:+ ":" +:+ Py.str_opt symbol_name +:+ ":" +:+ content)),
   start_line, end_line).

Lemma id_and_span_finish sha256 c :
  id_and_span (finish sha256 c) = finished sha256 (shape c).
Proof. reflexivity. Qed.

Lemma map_id_and_span_finish sha256 l :
  map id_and_span (map (finish sha256) l) = map (finished sha256) (map shape l).
Proof. rewrite !map_map. apply map_ext. intros c. apply id_and_span_finish. Qed.

Section two_runs.
Context (run1 run2 : ASTChunker).

Lemma create_file_chunk_shape file_path content tree :
  shape (_create_file_chunk run1 file_path content tree)
  = shape (_create_file_chunk run2 file_path content tree).
Proof. reflexivity. Qed.

Lemma extract_module_chunk_shape file_path content tree :
  map shape (option_list (_extract_module_chunk run1 file_path content tree))
  = map shape (option_list (_extract_module_chunk run2 file_path content tree)).
Proof.
  unfold _extract_module_chunk.
  destruct (module_scan content (children tree) [] 0) as [[|part parts] end_line];
    reflexivity.
Qed.

Lemma class_chunks_shape file_path content node :
  map shape (class_chunks run1 file_path content node)
  = map shape (class_chunks run2 file_path content node).
Proof.
  unfold class_chunks.
  destruct (_estimate_tokens (source_of content node) <=? MAX_CHUNK_TOKENS);
    [reflexivity|].
  simpl. f_equal. rewrite !map_map. by apply map_ext.
Qed.

Lemma extract_classes_shape file_path content tree :
  map shape (_extract_classes run1 file_path content tree)
  = map shape (_extract_classes run2 file_path content tree).
Proof.
  unfold _extract_classes.
  induction (_find_nodes tree "class_definition") as [|node nodes IH]; simpl;
    [done|].
  by rewrite !map_app, class_chunks_shape, IH.
Qed.

(** The two runs' body loops move in step. *)
Lemma body_loop_shape file_path func_name first_row body_start_idx body_lines :
  forall i st1 st2,
    map shape (split_chunks st1) = map shape (split_chunks st2) ->
    current_block st1 = current_block st2 ->
    current_tokens st1 = current_tokens st2 ->
    block_idx st1 = block_idx st2 ->
    let r1 := body_loop run1 file_path func_name first_row body_start_idx i body_lines st1 in
    let r2 := body_loop run2 file_path func_name first_row body_start_idx i body_lines st2 in
    map shape (split_chunks r1) = map shape (split_chunks r2) /\
    current_block r1 = current_block r2 /\
    block_idx r1 = block_idx r2.
Proof.
  induction body_lines as [|line rest IH]; intros i st1 st2 Hchunks Hblock Htokens Hidx;
    simpl.
  - done.
  - rewrite <- Hblock, <- Htokens, <- Hidx.
    destruct (_ && _)%bool; simpl.
    + apply IH; simpl; try done. by rewrite !map_app, Hchunks.
    + apply IH; simpl; try done; congruence.
Qed.

Lemma split_large_function_shape file_path node content func_name :
  map shape (_split_large_function run1 file_path node content func_name)
  = map shape (_split_large_function run2 file_path node content func_name).
Proof.
  unfold _split_large_function.
  destruct (header_scan 0 _ [] false) as [header_lines body_start_idx].
  match goal with
  | |- context [body_loop run1 ?p ?f ?r ?b ?i ?ls ?st1] =>
      match goal with
      | |- context [body_loop run2 p f r b i ls ?st2] =>
          destruct (body_loop_shape p f r b ls i st1 st2) as (Hc & Hb & Hi);
            try reflexivity
      end
  end.
  rewrite <- Hb, <- Hi.
  destruct (current_block _); [done|].
  by rewrite !map_app, Hc.
Qed.

Lemma function_chunks_shape file_path content node :
  Py.result_map (map shape) (function_chunks run1 file_path content node)
  = Py.result_map (map shape) (function_chunks run2 file_path content node).
Proof.
  unfold function_chunks.
  destruct (negb _); [done|].
  destruct (_ >? _).
  - simpl. by rewrite split_large_function_shape.
  - unfold _extract_calls.
    by destruct (collect_calls content (_find_nodes node "call") None []).
Qed.

Lemma extract_functions_shape file_path content tree :
  Py.result_map (map shape) (_extract_functions run1 file_path content tree)
  = Py.result_map (map shape) (_extract_functions run2 file_path content tree).
Proof.
  unfold _extract_functions.
  induction (children tree) as [|node nodes IH]; simpl; [done|].
  pose proof (function_chunks_shape file_path content node) as Hnode.
  destruct (function_chunks run1 file_path content node) as [e1|l1],
    (function_chunks run2 file_path content node) as [e2|l2];
    simpl in Hnode; try discriminate.
  - done.
  - destruct (Py.try_map (function_chunks run1 file_path content) nodes) as [e1|ls1],
      (Py.try_map (function_chunks run2 file_path content) nodes) as [e2|ls2];
      simpl in *; try discriminate; [done|].
    injection Hnode as Hnode. injection IH as IH.
    by rewrite !map_app, Hnode, IH.
Qed.

(** The chunk lists of the two runs before ids are assigned: the same
    exception, or lists of the same shapes. *)
Lemma chunk_file_shape file_path content :
  parser run1 = parser run2 ->
  sha256_hexdigest run1 = sha256_hexdigest run2 ->
  Py.result_map (map id_and_span) (chunk_file run1 file_path content)
  = Py.result_map (map id_and_span) (chunk_file run2 file_path content).
Proof.
  intros Hparser Hsha. unfold chunk_file. rewrite <- Hparser, <- Hsha.
  pose proof (extract_functions_shape file_path content (parser run1 content)) as Hf.
  destruct (_extract_functions run1 file_path content (parser run1 content)) as [e1|l1],
    (_extract_functions run2 file_path content (parser run1 content)) as [e2|l2];
    simpl in Hf; try discriminate; [by injection Hf as ->|].
  injection Hf as Hf. simpl.
  rewrite !id_and_span_finish, !map_id_and_span_finish, !map_app.
  by rewrite create_file_chunk_shape, extract_module_chunk_shape,
    extract_classes_shape, Hf.
Qed.

End two_runs.

Lemma chunk_file_ids self file_path content chunks chunk :
  chunk_file self file_path content = inr chunks ->
  chunk ∈ chunks ->
  id_and_span chunk = finished (sha256_hexdigest self) (shape chunk).
Proof.
  unfold chunk_file.
  destruct (_extract_functions _ _ _ _) as [e|fs]; [discriminate|].
  intros [= <-] Hin%list_elem_of_In.
  destruct Hin as [<-|Hin]; [reflexivity|].
  apply in_map_iff in Hin as (raw & <- & _). reflexivity.
Qed.

(** Sample data: the parse of a five-line module with one import and one
    function, and two interpreter runs that list sets in opposite
    orders. *)
Definition leaf (type : string) (first last row : Z) : Node :=
  mkNode type first last row row None [].

Definition named (type name : string) (first last row : Z) : Node :=
  mkNode type first last row row (Some name) [].

Definition sample_source : string :=
  "import os" +:+ String Py.newline (String Py.newline
    ("def f():" +:+ String Py.newline
       ("    return g()" +:+ String Py.newline EmptyString))).

Definition sample_tree : Node :=
  mkNode "module" 0 35 0 4 None
    [ mkNode "import_statement" 0 9 0 0 None
        [ leaf "import" 0 6 0;
          mkNode "dotted_name" 7 9 0 0 None [named "identifier" "os" 7 9 0] ];
      mkNode "function_definition" 11 34 2 3 None
        [ leaf "def" 11 14 2;
          named "identifier" "f" 15 16 2;
          leaf "parameters" 16 18 2;
          leaf ":" 18 19 2;
          mkNode "block" 24 34 3 3 None
            [ mkNode "return_statement" 24 34 3 3 None
                [ leaf "return" 24 30 3;
                  mkNode "call" 31 34 3 3 None
                    [ named "identifier" "g" 31 32 3;
                      leaf "argument_list" 32 34 3 ] ] ] ] ].

Definition sample_run (set_order : list string -> list string) : ASTChunker :=
  {| chunker_language := "python";
     parser := fun _ => sample_tree;
     sha256_hexdigest := fun s => "sha256(" +:+ s +:+ ")";
     set_order := set_order |}.

Definition first_run : ASTChunker := sample_run Py.distinct.
Definition second_run : ASTChunker := sample_run (fun l => rev (Py.distinct l)).

(** C2. Two runs of [chunk_file] on the same path and content, with the
    same parser and the same SHA-256, end alike: with the same exception,
    or with chunk lists that carry the same ids and the same start and
    end lines in the same order, whatever order each run lists its sets
    in.  The id of every chunk returned is its kind, an underscore, and
    the first 16 characters of the hash of [path:symbol:content]; so two
    chunks of the same kind, path, symbol name and content have the same
    id, in whichever files or runs they arise. *)
Theorem chunking_is_deterministic run1 run2 file_path content :
  parser run1 = parser run2 ->
  sha256_hexdigest run1 = sha256_hexdigest run2 ->
  Py.result_map (map id_and_span) (chunk_file run1 file_path content)
  = Py.result_map (map id_and_span) (chunk_file run2 file_path content) /\
  (forall chunks chunk,
     chunk_file run1 file_path content = inr chunks ->
     chunk ∈ chunks ->
     id_ chunk
     = value (chunk_type chunk) +:+ "_"
         +:+ Py.substr 0 16
               (sha256_hexdigest run1
                  (ast_chunker.file_path chunk +:+ ":"
                     +:+ Py.str_opt (symbol_name chunk) +:+ ":"
                     +:+ ast_chunker.content chunk))) /\
  (forall other_path other_content chunks1 chunks2 a b,
     chunk_file run1 file_path content = inr chunks1 ->
     chunk_file run2 other_path other_content = inr chunks2 ->
     a ∈ chunks1 -> b ∈ chunks2 ->
     chunk_type a = chunk_type b ->
     ast_chunker.file_path a = ast_chunker.file_path b ->
     symbol_name a = symbol_name b ->
     ast_chunker.content a = ast_chunker.content b ->
     id_ a = id_ b).
Proof.
  intros Hparser Hsha. split; [by apply chunk_file_shape|]. split.
  - intros chunks chunk Hrun Hin.
    pose proof (chunk_file_ids run1 file_path content chunks chunk Hrun Hin) as Hid.
    by apply (f_equal (fun t => t.1.1)) in Hid.
  - intros other_path other_content chunks1 chunks2 a b Hrun1 Hrun2 Ha Hb Hk Hp Hs Hc.
    pose proof (chunk_file_ids run1 file_path content chunks1 a Hrun1 Ha) as Hida.
    pose proof (chunk_file_ids run2 other_path other_content chunks2 b Hrun2 Hb) as Hidb.
    apply (f_equal (fun t => t.1.1)) in Hida, Hidb. simpl in Hida, Hidb.
    by rewrite Hida, Hidb, Hk, Hp, Hs, Hc, Hsha.
Qed.

Lemma chunking_is_deterministic_witness :
  Py.result_map (map id_and_span) (chunk_file first_run "app.py" sample_source)
  = Py.result_map (map id_and_span) (chunk_file second_run "app.py" sample_source).
Proof.
  apply (chunking_is_deterministic first_run second_run "app.py" sample_source);
    reflexivity.
Defined.

(** The chunks of the sample: the file, the module header and the
    function, the same in both runs. *)
Example sample_spans :
  Py.result_map (map (fun c => (chunk_type c, start_line c, end_line c, calls c)))
    (chunk_file first_run "app.py" sample_source)
  = inr [ (FILE, 0, 4, []); (MODULE, 0, 0, []); (FUNCTION, 2, 3, ["g"]) ].
Proof. vm_compute. reflexivity. Qed.

End chunker_facts.

(** ** More on the context assembler *)

Module assembler_more.
Import context_assembler.

(** Membership in appended and consed lists. *)
Ltac mem :=
  repeat first [rewrite elem_of_app | rewrite list_elem_of_singleton
               | rewrite elem_of_cons | rewrite elem_of_nil];
  tauto.

(** X1. [_order_for_prompt] returns its input rearranged, with every
    definition in front of every chunk that is not one. *)
Theorem order_for_prompt_definitions_first self l :
  exists definitions others,
    _order_for_prompt self l = definitions ++ others /\
    Forall (fun c => is_definition c = true) definitions /\
    Forall (fun c => is_definition c = false) others /\
    _order_for_prompt self l ≡ₚ l.
Proof.
  pose proof (assembler_facts.order_for_prompt_perm self l) as Hperm.
  unfold _order_for_prompt in *. eexists _, _. split; [reflexivity|].
  split; [|split].
  - rewrite sorted_asc_perm. apply Forall_forall. intros c Hc.
    apply list_elem_of_In, filter_In in Hc. tauto.
  - rewrite sorted_desc_perm. apply Forall_forall. intros c Hc.
    apply list_elem_of_In, filter_In in Hc. destruct Hc as [_ Hc].
    by destruct (is_definition c).
  - exact Hperm.
Qed.

(** X2. A hit is never classed [BACKGROUND]; a function, class or method
    hit is classed [CRITICAL] or [HIGH] whatever its score; and a hit is
    classed [LOW] only when it is no definition and its score is not
    above 0.6. *)
Theorem priority_of_a_hit self result query :
  _determine_priority self result query <> BACKGROUND /\
  (Py.opt_in (hybrid_search.chunk_type result) definition_types = true ->
   _determine_priority self result query = CRITICAL \/
   _determine_priority self result query = HIGH) /\
  (_determine_priority self result query = LOW ->
   Py.opt_in (hybrid_search.chunk_type result) definition_types = false /\
   Py.fgt (hybrid_search.score result) 0.6 = false).
Proof.
  unfold _determine_priority.
  destruct (_ && _)%bool, (Py.opt_in _ _),
    (Py.fgt (hybrid_search.score result) 0.8),
    (Py.fgt (hybrid_search.score result) 0.6);
    repeat split; intros; try discriminate; auto.
Qed.

(** *** Deduplication *)

Lemma chunks_overlap_sym a b : _chunks_overlap a b = _chunks_overlap b a.
Proof.
  unfold _chunks_overlap. rewrite (String.eqb_sym (file_path a) (file_path b)).
  destruct (String.eqb (file_path b) (file_path a)); simpl; [|done].
  destruct (Z.ltb_spec (end_line a) (start_line b)),
    (Z.gtb_spec (start_line a) (end_line b)),
    (Z.ltb_spec (end_line b) (start_line a)),
    (Z.gtb_spec (start_line b) (end_line a)); simpl; try done; lia.
Qed.

(** A chunk that overlaps [inner] also overlaps whatever contains
    [inner]. *)
Lemma overlap_with_container c inner outer :
  _chunks_overlap c inner = true ->
  _chunk_contains outer inner = true ->
  _chunks_overlap c outer = true.
Proof.
  unfold _chunks_overlap, _chunk_contains.
  destruct (String.eqb_spec (file_path c) (file_path inner)) as [Hci|]; [|done].
  destruct (String.eqb_spec (file_path outer) (file_path inner)) as [Hoi|]; [|done].
  simpl. rewrite Hci, <- Hoi, String.eqb_refl. simpl.
  destruct (Z.ltb_spec (end_line c) (start_line inner)),
    (Z.gtb_spec (start_line c) (end_line inner)),
    (Z.leb_spec (start_line outer) (start_line inner)),
    (Z.geb_spec (end_line outer) (end_line inner)),
    (Z.ltb_spec (end_line c) (start_line outer)),
    (Z.gtb_spec (start_line c) (end_line outer)); simpl; try done; lia.
Qed.

(** What the inner loop of [_deduplicate] finds. *)
Lemma dedup_scan_none chunk l :
  dedup_scan chunk l = None -> Forall (fun e => _chunks_overlap chunk e = false) l.
Proof.
  induction l as [|e l IH]; simpl; [done|].
  destruct (_chunks_overlap chunk e) eqn:He; [done|].
  destruct (dedup_scan chunk l); [done|]. intros _. by constructor; [|apply IH].
Qed.

Lemma dedup_scan_some chunk l l' :
  dedup_scan chunk l = Some l' ->
  exists before e after,
    l = before ++ e :: after /\
    _chunks_overlap chunk e = true /\
    (l' = l \/ (_chunk_contains chunk e = true /\ l' = before ++ after ++ [chunk])).
Proof.
  revert l'. induction l as [|e l IH]; intros l'; simpl; [done|].
  destruct (_chunks_overlap chunk e) eqn:He.
  - intros [= <-]. exists [], e, l. split; [done|]. split; [done|].
    destruct (_chunk_contains chunk e); [right|left]; done.
  - destruct (dedup_scan chunk l) as [l0|]; [|done]. simpl. intros [= <-].
    destruct (IH l0 eq_refl) as (before & e' & after & -> & Hov & Hcase).
    exists (e :: before), e', after. split; [done|]. split; [done|].
    destruct Hcase as [->|[Hc ->]]; [by left|by right].
Qed.

(** [c] is kept in [l], or a chunk that overlaps it is. *)
Definition represented (c : ContextChunk) (l : list ContextChunk) : Prop :=
  c ∈ l \/ exists d, d ∈ l /\ _chunks_overlap c d = true.

Lemma dedup_step_new l chunk : represented chunk (dedup_step l chunk).
Proof.
  unfold dedup_step. destruct (dedup_scan chunk l) as [l'|] eqn:Hscan.
  - destruct (dedup_scan_some chunk l l' Hscan)
      as (before & e & after & -> & Hov & [->|[_ ->]]).
    + right. exists e. split; [|done]. mem.
    + left. mem.
  - left. mem.
Qed.

Lemma dedup_step_old l chunk c :
  represented c l -> represented c (dedup_step l chunk).
Proof.
  intros Hc. unfold dedup_step. destruct (dedup_scan chunk l) as [l'|] eqn:Hscan.
  - destruct (dedup_scan_some chunk l l' Hscan)
      as (before & e & after & -> & Hov & [->|[Hcont ->]]); [done|].
    assert (forall d, d ∈ before ++ e :: after ->
              d ∈ before ++ after ++ [chunk] \/ d = e) as Hmove.
    { intros d. mem. }
    assert (chunk ∈ before ++ after ++ [chunk]) as Hchunk.
    { mem. }
    destruct Hc as [Hin|(d & Hin & Hov')].
    + destruct (Hmove c Hin) as [?| ->]; [by left|].
      right. exists chunk. split; [done|]. by rewrite chunks_overlap_sym.
    + destruct (Hmove d Hin) as [?| ->]; [right; by exists d|].
      right. exists chunk. split; [done|]. by eapply overlap_with_container.
  - destruct Hc as [Hin|(d & Hin & Hov)].
    + left. mem.
    + right. exists d. mem.
Qed.

Lemma dedup_step_subset l chunk d :
  d ∈ dedup_step l chunk -> d ∈ l \/ d = chunk.
Proof.
  unfold dedup_step. destruct (dedup_scan chunk l) as [l'|] eqn:Hscan.
  - destruct (dedup_scan_some chunk l l' Hscan)
      as (before & e & after & -> & _ & [->|[_ ->]]); [by left|].
    mem.
  - mem.
Qed.

Lemma dedup_fold_represents sorted acc c :
  represented c acc \/ c ∈ sorted ->
  represented c (fold_left dedup_step sorted acc).
Proof.
  revert acc. induction sorted as [|chunk sorted IH]; intros acc; simpl.
  - intros [?|Hin]; [done|]. inversion Hin.
  - intros [Hacc|Hin]; apply IH.
    + left. by apply dedup_step_old.
    + apply elem_of_cons in Hin as [->|Hin]; [left; apply dedup_step_new|by right].
Qed.

Lemma dedup_fold_subset sorted acc d :
  d ∈ fold_left dedup_step sorted acc -> d ∈ acc \/ d ∈ sorted.
Proof.
  revert acc. induction sorted as [|chunk sorted IH]; intros acc; simpl; [by left|].
  intros [Hd|Hd]%IH.
  - apply dedup_step_subset in Hd as [?| ->]; [by left|right; mem].
  - right. mem.
Qed.

(** X3. [_deduplicate] returns chunks of its input only, and drops none
    without a stand-in: every chunk of the input is in the output or
    overlaps a chunk that is. *)
Theorem deduplicate_keeps_a_representative self l :
  (forall d, d ∈ _deduplicate self l -> d ∈ l) /\
  (forall c, c ∈ l ->
     c ∈ _deduplicate self l \/
     exists d, d ∈ _deduplicate self l /\ _chunks_overlap c d = true).
Proof.
  unfold _deduplicate. destruct l as [|c0 l0].
  { split; [done|]. intros c Hc. inversion Hc. }
  set (l := c0 :: l0). split.
  - intros d [Hd|Hd]%dedup_fold_subset; [inversion Hd|].
    by rewrite sorted_desc_perm in Hd.
  - intros c Hc. apply dedup_fold_represents. right. by rewrite sorted_desc_perm.
Qed.

(** *** Packing *)

Lemma budget_loop_full self available l st :
  available <= used_tokens st -> budget_loop self available l st = st.
Proof.
  intros Hfull. destruct l as [|c l]; simpl; [done|].
  destruct (Z.geb_spec (used_tokens st) available); [done|lia].
Qed.

(** From a state with nothing truncated, the loop adds whole chunks in
    input order and at most one truncated chunk, which uses the budget up
    and ends the selection. *)
Lemma budget_loop_shape self available l st :
  truncated_count st = 0 ->
  let st' := budget_loop self available l st in
  exists whole,
    whole `sublist_of` l /\
    ((truncated_count st' = 0 /\ selected st' = selected st ++ whole) \/
     (truncated_count st' = 1 /\ used_tokens st' = available /\
      exists c n, c ∈ l /\ 100 < n /\ token_count c > n /\
        selected st' = selected st ++ whole ++ [_truncate_chunk self c n])).
Proof.
  revert st. induction l as [|chunk rest IH]; intros st Hzero; simpl.
  - exists []. split; [done|]. left. by rewrite app_nil_r.
  - destruct (Z.geb_spec (used_tokens st) available) as [Hfull|Hgo].
    { exists []. split; [apply sublist_nil_l|]. left. by rewrite app_nil_r. }
    destruct (Z.leb_spec (token_count chunk) (available - used_tokens st)) as [Hfit|Hbig].
    + destruct (IH {| used_tokens := used_tokens st + token_count chunk;
                      selected := selected st ++ [chunk];
                      truncated_count := truncated_count st |} Hzero)
        as (whole & Hsub & Hcase). simpl in Hcase.
      exists (chunk :: whole). split; [by constructor|].
      destruct Hcase as [[Htr Hsel]|(Htr & Hused & c & n & Hc & Hn & Hbig & Hsel)].
      * left. split; [done|]. by rewrite Hsel, <- app_assoc.
      * right. split; [done|]. split; [done|]. exists c, n.
        split; [by right|]. split; [done|]. split; [done|].
        by rewrite Hsel, <- app_assoc.
    + destruct (Z.gtb_spec (available - used_tokens st) 100) as [Hroom|Hfloor].
      * rewrite budget_loop_full by (simpl; lia). simpl.
        exists []. split; [apply sublist_nil_l|]. right.
        split; [lia|]. split; [lia|].
        exists chunk, (available - used_tokens st).
        split; [by left|]. split; [lia|]. split; [lia|]. done.
      * destruct (IH st Hzero) as (whole & Hsub & Hcase).
        exists whole. split; [by constructor|].
        destruct Hcase as [?|(Htr & Hused & c & n & Hc & Hn & Hbig' & Hsel)];
          [by left|].
        right. split; [done|]. split; [done|]. exists c, n.
        split; [by right|]. done.
Qed.

(** X4. [_apply_budget] truncates at most one hit.  What it selects is
    whole hits in their input order, followed, when one was truncated,
    by that one, cut to more than 100 tokens; the tokens used then equal
    the available budget. *)
Theorem apply_budget_truncates_at_most_once self l sel stats :
  _apply_budget self l = inr (sel, stats) ->
  exists whole,
    whole `sublist_of` l /\
    ((stats_truncated stats = 0 /\ sel = whole) \/
     (stats_truncated stats = 1 /\
      stats_total_tokens stats = max_tokens self - reserve_tokens self /\
      exists c n, c ∈ l /\ 100 < n /\ token_count c > n /\
        sel = whole ++ [_truncate_chunk self c n])).
Proof.
  unfold _apply_budget. destruct (max_tokens self =? 0); [discriminate|].
  intros [= <- <-]. simpl.
  destruct (budget_loop_shape self (max_tokens self - reserve_tokens self) l
              {| used_tokens := 0; selected := []; truncated_count := 0 |} eq_refl)
    as (whole & Hsub & Hcase).
  exists whole. split; [done|]. simpl in Hcase. exact Hcase.
Qed.

Lemma apply_budget_truncates_at_most_once_witness :
  exists whole,
    whole `sublist_of` [assembler_facts.sized_chunk "a" 850 0.9%float;
                        assembler_facts.sized_chunk "b" 400 0.8%float] /\
    ((0 = 0 /\ [assembler_facts.sized_chunk "a" 850 0.9%float] = whole) \/
     (0 = 1 /\ 850 = 900 /\
      exists c n, c ∈ [assembler_facts.sized_chunk "a" 850 0.9%float;
                       assembler_facts.sized_chunk "b" 400 0.8%float] /\
        100 < n /\ token_count c > n /\
        [assembler_facts.sized_chunk "a" 850 0.9%float]
        = whole ++ [_truncate_chunk assembler_facts.packer c n])).
Proof.
  apply (apply_budget_truncates_at_most_once assembler_facts.packer
           [assembler_facts.sized_chunk "a" 850 0.9%float;
            assembler_facts.sized_chunk "b" 400 0.8%float]
           [assembler_facts.sized_chunk "a" 850 0.9%float]
           {| stats_total_tokens := 850;
              stats_budget_used := (Py.float_of_Z 850 / Py.float_of_Z 1000)%float;
              stats_files := 1; stats_symbols := 0; stats_truncated := 0 |}).
  vm_compute. reflexivity.
Defined.

End assembler_more.

(** ** More on the hybrid search engine *)

Module search_more.
Import qdrant hybrid_search.

Lemma search_no_overlaps_witness :
  deduplicate (search_facts.with_mode SEMANTIC (SearchQuery_default "parse")) = true /\
  exists results,
    search search_facts.dense_only_engine
      (search_facts.with_mode SEMANTIC (SearchQuery_default "parse")) "code_semantic"
    = inr results /\
    search_facts.no_overlaps results = true.
Proof.
  split; [reflexivity|]. eexists. split; [vm_compute; reflexivity|].
  apply (search_facts.search_no_overlaps search_facts.dense_only_engine
           (search_facts.with_mode SEMANTIC (SearchQuery_default "parse"))
           "code_semantic"); [reflexivity | vm_compute; reflexivity].
Defined.

(** *** [_deduplicate_results] *)

(** The loop only ever appends to what it has kept. *)
Lemma dedup_fold_appends results acc :
  exists kept,
    fold_left dedup_step results acc = acc ++ kept /\ kept `sublist_of` results.
Proof.
  revert acc. induction results as [|r results IH]; intros acc; simpl.
  - exists []. by rewrite app_nil_r.
  - unfold dedup_step at 2. destruct (existsb (overlaps_with r) acc).
    + destruct (IH acc) as (kept & -> & Hsub). exists kept. split; [done|].
      by constructor.
    + destruct (IH (acc ++ [r])) as (kept & -> & Hsub). exists (r :: kept).
      split; [by rewrite <- app_assoc|]. by constructor.
Qed.

Lemma no_overlap_with_kept acc r rest :
  search_facts.no_overlaps (acc ++ r :: rest) = true ->
  existsb (overlaps_with r) acc = false.
Proof.
  induction acc as [|a acc IH]; simpl; [done|].
  intros [Ha Hrest]%andb_prop. rewrite IH by done. rewrite orb_false_r.
  rewrite forallb_app in Ha. apply andb_prop in Ha as [_ Ha]. simpl in Ha.
  apply andb_prop in Ha as [Ha _]. rewrite search_facts.overlaps_with_sym.
  by destruct (overlaps_with a r).
Qed.

Lemma dedup_fold_disjoint results acc :
  search_facts.no_overlaps (acc ++ results) = true ->
  fold_left dedup_step results acc = acc ++ results.
Proof.
  revert acc. induction results as [|r results IH]; intros acc Hno; simpl.
  - by rewrite app_nil_r.
  - unfold dedup_step at 2. rewrite (no_overlap_with_kept acc r results Hno).
    rewrite IH; rewrite <- app_assoc; done.
Qed.

(** X6. [_deduplicate_results] keeps a sub-list of its input in the
    input's order, always keeps the first result, and has nothing left to
    remove when run on its own output. *)
Theorem deduplicate_results_is_stable self results :
  _deduplicate_results self results `sublist_of` results /\
  (forall r rest, results = r :: rest ->
     exists kept, _deduplicate_results self results = r :: kept) /\
  _deduplicate_results self (_deduplicate_results self results)
  = _deduplicate_results self results.
Proof.
  split; [|split].
  - unfold _deduplicate_results. destruct results as [|r results]; [done|].
    destruct (dedup_fold_appends (r :: results) []) as (kept & -> & Hsub). done.
  - intros r rest ->. unfold _deduplicate_results. simpl.
    destruct (dedup_fold_appends rest (dedup_step [] r)) as (kept & -> & _).
    by exists kept.
  - pose proof (search_facts.deduplicate_results_no_overlaps self results) as Hno.
    destruct (_deduplicate_results self results) as [|r kept] eqn:Hd; [done|].
    unfold _deduplicate_results at 1. by apply (dedup_fold_disjoint (r :: kept) []).
Qed.

(** *** Filters *)

(** X7. [_build_filters] returns no filter exactly when the query gives
    no path, language or symbol-type allow-list and no exclude-list (each
    [None] or empty). *)
Theorem build_filters_none_iff self query :
  _build_filters self query = None <->
  nonempty (file_paths query) = false /\ nonempty (languages query) = false /\
  nonempty (symbol_types query) = false /\ nonempty (exclude_paths query) = false.
Proof.
  unfold _build_filters.
  destruct (file_paths query) as [[|? ?]|], (languages query) as [[|? ?]|],
    (symbol_types query) as [[|? ?]|], (exclude_paths query) as [[|? ?]|];
    simpl; (split; [intros; try discriminate; auto
                   |intros (? & ? & ? & ?); try discriminate; done]).
Qed.

(** The allow-list conditions of a query, as [_build_filters] lists them. *)
Definition allow_conditions (query : SearchQuery) : list FieldCondition :=
  (if nonempty (file_paths query)
   then [mkFieldCondition "file_path" (MatchAny (default [] (file_paths query)))]
   else []) ++
  (if nonempty (languages query)
   then [mkFieldCondition "language" (MatchAny (default [] (languages query)))]
   else []) ++
  (if nonempty (symbol_types query)
   then [mkFieldCondition "chunk_type" (MatchAny (default [] (symbol_types query)))]
   else []).

(** The filter an exact search scrolls with: the allow-list conditions
    and the name condition, and never an exclusion. *)
Lemma exact_search_filter self query collection :
  _exact_search self query collection (_build_filters self query)
  = Py.try_map (convert_point (Some 1.0%float))
      (scroll (client self)
         {| sc_collection_name := collection;
            sc_scroll_filter :=
              {| must := Some (allow_conditions query ++
                               [mkFieldCondition "symbol_name"
                                  (MatchValue (Py.lower (text query)))]);
                 must_not := None |};
            sc_limit := limit query;
            sc_with_payload := with_payload query |}).
Proof.
  unfold _exact_search, _build_filters, allow_conditions.
  destruct (file_paths query) as [[|? ?]|], (languages query) as [[|? ?]|],
    (symbol_types query) as [[|? ?]|], (exclude_paths query) as [[|? ?]|];
    reflexivity.
Qed.

Definition with_exclude_paths (paths : option (list string)) (q : SearchQuery)
    : SearchQuery :=
  {| text := text q; mode := mode q; limit := limit q; min_score := min_score q;
     file_paths := file_paths q; languages := languages q;
     symbol_types := symbol_types q; exclude_paths := paths;
     with_payload := with_payload q; with_vectors := with_vectors q;
     rerank := rerank q; deduplicate := deduplicate q |}.

(** X8. In Exact mode the exclude-list of a query has no effect: the
    scroll filter is rebuilt from the allow-list conditions and the name
    condition alone, so [search] returns the same for every
    [exclude_paths]. *)
Theorem exact_search_ignores_exclude_paths self query collection paths :
  mode query = EXACT ->
  search self (with_exclude_paths paths query) collection
  = search self query collection.
Proof.
  intros Hmode. unfold search. simpl. rewrite Hmode.
  by rewrite !exact_search_filter.
Qed.

Lemma exact_search_ignores_exclude_paths_witness :
  search search_facts.dense_only_engine
    (with_exclude_paths (Some ["m.py"])
       (search_facts.with_mode EXACT (SearchQuery_default "f"))) "code_symbols"
  = search search_facts.dense_only_engine
      (search_facts.with_mode EXACT (SearchQuery_default "f")) "code_symbols".
Proof.
  apply (exact_search_ignores_exclude_paths search_facts.dense_only_engine
           (search_facts.with_mode EXACT (SearchQuery_default "f")) "code_symbols"
           (Some ["m.py"])).
  reflexivity.
Defined.

(** *** Conversion of points *)

Lemma convert_results_ok self points :
  Forall (fun p => sp_payload p <> None) points ->
  exists results,
    _convert_results self points = inr results /\
    map id_ results = map sp_id points /\
    map score results = map sp_score points.
Proof.
  unfold _convert_results. induction 1 as [|p points Hp _ IH]; simpl.
  - by exists [].
  - unfold convert_point at 1. destruct (sp_payload p) as [pl|]; [|done].
    destruct IH as (results & -> & Hid & Hscore). eexists. split; [reflexivity|].
    simpl. by rewrite Hid, Hscore.
Qed.

Lemma convert_results_raises self points :
  Exists (fun p => sp_payload p = None) points ->
  _convert_results self points
  = inl (Py.AttributeError "'NoneType' object has no attribute 'get'").
Proof.
  unfold _convert_results. induction points as [|p points IH]; intros Hex.
  - inversion Hex.
  - simpl. unfold convert_point at 1.
    destruct (sp_payload p) as [pl|] eqn:Hp; [|done].
    apply Exists_cons in Hex as [Hex|Hex]; [congruence|].
    by rewrite (IH Hex).
Qed.

(** X9. [_convert_results] is all or nothing: when every point carries a
    payload it returns one result per point, in order, with the point's
    id and score; when any point has none (a response fetched without
    payload) it raises [AttributeError] and returns no result at all. *)
Theorem convert_results_all_or_nothing self points :
  (Forall (fun p => sp_payload p <> None) points ->
   exists results,
     _convert_results self points = inr results /\
     map id_ results = map sp_id points /\
     map score results = map sp_score points) /\
  (Exists (fun p => sp_payload p = None) points ->
   _convert_results self points
   = inl (Py.AttributeError "'NoneType' object has no attribute 'get'")).
Proof.
  split; [apply convert_results_ok|apply convert_results_raises].
Qed.

(** *** Reranking *)

(** A result without its score. *)
Definition unscored (r : SearchResult) :=
  (id_ r, content r, file_path r, start_line r, end_line r, symbol_name r,
   chunk_type r).

Lemma rescore_unscored results new_scores :
  map unscored (rescore results new_scores) = map unscored results.
Proof.
  revert new_scores. induction results as [|r results IH]; intros [|s ss]; simpl;
    try done.
  by rewrite IH.
Qed.

(** X10. Reranking neither adds nor drops a result, whatever the
    reranker returns (too few scores, too many, or none): the output
    holds the same results as the input, up to order and score. *)
Theorem rerank_keeps_the_results rerank query_text results :
  map unscored (_rerank_results rerank query_text results) ≡ₚ map unscored results /\
  length (_rerank_results rerank query_text results) = length results.
Proof.
  assert (map unscored (_rerank_results rerank query_text results)
          ≡ₚ map unscored results) as Hperm.
  { unfold _rerank_results. destruct results as [|r results]; [done|].
    rewrite sorted_desc_perm. by rewrite rescore_unscored. }
  split; [done|].
  apply Permutation_length in Hperm. by rewrite !length_map in Hperm.
Qed.

(** *** [_merge_results] *)

Lemma dict_set_keys {V : Type} (d : Py.dict V) k v :
  map fst (Py.dict_set d k v)
  = if bool_decide (k ∈ map fst d) then map fst d else map fst d ++ [k].
Proof.
  induction d as [|[k' v'] d IH]; simpl.
  - done.
  - destruct (String.eqb_spec k' k) as [->|Hne]; simpl.
    + rewrite bool_decide_eq_true_2; [done|]. by left.
    + rewrite IH. destruct (bool_decide (k ∈ map fst d)) eqn:Hin.
      * apply bool_decide_eq_true in Hin.
        rewrite bool_decide_eq_true_2; [done|]. by right.
      * apply bool_decide_eq_false in Hin.
        rewrite bool_decide_eq_false_2; [done|].
        intros [?|?]%elem_of_cons; [congruence|done].
Qed.

Lemma dict_set_NoDup {V : Type} (d : Py.dict V) k v :
  NoDup (map fst d) -> NoDup (map fst (Py.dict_set d k v)).
Proof.
  intros Hd. rewrite dict_set_keys. destruct (bool_decide _) eqn:Hin; [done|].
  apply bool_decide_eq_false in Hin. apply NoDup_app. split; [done|].
  split; [|apply NoDup_singleton].
  intros x Hx ->%list_elem_of_singleton. done.
Qed.

Lemma dict_get_Some_key {V : Type} (d : Py.dict V) k v :
  Py.dict_get d k = Some v -> (k, v) ∈ d.
Proof.
  induction d as [|[k' v'] d IH]; simpl; [done|].
  destruct (String.eqb_spec k' k) as [->|_].
  - intros [= ->]. by left.
  - intros H. right. by apply IH.
Qed.

Lemma merge_symbols_NoDup symbols rank st :
  NoDup (map fst st.1) -> NoDup (map fst (merge_symbols rank symbols st).1).
Proof.
  revert rank st. induction symbols as [|r rest IH]; intros rank [rrf all]; simpl;
    [done|].
  intros Hrrf. apply IH. simpl. by apply dict_set_NoDup.
Qed.

Lemma merge_semantic_NoDup semantic rank st :
  NoDup (map fst st.1) -> NoDup (map fst (merge_semantic rank semantic st).1).
Proof.
  revert rank st. induction semantic as [|r rest IH]; intros rank [rrf all]; simpl;
    [done|].
  intros Hrrf. apply IH. simpl. by apply dict_set_NoDup.
Qed.

(** Every result on file came in through one of the two lists. *)
Definition from_inputs (inputs : list SearchResult) (all : Py.dict SearchResult) : Prop :=
  forall k r, Py.dict_get all k = Some r -> r ∈ inputs.

Lemma merge_symbols_from inputs symbols rank st :
  (forall r, r ∈ symbols -> r ∈ inputs) ->
  from_inputs inputs st.2 ->
  from_inputs inputs (merge_symbols rank symbols st).2.
Proof.
  revert rank st. induction symbols as [|r rest IH]; intros rank [rrf all] Hin Hall;
    simpl; [done|].
  apply IH; [intros; apply Hin; by right|]. simpl. intros k r'.
  rewrite dict_get_set. destruct (String.eqb (merge_key r) k); [|apply Hall].
  intros [= <-]. apply Hin. by left.
Qed.

Lemma merge_semantic_from inputs semantic rank st :
  (forall r, r ∈ semantic -> r ∈ inputs) ->
  from_inputs inputs st.2 ->
  from_inputs inputs (merge_semantic rank semantic st).2.
Proof.
  revert rank st. induction semantic as [|r rest IH]; intros rank [rrf all] Hin Hall;
    simpl; [done|].
  apply IH; [intros; apply Hin; by right|]. simpl.
  destruct (Py.dict_get all (merge_key r)); [done|]. intros k r'.
  rewrite dict_get_set. destruct (String.eqb (merge_key r) k); [|apply Hall].
  intros [= <-]. apply Hin. by left.
Qed.

(** Results looked up under distinct keys, each filed under its own
    key, have distinct keys. *)
Lemma omap_keys_NoDup (f : string -> option SearchResult) keys :
  (forall k r, f k = Some r -> merge_key r = k) ->
  NoDup keys ->
  NoDup (map merge_key (omap f keys)).
Proof.
  intros Hf. induction 1 as [|k keys Hk Hkeys IH]; simpl; [constructor|].
  destruct (f k) as [r|] eqn:Hfk; [|done]. simpl. constructor; [|done].
  rewrite (Hf k r Hfk). intros (r' & Hkey & Hin)%list_elem_of_fmap.
  apply list_elem_of_omap in Hin as (k' & Hk' & Hfk').
  apply Hf in Hfk'. congruence.
Qed.

Lemma omap_length {A B : Type} (f : A -> option B) (l : list A) :
  (length (omap f l) <= length l)%nat.
Proof.
  induction l as [|x l IH]; [done|]. cbn. destruct (f x); simpl in *; lia.
Qed.

(** X11. The list [_merge_results] returns has at most [limit] results
    (for a [limit] that is not negative), holds no two results with the
    same [file_path:start_line] key, and every result in it is one of
    the given results with its score replaced. *)
Theorem merge_results_are_distinct symbols semantic limit :
  (0 <= limit -> Py.len (_merge_results symbols semantic limit) <= limit) /\
  NoDup (map merge_key (_merge_results symbols semantic limit)) /\
  (forall r, r ∈ _merge_results symbols semantic limit ->
     exists r0, r0 ∈ symbols ++ semantic /\ r = set_score r0 (score r)).
Proof.
  unfold _merge_results.
  pose proof (merge_semantic_NoDup semantic 0 (merge_symbols 0 symbols ([], []))
                (merge_symbols_NoDup symbols 0 ([], []) (NoDup_nil_2))) as Hnodup.
  pose proof (search_facts.merge_semantic_keyed semantic 0
                (merge_symbols 0 symbols ([], []))
                (search_facts.merge_symbols_keyed symbols 0 ([], [])
                   ltac:(by intros ? ?))) as Hkeyed.
  pose proof (merge_semantic_from (symbols ++ semantic) semantic 0
                (merge_symbols 0 symbols ([], []))
                ltac:(intros; apply elem_of_app; by right)
                (merge_symbols_from (symbols ++ semantic) symbols 0 ([], [])
                   ltac:(intros; apply elem_of_app; by left)
                   ltac:(by intros ? ?))) as Hfrom.
  destruct (merge_semantic 0 semantic (merge_symbols 0 symbols ([], [])))
    as [rrf all]. simpl in *.
  set (keys := Py.slice_to limit _).
  assert (NoDup keys) as Hkeys.
  { eapply sublist_NoDup; [|apply search_facts.slice_to_sublist].
    by rewrite sorted_desc_perm. }
  split; [|split].
  - intros Hlimit. unfold Py.len.
    pose proof (omap_length
                  (fun key => match Py.dict_get all key, Py.dict_get rrf key with
                              | Some result, Some s => Some (set_score result s)
                              | _, _ => None
                              end) keys) as Hlen.
    pose proof (slice_to_length limit
                  (Py.sorted_desc Py.flt
                     (fun k => default 0%float (Py.dict_get rrf k)) (map fst rrf))
                  Hlimit) as Hslice.
    unfold Py.len in Hslice. fold keys in Hslice. lia.
  - apply omap_keys_NoDup; [|done]. intros k r.
    destruct (Py.dict_get all k) as [result|] eqn:Hall; [|done].
    destruct (Py.dict_get rrf k); [|done]. intros [= <-].
    exact (Hkeyed _ _ Hall).
  - intros r (key & _ & Hr)%list_elem_of_omap.
    destruct (Py.dict_get all key) as [result|] eqn:Hall; [|done].
    destruct (Py.dict_get rrf key); [|done]. injection Hr as <-.
    exists result. split; [by eapply Hfrom|done].
Qed.

(** *** [MultiLevelSearch] *)

(** X12. Mode detection: the empty query raises (it is indexed at 0); a
    query with a space is never searched in Exact mode; a query without a
    space that holds an underscore or starts with a capital always is. *)
Theorem detect_search_mode_cases self query :
  (query = "" <-> exists e, _detect_search_mode self query = inl e) /\
  (Py.contains " " query = true -> _detect_search_mode self query <> inr EXACT) /\
  (Py.contains " " query = false ->
   (Py.contains "_" query = true \/
    exists c rest, query = String c rest /\ is_upper c = true) ->
   _detect_search_mode self query = inr EXACT).
Proof.
  unfold _detect_search_mode, _looks_like_symbol_name. split; [|split].
  - split.
    + intros ->. by eexists.
    + intros [e He]. destruct query as [|c rest]; [done|]. exfalso.
      repeat match type of He with
             | context [if ?b then _ else _] => destruct b; simpl in He
             end; discriminate.
  - intros ->. simpl.
    repeat match goal with
           | |- context [if ?b then _ else _] => destruct b
           end; discriminate.
  - intros Hspace Hcase. rewrite Hspace. cbn [negb].
    destruct Hcase as [->|(c & rest & -> & Hc)]; [done|].
    destruct (Py.contains "_" (String c rest)); [done|]. by rewrite Hc.
Qed.

(** X13. [search_code] returns at most [limit] results (for a [limit]
    that is not negative), whether it stops at the symbol results or
    merges them with the semantic ones. *)
Theorem search_code_limit self query context limit results :
  0 <= limit ->
  search_code self query context limit = inr results ->
  Py.len results <= limit.
Proof.
  intros Hlimit. unfold search_code.
  destruct (_detect_search_mode self query) as [e|mode]; [discriminate|].
  destruct (search (engine self) _ "code_symbols") as [e|symbol_results];
    [discriminate|].
  destruct (match symbol_results with [] => false | first :: _ => _ end).
  - intros [= <-]. by apply slice_to_length.
  - destruct (search (engine self) _ "code_semantic") as [e|semantic_results];
      [discriminate|].
    intros [= <-]. by apply merge_results_are_distinct.
Qed.

Definition sample_search : MultiLevelSearch :=
  {| engine := search_facts.dense_only_engine |}.

Lemma search_code_limit_witness :
  0 <= 1 /\
  exists results,
    search_code sample_search "load_config" None 1 = inr results /\
    Py.len results <= 1.
Proof.
  split; [lia|]. eexists. split; [vm_compute; reflexivity|].
  apply (search_code_limit sample_search "load_config" None 1);
    [lia | vm_compute; reflexivity].
Defined.

(** X14. Without a sparse embedding function, [search_code] fails on
    every query it takes for a code pattern: the mode is Keyword, and
    the search of the symbol collection raises. *)
Theorem search_code_needs_sparse_for_patterns self query context limit :
  _detect_search_mode self query = inr KEYWORD ->
  sparse_embed (engine self) = None ->
  search_code self query context limit
  = inl (Py.ValueError "Sparse embedding function not configured").
Proof.
  intros Hmode Hsparse. unfold search_code. rewrite Hmode.
  unfold search, _keyword_search. simpl. by rewrite Hsparse.
Qed.

Lemma search_code_needs_sparse_for_patterns_witness :
  search_code sample_search "parse()" None 10
  = inl (Py.ValueError "Sparse embedding function not configured").
Proof.
  apply (search_code_needs_sparse_for_patterns sample_search "parse()" None 10);
    reflexivity.
Defined.

End search_more.

(** ** More on the incremental indexer *)

Module indexer_more.
Import qdrant incremental_indexer.

(** The world with more events on its trace. *)
Definition and_then (w : World) (evs : list Event) : World :=
  {| store := store w; fs := fs w; trace := trace w ++ evs |}.

Lemma and_then_nil w : and_then w [] = w.
Proof. unfold and_then. rewrite app_nil_r. by destruct w. Qed.

Lemma and_then_app w evs1 evs2 :
  and_then (and_then w evs1) evs2 = and_then w (evs1 ++ evs2).
Proof. unfold and_then. simpl. by rewrite app_assoc. Qed.

(** *** Batched embedding *)

Lemma batches_concat {A : Type} (batch_size : nat) (l : list A) :
  (0 < batch_size)%nat ->
  forall fuel, (length l <= fuel)%nat -> concat (batches fuel batch_size l) = l.
Proof.
  intros Hsize fuel. revert l. induction fuel as [|fuel IH]; intros l Hlen.
  - destruct l; [done|]. simpl in Hlen. lia.
  - destruct l as [|x l]; [done|].
    change (batches (S fuel) batch_size (x :: l))
      with (take batch_size (x :: l)
              :: batches fuel batch_size (drop batch_size (x :: l))).
    simpl concat. rewrite IH; [apply take_drop|].
    rewrite length_drop. simpl in *. lia.
Qed.

Lemma try_map_app {A B : Type} (f : A -> Py.result B) l1 l2 vs :
  Py.try_map f (l1 ++ l2) = inr vs ->
  exists v1 v2,
    Py.try_map f l1 = inr v1 /\ Py.try_map f l2 = inr v2 /\ vs = v1 ++ v2.
Proof.
  revert vs. induction l1 as [|x l1 IH]; intros vs; simpl.
  - intros H. by exists [], vs.
  - destruct (f x) as [e|y]; [done|].
    destruct (Py.try_map f (l1 ++ l2)) as [e|ys] eqn:Hrest; [done|].
    intros [= <-]. destruct (IH ys eq_refl) as (v1 & v2 & -> & -> & ->).
    by exists (y :: v1), v2.
Qed.

Lemma for_each_emit (mk : string -> Event) texts w :
  for_each texts (fun text => emit (mk text)) w = (inr tt, and_then w (map mk texts)).
Proof.
  revert w. induction texts as [|t texts IH]; intros w; simpl.
  - by rewrite and_then_nil.
  - unfold mbind, M_bind, bind. simpl. rewrite IH.
    unfold and_then. simpl. by rewrite <- app_assoc.
Qed.

Lemma embed_batch_ok self batch vs w :
  Py.try_map (embedder self) batch = inr vs ->
  embed_batch self batch w = (inr vs, and_then w (map Embed batch)).
Proof.
  intros Hvs. unfold embed_batch, mbind, M_bind, bind.
  rewrite for_each_emit. unfold of_result. by rewrite Hvs.
Qed.

(** [acc] returns [embeddings] and adds [evs] to the trace. *)
Definition runs_to (acc : M World (list (list float))) (embeddings : list (list float))
    (evs : list Event) : Prop :=
  forall w, acc w = (inr embeddings, and_then w evs).

Lemma batch_fold_ok self bs : forall acc embeddings evs vs,
  runs_to acc embeddings evs ->
  Py.try_map (embedder self) (concat bs) = inr vs ->
  runs_to
    (fold_left
       (fun acc batch =>
          embeddings ← acc;
          batch_embeddings ← embed_batch self batch;
          mret (embeddings ++ batch_embeddings))
       bs acc)
    (embeddings ++ vs) (evs ++ map Embed (concat bs)).
Proof.
  induction bs as [|b bs IH]; intros acc embeddings evs vs Hacc Hvs; simpl in *.
  - injection Hvs as <-. by rewrite !app_nil_r.
  - apply try_map_app in Hvs as (v1 & v2 & Hv1 & Hv2 & ->).
    rewrite map_app, !app_assoc. apply IH; [|done].
    intros w. unfold mbind, M_bind, bind. rewrite Hacc.
    rewrite (embed_batch_ok self b v1 _ Hv1). by rewrite and_then_app.
Qed.

(** X15. Batching is invisible when every embedder call succeeds: for a
    positive batch size [_batch_embed] hands each text to the embedder
    once, in the order of the texts, returns the embeddings in that same
    order, and touches neither the store nor the files. *)
Theorem batch_embed_in_order self texts batch_size vectors w :
  (0 < batch_size)%nat ->
  Py.try_map (embedder self) texts = inr vectors ->
  _batch_embed self texts batch_size w
  = (inr vectors,
     {| store := store w; fs := fs w; trace := trace w ++ map Embed texts |}).
Proof.
  intros Hsize Hvectors. unfold _batch_embed.
  pose proof (batches_concat batch_size texts Hsize (length texts) (le_n _)) as Hcat.
  rewrite <- Hcat in Hvectors.
  pose proof (batch_fold_ok self (batches (length texts) batch_size texts) (mret [])
                [] [] vectors) as Hfold.
  specialize (Hfold (fun w0 => f_equal (pair _) (eq_sym (and_then_nil w0))) Hvectors).
  rewrite Hcat in Hfold. apply Hfold.
Qed.

Lemma batch_embed_in_order_witness :
  _batch_embed (indexer_facts.sample_indexer []) ["a"; "b"; "c"] 2
    indexer_facts.sample_world
  = (inr [[0.25%float; 0.5%float]; [0.25%float; 0.5%float]; [0.25%float; 0.5%float]],
     {| store := store indexer_facts.sample_world;
        fs := fs indexer_facts.sample_world;
        trace := trace indexer_facts.sample_world ++ map Embed ["a"; "b"; "c"] |}).
Proof.
  apply (batch_embed_in_order (indexer_facts.sample_indexer []) ["a"; "b"; "c"] 2);
    [lia | reflexivity].
Defined.

(** *** Failures inside one turn of the loop *)

(** [m] never changes the path map. *)
Definition keeps_files {A : Type} (m : M Update A) : Prop :=
  forall u, new_indexed_files (m u).2 = new_indexed_files u.

(** [m] has not changed the path map when it raises. *)
Definition keeps_files_on_error {A : Type} (m : M Update A) : Prop :=
  forall u e u1, m u = (inl e, u1) -> new_indexed_files u1 = new_indexed_files u.

Definition never_raises {A : Type} (m : M Update A) : Prop :=
  forall u, exists a, (m u).1 = inr a.

Lemma keeps_files_lift {A : Type} (m : M World A) : keeps_files (lift m).
Proof. intros u. unfold lift. by destruct (m (world u)). Qed.

Lemma keeps_files_set_stats f : keeps_files (set_stats f).
Proof. by intros u. Qed.

Lemma never_raises_modify (f : Update -> Update) : never_raises (modify f).
Proof. intros u. by exists tt. Qed.

Lemma never_raises_ret {A : Type} (a : A) : never_raises (mret a : M Update A).
Proof. intros u. by exists a. Qed.

Lemma never_raises_bind {A B : Type} (m : M Update A) (k : A -> M Update B) :
  never_raises m -> (forall a, never_raises (k a)) -> never_raises (m ≫= k).
Proof.
  intros Hm Hk u. unfold mbind, M_bind, bind. destruct (Hm u) as [a Ha].
  destruct (m u) as [[e|a'] u1]; simpl in Ha; [done|]. apply Hk.
Qed.

Lemma on_error_never {A : Type} (m : M Update A) :
  never_raises m -> keeps_files_on_error m.
Proof. intros Hm u e u1 Hrun. destruct (Hm u) as [a Ha]. by rewrite Hrun in Ha. Qed.

Lemma on_error_bind {A B : Type} (m : M Update A) (k : A -> M Update B) :
  keeps_files m -> (forall a, keeps_files_on_error (k a)) ->
  keeps_files_on_error (m ≫= k).
Proof.
  intros Hm Hk u e u1. unfold mbind, M_bind, bind. specialize (Hm u).
  destruct (m u) as [[e'|a] u0]; simpl in Hm.
  - intros [= <- <-]. done.
  - intros Hrun. apply Hk in Hrun. congruence.
Qed.

Lemma on_error_ret {A : Type} (a : A) : keeps_files_on_error (mret a : M Update A).
Proof. apply on_error_never, never_raises_ret. Qed.

(** Once the path map is written, only the statistics are left to
    update, and that cannot raise. *)
Ltac tail_cannot_raise :=
  apply on_error_never;
  repeat first [ apply never_raises_modify
               | apply never_raises_ret
               | apply never_raises_bind; [|intros ?] ].

Lemma apply_change_on_error self state change :
  keeps_files_on_error (apply_change self state change).
Proof.
  unfold apply_change. destruct (change_type change).
  - apply on_error_bind; [apply keeps_files_lift|]. intros chunks.
    apply on_error_bind; [apply keeps_files_lift|]. intros h.
    unfold set_files, set_stats. tail_cannot_raise.
  - apply on_error_bind; [apply keeps_files_lift|]. intros h.
    destruct (bool_decide _); [|apply on_error_ret].
    apply on_error_bind; [apply keeps_files_lift|]. intros n.
    apply on_error_bind; [apply keeps_files_set_stats|]. intros _.
    apply on_error_bind; [apply keeps_files_lift|]. intros chunks.
    unfold set_files, set_stats. tail_cannot_raise.
  - apply on_error_bind; [apply keeps_files_lift|]. intros n.
    unfold set_files, set_stats. tail_cannot_raise.
  - apply on_error_bind; [apply keeps_files_lift|]. intros _.
    unfold set_files, set_stats, get. apply on_error_never.
    apply never_raises_bind; [intros u; by exists u|]. intros u.
    repeat first [ apply never_raises_modify
                 | apply never_raises_bind; [|intros ?] ].
  - apply on_error_ret.
Qed.

(** X16. A change whose handling raises costs the pass nothing else: the
    turn of the loop returns normally, one message [path: error] is added
    to the errors, and the path map is as it was before the turn, so the
    file's recorded hash is untouched. *)
Theorem failed_change_is_recorded self state change u e u1 :
  apply_change self state change u = (inl e, u1) ->
  process_change self state change u
  = (inr tt,
     {| world := world u1; new_indexed_files := new_indexed_files u;
        stats := add_error (path change +:+ ": " +:+ Py.str_exn e) (stats u1) |}).
Proof.
  intros Hrun. unfold process_change, try_except. rewrite Hrun.
  unfold set_stats, modify.
  by rewrite (apply_change_on_error self state change u e u1 Hrun).
Qed.

(** An indexer whose embedder is down. *)
Definition failing_indexer : IncrementalIndexer :=
  {| repo_path := "/repo";
     chunker := fun full_path source =>
       inr [indexer_facts.sample_chunk full_path source];
     embedder := fun _ => inl (Py.OtherError "embedding service unavailable");
     git := {| get_current_commit := "c2";
               get_changes_since := fun _ => [];
               get_all_tracked_files := fun _ => ["util.py"] |};
     sha256_hexdigest := fun content => "sha:" +:+ content;
     json_dumps := fun st => git_commit st;
     json_loads := fun _ => None;
     now := "2024-05-01T12:00:00" |}.

Definition edited : FileChange :=
  {| path := "util.py"; change_type := MODIFIED; old_path := None;
     content_hash := None |}.

Definition stale_state : IndexState :=
  {| git_commit := "c1"; indexed_files := {[ "util.py" := "sha:old" ]};
     last_updated := "2024-04-30T09:00:00"; total_chunks := 1; total_files := 1 |}.

Definition stale_update : Update :=
  {| world := indexer_facts.sample_world;
     new_indexed_files := indexed_files stale_state;
     stats := mkUpdateStats 0 0 0 0 0 [] |}.

Lemma failed_change_is_recorded_witness :
  let r := process_change failing_indexer stale_state edited stale_update in
  r.1 = inr tt /\
  new_indexed_files r.2 = {[ "util.py" := "sha:old" ]} /\
  errors (stats r.2) = ["util.py: embedding service unavailable"].
Proof.
  pose proof (failed_change_is_recorded failing_indexer stale_state edited stale_update
                (Py.OtherError "embedding service unavailable")
                (apply_change failing_indexer stale_state edited stale_update).2) as H.
  simpl. rewrite H; [done|]. vm_compute. reflexivity.
Defined.

(** *** Deleting a file's chunks *)

Lemma points_of_delete st collection f collection' :
  points_of (store_delete st collection f) collection'
  = if bool_decide (collection = collection')
    then List.filter (fun p => negb (matches f p)) (points_of st collection)
    else points_of st collection'.
Proof.
  unfold points_of, store_delete. case_bool_decide as Heq.
  - subst collection'. unfold points_of. by rewrite (lookup_insert_eq st collection).
  - by rewrite (lookup_insert_ne st collection collection').
Qed.

Lemma filter_after_delete {A : Type} (f : A -> bool) (l : list A) :
  List.filter f (List.filter (fun p => negb (f p)) l) = [].
Proof.
  induction l as [|x l IH]; simpl; [done|].
  destruct (f x) eqn:Hx; simpl; [done|]. by rewrite Hx.
Qed.

(** X17. [_delete_file_chunks] returns the number of the file's points
    in [code_semantic]; afterwards neither collection holds a point of
    that file, and each holds exactly its points of other files, in their
    old order. *)
Theorem delete_file_chunks_clears_the_file self file_path w :
  let r := _delete_file_chunks self file_path w in
  r.1 = inr (store_count (store w) "code_semantic" (file_path_filter file_path)) /\
  (forall collection, collection = "code_semantic" \/ collection = "code_symbols" ->
     store_count (store r.2) collection (file_path_filter file_path) = 0 /\
     points_of (store r.2) collection
     = List.filter (fun p => negb (matches (file_path_filter file_path) p))
         (points_of (store w) collection)) /\
  fs r.2 = fs w.
Proof.
  rewrite indexer_facts.delete_file_chunks_eq. simpl. split; [done|]. split; [|done].
  intros collection [-> | ->]; unfold store_count; rewrite !points_of_delete; simpl;
    by rewrite filter_after_delete.
Qed.

(** *** Loading and saving the state *)

Definition or_default_extensions (extensions : option (list string)) : list string :=
  match extensions with
  | Some (e :: l) => e :: l
  | _ => map fst SUPPORTED_EXTENSIONS
  end.

(** X18. [index] runs a full index, over the given extensions or all the
    supported ones, whenever a full reindex is asked for, the state file
    is missing, or the state file does not parse; its statistics are then
    those of [_full_index]. *)
Theorem index_without_state_is_full self full_reindex extensions w :
  full_reindex = true \/
  fs w !! full_path_of self STATE_FILE = None \/
  (exists data, fs w !! full_path_of self STATE_FILE = Some data /\
                json_loads self data = None) ->
  index self full_reindex extensions w
  = let r := _full_index self (or_default_extensions extensions) w in
    (Py.result_map inr r.1, r.2).
Proof.
  intros Hcase. unfold index. fold (or_default_extensions extensions).
  assert ((if full_reindex then mret None else _load_state self) w = (inr None, w))
    as Hload.
  { destruct full_reindex; [done|]. unfold _load_state, mbind, M_bind, bind, get.
    simpl. destruct Hcase as [?|[->|(data & -> & ->)]]; done. }
  unfold mbind, M_bind, bind at 1. rewrite Hload.
  unfold bind. destruct (_full_index self _ w) as [[e|s] w']; done.
Qed.

Lemma index_without_state_is_full_witness :
  index (indexer_facts.sample_indexer []) false None indexer_facts.sample_world
  = let r := _full_index (indexer_facts.sample_indexer [])
               (or_default_extensions None) indexer_facts.sample_world in
    (Py.result_map inr r.1, r.2).
Proof.
  apply (index_without_state_is_full (indexer_facts.sample_indexer []) false None
           indexer_facts.sample_world).
  right. right. eexists. split; reflexivity.
Defined.

(** X19. What [_save_state] saves is what [_load_state] loads next,
    provided the serializer round-trips the state: the load raises
    nothing and returns the saved state. *)
Theorem saved_state_is_loaded self state w :
  json_loads self (json_dumps self state) = Some state ->
  (_load_state self (_save_state self state w).2).1 = inr (Some state).
Proof.
  intros Hround. rewrite indexer_facts.save_state_eq. simpl.
  unfold _load_state, mbind, M_bind, bind, get. simpl.
  by rewrite lookup_insert_eq, Hround.
Qed.

(** An indexer whose serializer knows one state. *)
Definition round_trip_indexer : IncrementalIndexer :=
  {| repo_path := "/repo";
     chunker := fun full_path source =>
       inr [indexer_facts.sample_chunk full_path source];
     embedder := fun _ => inr [0.25%float; 0.5%float];
     git := {| get_current_commit := "c2";
               get_changes_since := fun _ => [];
               get_all_tracked_files := fun _ => ["util.py"] |};
     sha256_hexdigest := fun content => "sha:" +:+ content;
     json_dumps := fun st => git_commit st;
     json_loads := fun data =>
       if String.eqb data "c1" then Some stale_state else None;
     now := "2024-05-01T12:00:00" |}.

Lemma saved_state_is_loaded_witness :
  (_load_state round_trip_indexer
     (_save_state round_trip_indexer stale_state indexer_facts.sample_world).2).1
  = inr (Some stale_state).
Proof.
  apply (saved_state_is_loaded round_trip_indexer stale_state
           indexer_facts.sample_world).
  reflexivity.
Defined.

(** *** Accounting of a full index *)

(** Files seen so far: each one counted as indexed or reported. *)
Lemma index_one_accounts self file_path u :
  let u' := (index_one self file_path u).2 in
  files_indexed (fi_stats u') + Py.len (index_errors (fi_stats u'))
  = files_indexed (fi_stats u) + Py.len (index_errors (fi_stats u)) + 1 /\
  (forall p, p ∈ map fst (map_to_list (fi_indexed_files u')) ->
     p = file_path \/ p ∈ map fst (map_to_list (fi_indexed_files u))).
Proof.
  unfold index_one, try_except, mbind, M_bind, bind, fi_lift.
  destruct (_index_file self file_path (fi_world u)) as [[e|chunks] w1]; simpl.
  - unfold Py.len. rewrite length_app. simpl. split; [lia|auto].
  - destruct (compute_file_hash self file_path w1) as [[e|h] w2]; simpl.
    + unfold Py.len. rewrite length_app. simpl. split; [lia|auto].
    + split; [lia|]. intros p (kv & -> & Hkv)%list_elem_of_fmap.
      destruct kv as [k v]. apply elem_of_map_to_list in Hkv.
      destruct (decide (k = file_path)) as [->|Hne]; [by left|right].
      rewrite lookup_insert_ne in Hkv by done.
      apply list_elem_of_fmap. exists (k, v). split; [done|].
      by apply elem_of_map_to_list.
Qed.

Lemma index_all_accounts self files : forall u,
  let u' := (for_each files (index_one self) u).2 in
  files_indexed (fi_stats u') + Py.len (index_errors (fi_stats u'))
  = files_indexed (fi_stats u) + Py.len (index_errors (fi_stats u)) + Py.len files /\
  (forall p, p ∈ map fst (map_to_list (fi_indexed_files u')) ->
     p ∈ files \/ p ∈ map fst (map_to_list (fi_indexed_files u))).
Proof.
  induction files as [|file files IH]; intros u; simpl.
  - split; [unfold Py.len; simpl; lia|auto].
  - unfold mbind, M_bind, bind.
    pose proof (indexer_facts.index_one_returns self file u) as Hret.
    destruct (index_one_accounts self file u) as [Hcount Hkeys].
    destruct (index_one self file u) as [[e|[]] u1]; simpl in *; [done|].
    destruct (IH u1) as [Hcount' Hkeys']. split.
    + rewrite Hcount', Hcount. unfold Py.len. simpl length. lia.
    + intros p [Hp|Hp]%Hkeys'; [left; by right|].
      apply Hkeys in Hp as [->|Hp]; [left; by left|by right].
Qed.

(** X20. A full index accounts for every tracked file: it always
    returns, and the number of files indexed plus the number of errors
    reported equals the number of files git listed. *)
Theorem full_index_accounts_for_every_file self extensions w :
  exists stats,
    (_full_index self extensions w).1 = inr stats /\
    files_indexed stats + Py.len (index_errors stats)
    = Py.len (get_all_tracked_files (git self) extensions).
Proof.
  unfold _full_index.
  set (files := get_all_tracked_files _ _).
  set (u0 := {| fi_world := w; fi_indexed_files := _; fi_stats := _ |}).
  pose proof (indexer_facts.for_each_returns files (index_one self)
                (indexer_facts.index_one_returns self) u0) as Hret.
  destruct (index_all_accounts self files u0) as [Hcount _].
  destruct (for_each files (index_one self) u0) as [[e|[]] u]; simpl in *; [done|].
  exists (fi_stats u). split; [done|]. rewrite Hcount. unfold Py.len. simpl. lia.
Qed.

(** *** Files that are gone *)

Lemma lift_index_file_missing self file_path u :
  fs (world u) !! full_path_of self file_path = None ->
  lift (_index_file self file_path) u = (inr [], u).
Proof.
  intros Hgone. unfold lift, _index_file, mbind, M_bind, bind, get. simpl.
  rewrite Hgone. by destruct u.
Qed.

(** X21. A file reported Added that is not on disk is recorded all the
    same: its turn of the loop calls neither chunker, embedder nor store,
    counts one file added with no chunks, and files the path under the
    empty hash. *)
Theorem added_missing_file_is_recorded self state change u :
  change_type change = ADDED ->
  fs (world u) !! full_path_of self (path change) = None ->
  process_change self state change u
  = (inr tt,
     {| world := world u;
        new_indexed_files := <[path change := ""]> (new_indexed_files u);
        stats := add_chunks_added 0 (add_files_added 1 (stats u)) |}).
Proof.
  intros Hkind Hgone. unfold process_change, try_except, apply_change.
  rewrite Hkind. unfold mbind, M_bind, bind.
  rewrite (lift_index_file_missing self (path change) u Hgone).
  rewrite indexer_facts.lift_compute_file_hash.
  unfold indexer_facts.current_hash. by rewrite Hgone.
Qed.

Definition vanished : FileChange :=
  {| path := "tmp.py"; change_type := ADDED; old_path := None; content_hash := None |}.

Lemma added_missing_file_is_recorded_witness :
  process_change (indexer_facts.sample_indexer [vanished]) indexer_facts.sample_state
    vanished indexer_facts.sample_update
  = (inr tt,
     {| world := world indexer_facts.sample_update;
        new_indexed_files :=
          <["tmp.py" := ""]> (new_indexed_files indexer_facts.sample_update);
        stats := add_chunks_added 0
                   (add_files_added 1 (stats indexer_facts.sample_update)) |}).
Proof.
  apply (added_missing_file_is_recorded (indexer_facts.sample_indexer [vanished])
           indexer_facts.sample_state vanished indexer_facts.sample_update);
    reflexivity.
Defined.

End indexer_more.

(** ** More on the chunker *)

Module chunker_more.
Import ast_chunker.

(** *** The blocks of a split function *)

(** One block of a split function: its line span, its lines, and how
    many of its first lines repeat the end of the block before it. *)
Record Block : Type := mkBlock {
  first_line : Z;
  last_line : Z;
  block_lines : list string;
  overlap : nat;
}.

(** The lines a block adds to the blocks before it. *)
Definition fresh (b : Block) : list string := drop (overlap b) (block_lines b).

(** The [BLOCK] chunks of the given blocks, numbered from [k] on. *)
Fixpoint blocks_from (self : ASTChunker) (file_path func_name : string) (k : Z)
    (bs : list Block) : list CodeChunk :=
  match bs with
  | [] => []
  | b :: bs' =>
      block_chunk self file_path func_name (first_line b) (last_line b) (block_lines b) k
      :: blocks_from self file_path func_name (k + 1) bs'
  end.

Lemma blocks_from_app self file_path func_name bs1 : forall k bs2,
  blocks_from self file_path func_name k (bs1 ++ bs2)
  = blocks_from self file_path func_name k bs1
    ++ blocks_from self file_path func_name (k + Z.of_nat (length bs1)) bs2.
Proof.
  induction bs1 as [|b bs1 IH]; intros k bs2; simpl.
  - by rewrite Z.add_0_r.
  - rewrite IH. do 3 f_equal. lia.
Qed.

(** A block overlaps by at most three lines, adds a line of its own,
    and spans as many lines as it holds. *)
Definition well_cut (b : Block) : Prop :=
  (overlap b <= 3)%nat /\ (overlap b < length (block_lines b))%nat /\
  last_line b - first_line b = Py.len (block_lines b).

(** How a block of [lines], the first [n] of them overlap, continues the
    block [before] it: the overlap is the last three lines of that block
    (all of them, when it has fewer), and that block was closed because
    the first new line would have taken it over 400 tokens.  The first
    block has no overlap. *)
Definition continues (before : option (list string)) (lines : list string) (n : nat)
    : Prop :=
  match before with
  | None => n = 0%nat
  | Some earlier =>
      take n lines = Py.slice_last OVERLAP_LINES earlier /\
      exists line,
        head (drop n lines) = Some line /\
        Py.sum (map line_tokens earlier) + line_tokens line > 400
  end.

(** Each block continues the one before it. *)
Fixpoint chained (before : option (list string)) (bs : list Block) : Prop :=
  match bs with
  | [] => True
  | b :: rest =>
      continues before (block_lines b) (overlap b) /\
      chained (Some (block_lines b)) rest
  end.

(** The lines of the last block of [bs], or of the block before them. *)
Definition lines_before (before : option (list string)) (bs : list Block)
    : option (list string) :=
  match last bs with
  | Some b => Some (block_lines b)
  | None => before
  end.

Lemma lines_before_cons before b bs :
  lines_before before (b :: bs) = lines_before (Some (block_lines b)) bs.
Proof.
  unfold lines_before. destruct bs as [|b0 bs]; [reflexivity|].
  change (last (b :: b0 :: bs)) with (last (b0 :: bs)).
  destruct (last (b0 :: bs)) eqn:Hlast; [reflexivity|].
  by apply last_None in Hlast.
Qed.

Lemma chained_snoc bs : forall before b,
  chained before bs ->
  continues (lines_before before bs) (block_lines b) (overlap b) ->
  chained before (bs ++ [b]).
Proof.
  induction bs as [|b0 bs IH]; intros before b Hchain Hlast; simpl.
  - done.
  - destruct Hchain as [Hfirst Hrest]. split; [done|].
    apply IH; [done|]. by rewrite lines_before_cons in Hlast.
Qed.

Lemma continues_grows before lines n line :
  (n <= length lines)%nat ->
  continues before lines n -> continues before (lines ++ [line]) n.
Proof.
  intros Hn. destruct before as [earlier|]; simpl; [|done].
  intros (Htake & first & Hhead & Hfull). split.
  - by rewrite take_app_le.
  - exists first. split; [|done]. rewrite drop_app_le by done.
    by destruct (drop n lines).
Qed.

(** The body loop: the chunks it adds are the chunks of some blocks,
    numbered on from [block_idx]; these blocks' fresh lines, followed by
    the fresh lines of the block still open, are the fresh lines of the
    block that was open, followed by the body lines read; and each of
    these blocks, as the block still open, continues the one before. *)
Lemma body_loop_blocks self file_path func_name first_row body_start_idx body_lines :
  forall i st n before,
    (n <= length (current_block st))%nat ->
    (current_block st <> [] -> (n < length (current_block st))%nat) ->
    (n <= 3)%nat ->
    current_tokens st = Py.sum (map line_tokens (current_block st)) ->
    continues before (current_block st) n ->
    exists bs n',
      let st' :=
        body_loop self file_path func_name first_row body_start_idx i body_lines st in
      split_chunks st'
      = split_chunks st ++ blocks_from self file_path func_name (block_idx st) bs /\
      block_idx st' = block_idx st + Z.of_nat (length bs) /\
      (n' <= length (current_block st'))%nat /\
      (current_block st' <> [] -> (n' < length (current_block st'))%nat) /\
      (n' <= 3)%nat /\
      drop n (current_block st) ++ body_lines
      = flat_map fresh bs ++ drop n' (current_block st') /\
      Forall well_cut bs /\
      chained before bs /\
      continues (lines_before before bs) (current_block st') n'.
Proof.
  induction body_lines as [|line rest IH];
    intros i st n before Hn Hpos H3 Htokens Hbefore.
  - exists [], n. simpl. rewrite !app_nil_r, Z.add_0_r. by repeat split.
  - simpl body_loop. destruct (_ && _)%bool eqn:Hfull.
    + apply andb_prop in Hfull as [Hover Hnonempty].
      assert (current_block st <> []) as Hne.
      { intros Heq. by rewrite Heq in Hnonempty. }
      apply Z.gtb_lt in Hover. rewrite Htokens in Hover.
      match goal with
      | |- context [body_loop _ _ _ _ _ _ rest ?s] =>
          destruct (IH (i + 1) s
                      (length (Py.slice_last OVERLAP_LINES (current_block st)))
                      (Some (current_block st)))
            as (bs & n' & Hchunks & Hidx & Hn' & Hpos' & H3' & Hcover & Hcut
                & Hchain & Hlast)
      end.
      * simpl. rewrite length_app. lia.
      * simpl. rewrite length_app. simpl. lia.
      * unfold Py.slice_last, OVERLAP_LINES. rewrite length_drop. lia.
      * simpl. rewrite map_app, sum_app. simpl. lia.
      * simpl. split; [by rewrite take_app_length|].
        exists line. rewrite drop_app_length. split; [done|]. lia.
      * simpl in Hchunks, Hidx, Hn', Hpos', Hcover, Hlast.
        exists ({| first_line :=
                     first_row + body_start_idx + i - Py.len (current_block st);
                   last_line :=
                     first_row + body_start_idx + i - Py.len (current_block st)
                     + Py.len (current_block st);
                   block_lines := current_block st; overlap := n |} :: bs), n'.
        simpl. rewrite Hchunks, Hidx, <- app_assoc. simpl.
        rewrite lines_before_cons. simpl.
        repeat split; try done; try lia.
        -- rewrite drop_app_length in Hcover. unfold fresh at 1. simpl.
           rewrite <- app_assoc, <- Hcover. done.
        -- constructor; [|done]. repeat split; simpl; [done|by apply Hpos|lia].
    + match goal with
      | |- context [body_loop _ _ _ _ _ _ rest ?s] =>
          destruct (IH (i + 1) s n before)
            as (bs & n' & Hchunks & Hidx & Hn' & Hpos' & H3' & Hcover & Hcut
                & Hchain & Hlast)
      end.
      * simpl. rewrite length_app. lia.
      * simpl. rewrite length_app. simpl. lia.
      * done.
      * simpl. rewrite map_app, sum_app, Htokens. simpl. lia.
      * simpl. by apply continues_grows.
      * simpl in Hchunks, Hidx, Hn', Hpos', Hcover, Hlast.
        exists bs, n'. simpl. repeat split; try done.
        rewrite drop_app_le in Hcover by done.
        by rewrite <- app_assoc in Hcover.
Qed.

(** The chunks of one kind of [kinds] that the chunker makes for a file. *)
Definition made_by (self : ASTChunker) (path : string) (kinds : list ChunkType)
    (c : CodeChunk) : Prop :=
  file_path c = path /\ language c = chunker_language self /\ In (chunk_type c) kinds.

Lemma made_by_more self path kinds kinds' c :
  (forall k, In k kinds -> In k kinds') ->
  made_by self path kinds c -> made_by self path kinds' c.
Proof. intros Hsub (? & ? & ?). repeat split; auto. Qed.

(** What [_split_large_function] returns: a header chunk, then the
    chunks of blocks that cover the body lines. *)
Lemma split_structure self path node content func_name :
  exists header bs,
    _split_large_function self path node content func_name
    = header :: blocks_from self path func_name 0 bs /\
    made_by self path [FUNCTION] header /\
    symbol_name header = Some func_name /\
    parent_symbol header = None /\
    start_line header = start_row node /\
    flat_map fresh bs
    = Py.slice_from
        (Z.to_nat
           (header_scan 0 (Py.split_on Py.newline (source_of content node)) [] false).2)
        (Py.split_on Py.newline (source_of content node)) /\
    Forall well_cut bs /\
    chained None bs.
Proof.
  unfold _split_large_function.
  destruct (header_scan 0 _ [] false) as [header_lines body_start_idx]. simpl snd.
  match goal with
  | |- context [body_loop self path func_name ?r ?b 0 ?ls ?st] =>
      destruct (body_loop_blocks self path func_name r b ls 0 st 0 None)
        as (bs & n' & Hchunks & Hidx & Hn' & Hpos' & H3' & Hcover & Hcut
            & Hchain & Hlast);
        [simpl; lia | done | lia | done | done |];
        set (st' := body_loop self path func_name r b 0 ls st) in *
  end.
  simpl in Hchunks, Hidx, Hcover.
  destruct (current_block st') as [|l ls] eqn:Hblock.
  - eexists _, bs. rewrite Hchunks. split; [reflexivity|].
    rewrite drop_nil, app_nil_r in Hcover. by repeat split; try (simpl; auto).
  - eexists _, (bs ++ [ {| first_line := end_row node - Py.len (l :: ls);
                           last_line := end_row node;
                           block_lines := l :: ls; overlap := n' |} ]).
    rewrite Hchunks, blocks_from_app, Hidx. simpl. split; [reflexivity|].
    repeat split; try (simpl; auto; fail).
    + rewrite flat_map_app, Hcover. simpl. by rewrite app_nil_r.
    + apply Forall_app. split; [done|]. constructor; [|done].
      repeat split; simpl; [done|by apply Hpos'|lia].
    + by apply chained_snoc.
Qed.

(** X22. A function too large for one chunk is split without losing a
    line: [_split_large_function] returns a header chunk of kind
    [FUNCTION] named after the function, then one chunk for each of some
    blocks of lines.  The first block has no overlap; every later block
    starts with the last three lines of the block before it (all its
    lines, when that block has fewer), and the block before it was closed
    because the later block's first new line would have taken it over
    400 tokens.  Each block adds at least one line of its own and spans
    as many lines as it holds, and the lines the blocks add, put end to
    end, are exactly the lines of the body in their order. *)
Theorem split_function_covers_the_body self path node content func_name :
  exists header bs,
    _split_large_function self path node content func_name
    = header :: blocks_from self path func_name 0 bs /\
    chunk_type header = FUNCTION /\
    symbol_name header = Some func_name /\
    start_line header = start_row node /\
    flat_map fresh bs
    = Py.slice_from
        (Z.to_nat
           (header_scan 0 (Py.split_on Py.newline (source_of content node)) [] false).2)
        (Py.split_on Py.newline (source_of content node)) /\
    Forall (fun b => (overlap b <= 3)%nat /\
                     (overlap b < length (block_lines b))%nat /\
                     last_line b - first_line b = Py.len (block_lines b))
      bs /\
    chained None bs.
Proof.
  destruct (split_structure self path node content func_name)
    as (header & bs & Hsplit & (_ & _ & Hkind) & Hname & _ & Hline & Hcover & Hcut
        & Hchain).
  exists header, bs. repeat split; try done.
  by destruct Hkind as [<-|[]].
Qed.

Lemma blocks_from_names self path func_name bs : forall k,
  map symbol_name (blocks_from self path func_name k bs)
  = map (fun i => Some (func_name +:+ "_block_" +:+ pretty i))
      (seqZ k (Z.of_nat (length bs))) /\
  Forall (fun c => chunk_type c = BLOCK /\ parent_symbol c = Some func_name /\
                   start_byte c = 0 /\ end_byte c = 0 /\ signature c = None)
    (blocks_from self path func_name k bs).
Proof.
  induction bs as [|b bs IH]; intros k; [done|].
  destruct (IH (k + 1)) as [Hnames Hall]. split.
  - simpl length. rewrite seqZ_cons by lia. simpl. rewrite Hnames.
    do 3 f_equal; lia.
  - simpl. constructor; [done|]. apply Hall.
Qed.

(** X23. The blocks of a split function are numbered in order: after
    the header, the k-th chunk (from 0) is a [BLOCK] named
    [<function>_block_<k>], its parent symbol is the function, and it
    carries no byte range (both offsets are 0) and no signature. *)
Theorem split_function_blocks_are_numbered self path node content func_name :
  exists header blocks,
    _split_large_function self path node content func_name = header :: blocks /\
    map symbol_name blocks
    = map (fun k => Some (func_name +:+ "_block_" +:+ pretty k))
        (seqZ 0 (Z.of_nat (length blocks))) /\
    Forall (fun c => chunk_type c = BLOCK /\ parent_symbol c = Some func_name /\
                     start_byte c = 0 /\ end_byte c = 0 /\ signature c = None)
      blocks.
Proof.
  destruct (split_structure self path node content func_name)
    as (header & bs & Hsplit & _).
  exists header, (blocks_from self path func_name 0 bs). split; [done|].
  destruct (blocks_from_names self path func_name bs 0) as [Hnames Hall].
  split; [|done]. rewrite Hnames. f_equal. f_equal.
  clear. generalize 0. induction bs as [|b bs IH]; intros k; simpl; [done|].
  specialize (IH (k + 1)). lia.
Qed.

(** *** The layout of [chunk_file]'s result *)

Lemma blocks_from_made self path func_name bs : forall k,
  Forall (made_by self path [FUNCTION; BLOCK]) (blocks_from self path func_name k bs).
Proof.
  induction bs as [|b bs IH]; intros k; simpl; constructor; [|apply IH].
  repeat split; simpl; auto.
Qed.

Lemma split_made self path node content func_name :
  Forall (made_by self path [FUNCTION; BLOCK])
    (_split_large_function self path node content func_name).
Proof.
  destruct (split_structure self path node content func_name)
    as (header & bs & -> & Hheader & _).
  constructor; [|apply blocks_from_made].
  eapply made_by_more; [|exact Hheader]. simpl. tauto.
Qed.

Lemma function_chunks_made self path content node chunks :
  function_chunks self path content node = inr chunks ->
  Forall (made_by self path [FUNCTION; BLOCK]) chunks.
Proof.
  unfold function_chunks. destruct (negb _); [by intros [= <-]|].
  destruct (_ >? _).
  - intros [= <-]. apply split_made.
  - destruct (_extract_calls self node content) as [e|calls]; [done|].
    intros [= <-]. constructor; [|done]. repeat split; simpl; auto.
Qed.

Lemma try_map_all {A B : Type} (f : A -> Py.result (list B)) (P : B -> Prop) :
  (forall x ys, f x = inr ys -> Forall P ys) ->
  forall l r, Py.try_map f l = inr r -> Forall P (concat r).
Proof.
  intros Hf. induction l as [|x l IH]; intros r; simpl.
  - by intros [= <-].
  - destruct (f x) as [e|ys] eqn:Hx; [done|].
    destruct (Py.try_map f l) as [e|yss]; [done|].
    intros [= <-]. simpl. apply Forall_app. split; [by eapply Hf|by apply IH].
Qed.

Lemma extract_functions_made self path content tree chunks :
  _extract_functions self path content tree = inr chunks ->
  Forall (made_by self path [FUNCTION; BLOCK]) chunks.
Proof.
  unfold _extract_functions.
  destruct (Py.try_map _ (children tree)) as [e|r] eqn:Hr; [done|].
  intros [= <-]. eapply try_map_all; [|exact Hr].
  intros node ys. apply function_chunks_made.
Qed.

Lemma class_chunks_made self path content node :
  Forall (made_by self path [CLASS; METHOD]) (class_chunks self path content node).
Proof.
  unfold class_chunks. destruct (_ <=? _).
  - constructor; [|done]. repeat split; simpl; auto.
  - constructor; [repeat split; simpl; auto|].
    apply Forall_map, Forall_forall. intros method _. repeat split; simpl; auto.
Qed.

Lemma extract_classes_made self path content tree :
  Forall (made_by self path [CLASS; METHOD]) (_extract_classes self path content tree).
Proof.
  unfold _extract_classes.
  induction (_find_nodes tree "class_definition") as [|node nodes IH]; simpl; [done|].
  apply Forall_app. split; [apply class_chunks_made|done].
Qed.

Lemma extract_module_chunk_made self path content tree :
  Forall (made_by self path [MODULE])
    (option_list (_extract_module_chunk self path content tree)) /\
  (length (option_list (_extract_module_chunk self path content tree)) <= 1)%nat.
Proof.
  unfold _extract_module_chunk.
  destruct (module_scan content (children tree) [] 0) as [[|part parts] end_line];
    simpl; split; try lia; [done|].
  constructor; [|done]. repeat split; simpl; auto.
Qed.

Lemma made_by_finish self path kinds chunks :
  Forall (made_by self path kinds) chunks ->
  Forall (made_by self path kinds) (map (finish (sha256_hexdigest self)) chunks).
Proof. intros Hall. apply Forall_map. eapply Forall_impl; [exact Hall|]. by intros c. Qed.

(** X24. The layout of a file's chunks: [chunk_file] returns first the
    [FILE] chunk, which spans line 0 to the file's number of newlines,
    then at most one [MODULE] chunk, then the [CLASS] and [METHOD] chunks,
    then the [FUNCTION] and [BLOCK] chunks; never a [PATTERN] chunk.
    Every chunk carries the file's path and the chunker's language, and
    its token estimate is a quarter of its content's length, rounded
    down. *)
Theorem chunk_file_layout self path content chunks :
  chunk_file self path content = inr chunks ->
  exists file_chunk module_chunks class_chunks function_chunks,
    chunks = file_chunk :: module_chunks ++ class_chunks ++ function_chunks /\
    chunk_type file_chunk = FILE /\
    start_line file_chunk = 0 /\
    end_line file_chunk = Py.count_char Py.newline content /\
    (length module_chunks <= 1)%nat /\
    Forall (fun c => chunk_type c = MODULE) module_chunks /\
    Forall (fun c => chunk_type c = CLASS \/ chunk_type c = METHOD) class_chunks /\
    Forall (fun c => chunk_type c = FUNCTION \/ chunk_type c = BLOCK) function_chunks /\
    Forall (fun c => file_path c = path /\ language c = chunker_language self /\
                     tokens_estimate c = Py.str_len (ast_chunker.content c) / 4)
      chunks.
Proof.
  unfold chunk_file.
  destruct (_extract_functions self path content (parser self content))
    as [e|functions] eqn:Hfunctions; [done|].
  intros [= <-].
  pose proof (extract_functions_made _ _ _ _ _ Hfunctions) as Hf.
  pose proof (extract_classes_made self path content (parser self content)) as Hc.
  destruct (extract_module_chunk_made self path content (parser self content))
    as [Hm Hone].
  apply made_by_finish in Hf, Hc, Hm.
  eexists _, _, _, _. simpl map. rewrite !map_app. split; [reflexivity|].
  split; [done|]. split; [done|]. split; [done|].
  split; [by rewrite length_map|].
  split; [eapply Forall_impl; [exact Hm|]; by intros c (_ & _ & [<-|[]])|].
  split; [eapply Forall_impl; [exact Hc|]; intros c (_ & _ & Hk); simpl in Hk;
          intuition auto|].
  split; [eapply Forall_impl; [exact Hf|]; intros c (_ & _ & Hk); simpl in Hk;
          intuition auto|].
  constructor; [done|]. rewrite <- !map_app. apply Forall_map, Forall_forall.
  intros c Hin. simpl. split; [|split; [|done]].
  - apply elem_of_app in Hin as [Hin|Hin]; [|apply elem_of_app in Hin as [Hin|Hin]].
    + destruct (extract_module_chunk_made self path content (parser self content))
        as [Hm' _]. by destruct (proj1 (Forall_forall _ _) Hm' c Hin).
    + by destruct (proj1 (Forall_forall _ _)
                     (extract_classes_made self path content (parser self content))
                     c Hin).
    + by destruct (proj1 (Forall_forall _ _)
                     (extract_functions_made _ _ _ _ _ Hfunctions) c Hin).
  - apply elem_of_app in Hin as [Hin|Hin]; [|apply elem_of_app in Hin as [Hin|Hin]].
    + destruct (extract_module_chunk_made self path content (parser self content))
        as [Hm' _]. by destruct (proj1 (Forall_forall _ _) Hm' c Hin) as (_ & ? & _).
    + by destruct (proj1 (Forall_forall _ _)
                     (extract_classes_made self path content (parser self content))
                     c Hin) as (_ & ? & _).
    + by destruct (proj1 (Forall_forall _ _)
                     (extract_functions_made _ _ _ _ _ Hfunctions) c Hin) as (_ & ? & _).
Qed.

Definition sample_chunks : list CodeChunk :=
  match chunk_file chunker_facts.first_run "app.py" chunker_facts.sample_source with
  | inr chunks => chunks
  | inl _ => []
  end.

Lemma chunk_file_layout_witness :
  exists file_chunk module_chunks class_chunks function_chunks,
    sample_chunks = file_chunk :: module_chunks ++ class_chunks ++ function_chunks /\
    chunk_type file_chunk = FILE /\
    start_line file_chunk = 0 /\
    end_line file_chunk = Py.count_char Py.newline chunker_facts.sample_source /\
    (length module_chunks <= 1)%nat /\
    Forall (fun c => chunk_type c = MODULE) module_chunks /\
    Forall (fun c => chunk_type c = CLASS \/ chunk_type c = METHOD) class_chunks /\
    Forall (fun c => chunk_type c = FUNCTION \/ chunk_type c = BLOCK) function_chunks /\
    Forall (fun c => file_path c = "app.py" /\
                     language c = chunker_language chunker_facts.first_run /\
                     tokens_estimate c = Py.str_len (ast_chunker.content c) / 4)
      sample_chunks.
Proof.
  apply (chunk_file_layout chunker_facts.first_run "app.py" chunker_facts.sample_source
           sample_chunks).
  vm_compute. reflexivity.
Defined.

(** *** When [chunk_file] returns *)










End chunker_more.
